(** * Course catalogue: REST handlers, token resolution and listing filter

    A shallow embedding of the TypeScript sources of the course-catalogue
    application, and the properties its specification states about them.

    Layout, following the source tree:
    - [Js]            the fragment of JavaScript the handlers rely on:
                      JSON values, truthiness, [||], property access,
                      [===], [Math.round], [parseInt], string helpers;
    - [Binary64]      the rounding of the arithmetic on doubles;
    - [Server]        process environment, the external services and the
                      state-and-exception monad the handlers run in;
    - [Admin]         lib/memberstack-admin.ts;
    - [Auth]          app/api/auth/verify-token/route.ts and
                      lib/memberstack-api.ts;
    - [CoursesRoute]  app/api/courses/route.ts;
    - [CourseRoute]   app/api/courses/[id]/route.ts;
    - [SeedRoute]     app/api/seed-courses/route.ts;
    - [Client]        lib/memberstack-client.ts;
    - [CoursesPage]   app/courses/page.tsx;
    - [CoursesPageLoad]  the loading of the courses and the category
                      list of app/courses/page.tsx;
    - [ClientSession] the session kept in the browser:
                      lib/memberstack-client.ts, lib/data-helpers.ts,
                      lib/mcp-client.ts and lib/courses-api.ts;
    - [Lessons]       [listLessons] and app/api/lessons/route.ts;
    - [NewCourseForm] the tags of the creation form. *)

From Stdlib Require Import Ascii QArith Qcanon Qround Sorted Lqa.
From stdpp Require Import gmap strings list fin_maps numbers pretty.

Set Default Proof Using "Type".
Local Open Scope string_scope.

(* ===================================================================== *)
(** * JavaScript values *)
(* ===================================================================== *)

Module Js.

(** JSON-like values.  A number is the rational it denotes; [NaN] and
    the infinities are not values of the model.  The products and
    quotients of the price conversions are rounded as doubles are
    ([Binary64]).  An object is a finite map from property names to
    values. *)
#[local] Unset Elimination Schemes.
Inductive value : Type :=
  | VUndef
  | VNull
  | VBool (b : bool)
  | VNum (q : Qc)
  | VStr (s : string)
  | VArr (l : list value)
  | VObj (m : gmap string value).
#[local] Set Elimination Schemes.

Abbreviation obj := (gmap string value).

Definition num (z : Z) : value := VNum (Q2Qc (inject_Z z)).

Definition nonempty (s : string) : bool :=
  match s with
  | EmptyString => false
  | String _ _ => true
  end.

(** [!!v]: every value is truthy except [undefined], [null], [false],
    [0] and the empty string. *)
Definition truthy (v : value) : bool :=
  match v with
  | VUndef | VNull => false
  | VBool b => b
  | VNum q => negb (bool_decide (q = 0%Qc))
  | VStr s => nonempty s
  | VArr _ | VObj _ => true
  end.

(** [a || b] and [a && b] return one of their operands. *)
Definition or_else (a b : value) : value := if truthy a then a else b.
Definition and_then (a b : value) : value := if truthy a then b else a.

Infix "|||" := or_else (at level 50, left associativity).
Infix "&&&" := and_then (at level 40, left associativity).

(** [v?.k], and [v.k] where [v] is known not to be [null] or
    [undefined]: reading a property that a value does not have gives
    [undefined].  The handlers only read data properties of parsed JSON,
    never [length] or a method. *)
Definition get (v : value) (k : string) : value :=
  match v with
  | VObj m => default VUndef (m !! k)
  | _ => VUndef
  end.

Definition field (m : obj) (k : string) : value := default VUndef (m !! k).

(** [a === b].  Two objects (or arrays) are equal only when they are the
    same reference; the operands compared below come from two different
    JSON documents, so for them the answer is [false]. *)
Definition strict_eq (a b : value) : bool :=
  match a, b with
  | VUndef, VUndef | VNull, VNull => true
  | VBool x, VBool y => bool_decide (x = y)
  | VNum x, VNum y => bool_decide (x = y)
  | VStr x, VStr y => bool_decide (x = y)
  | _, _ => false
  end.

(** [{...v}]: spreading an object copies its properties; an array
    contributes its indices, a string its characters, anything else
    nothing. *)
Definition indexed (l : list value) : obj :=
  list_to_map (imap (fun i v => (pretty i, v)) l).

Fixpoint chars (s : string) : list value :=
  match s with
  | EmptyString => []
  | String c r => VStr (String c EmptyString) :: chars r
  end.

Definition spread (v : value) : obj :=
  match v with
  | VObj m => m
  | VArr l => indexed l
  | VStr s => indexed (chars s)
  | _ => ∅
  end.

(** ** Numbers *)

(** [Math.round x]: the nearest integer, ties towards plus infinity. *)
Definition math_round (x : Qc) : Z := Qfloor (x + Q2Qc (1 # 2))%Qc.

Definition qc_of_Z (z : Z) : Qc := Q2Qc (inject_Z z).

(** ** Strings *)

Definition is_upper (c : ascii) : bool :=
  let n := nat_of_ascii c in (65 <=? n)%nat && (n <=? 90)%nat.

Definition lower_ascii (c : ascii) : ascii :=
  if is_upper c then ascii_of_nat (nat_of_ascii c + 32) else c.

(** [s.toLowerCase()] on the ASCII letters; other bytes are kept. *)
Fixpoint toLowerCase (s : string) : string :=
  match s with
  | EmptyString => EmptyString
  | String c r => String (lower_ascii c) (toLowerCase r)
  end.

(** [s.startsWith(p)]. *)
Definition startsWith (s p : string) : bool := String.prefix p s.

(** [hay.includes(needle)]. *)
Fixpoint includes (hay needle : string) : bool :=
  String.prefix needle hay ||
  match hay with
  | EmptyString => false
  | String _ r => includes r needle
  end.

(** [s.substring(n)]. *)
Fixpoint substring_from (n : nat) (s : string) : string :=
  match n, s with
  | O, _ => s
  | S n', String _ r => substring_from n' r
  | S _, EmptyString => EmptyString
  end.

(** ** [parseInt(s, 10)] *)

Definition is_space (c : ascii) : bool :=
  let n := nat_of_ascii c in
  ((9 <=? n)%nat && (n <=? 13)%nat) || (n =? 32)%nat.

Definition digit_of (c : ascii) : option Z :=
  let n := nat_of_ascii c in
  if ((48 <=? n)%nat && (n <=? 57)%nat) then Some (Z.of_nat (n - 48)) else None.

Fixpoint skip_space (s : string) : string :=
  match s with
  | String c r => if is_space c then skip_space r else s
  | EmptyString => s
  end.

(** The longest prefix of decimal digits, [None] when it is empty. *)
Fixpoint digits (s : string) (acc : option Z) : option Z :=
  match s with
  | String c r =>
      match digit_of c with
      | Some d => digits r (Some (10 * default 0%Z acc + d)%Z)
      | None => acc
      end
  | EmptyString => acc
  end.

(** [None] stands for [NaN]. *)
Definition parseInt_string (s : string) : option Z :=
  match skip_space s with
  | String "-" r => Z.opp <$> digits r None
  | String "+" r => digits r None
  | s' => digits s' None
  end.

(** What [JSON.parse (JSON.stringify v)] leaves of [v]: properties whose
    value is [undefined] are dropped, and [undefined] inside an array
    becomes [null]. *)
Fixpoint wire (v : value) : value :=
  match v with
  | VArr l =>
      VArr (map (fun x => match x with VUndef => VNull | _ => wire x end) l)
  | VObj m =>
      VObj (omap (fun x => match x with
                           | VUndef => None
                           | _ => Some (wire x)
                           end) m)
  | _ => v
  end.

Definition wire_obj (m : obj) : obj :=
  omap (fun x => match x with VUndef => None | _ => Some (wire x) end) m.

(** An object literal [{k1: v1, ..., kn: vn}] with distinct keys. *)
Definition object (l : list (string * value)) : value := VObj (list_to_map l).

Definition join_comma (l : list string) : string :=
  match l with
  | [] => ""
  | x :: r => fold_left (fun acc y => acc +:+ "," +:+ y) r x
  end.

(** [String(v)].  The decimal rendering of a number
    ([Number.prototype.toString]) belongs to the runtime and is taken as
    a parameter. *)
Fixpoint to_string (number_to_string : Qc -> string) (v : value) : string :=
  match v with
  | VUndef => "undefined"
  | VNull => "null"
  | VBool true => "true"
  | VBool false => "false"
  | VNum q => number_to_string q
  | VStr s => s
  | VArr l =>
      join_comma
        (map (fun x => match x with
                       | VUndef | VNull => ""
                       | _ => to_string number_to_string x
                       end) l)
  | VObj _ => "[object Object]"
  end.

(** [parseInt(v, 10)] first converts its argument to a string. *)
Definition parseInt (number_to_string : Qc -> string) (v : value) : option Z :=
  parseInt_string (to_string number_to_string v).

(** [Number(v)] for the operand of an arithmetic operator; [None] is
    [NaN].  The conversion of a string, an array or an object is the
    runtime's and is taken as a parameter. *)
Definition to_number (coerce : value -> option Qc) (v : value) : option Qc :=
  match v with
  | VNum q => Some q
  | VNull => Some 0%Qc
  | VBool true => Some 1%Qc
  | VBool false => Some 0%Qc
  | VUndef => None
  | _ => coerce v
  end.

End Js.

(* ===================================================================== *)
(** * Binary64 arithmetic *)
(* ===================================================================== *)

(** A JavaScript number is a double.  The result of an arithmetic
    operation is the double nearest to the exact result, ties going to
    the one whose significand is even; a result beyond the largest
    double is an infinity.  A finite double is a rational, so rounding
    is a function on rationals. *)
Module Binary64.

(** [floor (log2 (n / d))]. *)
Definition ilog2 (n d : positive) : Z :=
  let k := (Z.log2 (Z.pos n) - Z.log2 (Z.pos d))%Z in
  if (0 <=? k)%Z
  then if (Z.pos d * 2 ^ k <=? Z.pos n)%Z then k else (k - 1)%Z
  else if (Z.pos d <=? Z.pos n * 2 ^ (- k))%Z then k else (k - 1)%Z.

(** The integer nearest to [a / b], ties to the even one. *)
Definition rne_div (a b : Z) : Z :=
  let q := (a / b)%Z in
  match (2 * (a mod b) ?= b)%Z with
  | Lt => q
  | Gt => (q + 1)%Z
  | Eq => if Z.even q then q else (q + 1)%Z
  end.

(** [m * 2 ^ e]. *)
Definition scaled (m e : Z) : Qc :=
  if (0 <=? e)%Z then Q2Qc (inject_Z (m * 2 ^ e))
  else Q2Qc (m # Z.to_pos (2 ^ (- e))).

(** The exponent of the last place of the doubles around [n / d]:
    53 significant bits, and no exponent below that of the subnormal
    numbers. *)
Definition ulp_exponent (n d : positive) : Z :=
  (Z.max (ilog2 n d) (-1022) - 52)%Z.

Definition significand (n d : positive) : Z :=
  let e := ulp_exponent n d in
  if (0 <=? e)%Z then rne_div (Z.pos n) (Z.pos d * 2 ^ e)
  else rne_div (Z.pos n * 2 ^ (- e)) (Z.pos d).

(** Whether [m * 2 ^ e] is beyond the largest double. *)
Definition overflows (m e : Z) : bool :=
  (971 <? e)%Z || ((e =? 971)%Z && (2 ^ 53 <=? m)%Z).

(** The double nearest to [n / d], [None] when it is an infinity. *)
Definition nearest (n d : positive) : option Qc :=
  let e := ulp_exponent n d in
  let m := significand n d in
  if overflows m e then None else Some (scaled m e).

(** Rounding to binary64, to nearest, ties to even. *)
Definition round64 (x : Qc) : option Qc :=
  match Qnum x with
  | Z0 => Some 0%Qc
  | Z.pos n => nearest n (Qden x)
  | Z.neg n => Qcopp <$> nearest n (Qden x)
  end.

End Binary64.

(* ===================================================================== *)
(** * The server: environment, external services, effects *)
(* ===================================================================== *)

Module Server.
Import Js.

(** The result of an awaited computation: a value, or an [Error] thrown
    with the given message. *)
Inductive outcome (A : Type) : Type :=
  | Ret (a : A)
  | Throw (message : string).
Arguments Ret {A} a.
Arguments Throw {A} message.

(** A record of the external data table: [{id, data: {...}}]. *)
Record record : Type := MkRecord { rec_id : string; rec_data : obj }.

(** Everything a handler can observe or change.
    - [secretKey], [appId]: [process.env.MEMBERSTACK_SECRET_KEY] and
      [process.env.MEMBERSTACK_APP_ID];
    - [sdk_verifyToken]: [admin.verifyToken({token})] of the membership
      SDK, an external collaborator;
    - [table]: the records of the external data table [courses], in the
      order the service lists them;
    - [fresh_id], [refuses]: the identifier the service gives a new
      record, and the error with which it refuses one, if it does;
    - [put_merges]: whether the service, on
      [PUT /v2/data-tables/courses/records/:id], keeps the stored fields
      that the request does not send, or stores what it is sent and
      nothing else; the repository only sends the fields and does not
      say which, so both services are worlds;
    - [clock], [reads]: the successive readings of the system clock in
      milliseconds and how many were taken; [date_iso] is
      [Date.prototype.toISOString];
    - [number_to_string], [coerce_number]: the runtime's conversions
      (see [Js.to_string], [Js.to_number]). *)
Record world : Type := MkWorld {
  secretKey : option string;
  appId : option string;
  sdk_verifyToken : value -> outcome value;
  table : list record;
  fresh_id : list record -> string;
  refuses : obj -> option string;
  put_merges : bool;
  clock : nat -> Z;
  reads : nat;
  date_iso : Z -> string;
  number_to_string : Qc -> string;
  coerce_number : value -> option Qc;
}.

Definition set_table (t : list record) (w : world) : world :=
  MkWorld (secretKey w) (appId w) (sdk_verifyToken w) t (fresh_id w)
          (refuses w) (put_merges w) (clock w) (reads w) (date_iso w)
          (number_to_string w) (coerce_number w).

Definition set_reads (n : nat) (w : world) : world :=
  MkWorld (secretKey w) (appId w) (sdk_verifyToken w) (table w) (fresh_id w)
          (refuses w) (put_merges w) (clock w) n (date_iso w)
          (number_to_string w) (coerce_number w).

(** [!!process.env.X]: set and not empty. *)
Definition env_set (o : option string) : bool :=
  match o with
  | Some s => nonempty s
  | None => false
  end.

Definition env_value (o : option string) : value :=
  match o with
  | Some s => VStr s
  | None => VUndef
  end.

(** ** The monad of handlers: state and exceptions *)

Definition M (A : Type) : Type := world -> outcome A * world.

Definition ret {A} (a : A) : M A := fun w => (Ret a, w).
Definition throw {A} (message : string) : M A := fun w => (Throw message, w).

Definition bind {A B} (m : M A) (k : A -> M B) : M B :=
  fun w =>
    match m w with
    | (Ret a, w') => k a w'
    | (Throw e, w') => (Throw e, w')
    end.

(** [try { m } catch (error) { h error.message }]. *)
Definition try_catch {A} (m : M A) (h : string -> M A) : M A :=
  fun w =>
    match m w with
    | (Ret a, w') => (Ret a, w')
    | (Throw e, w') => h e w'
    end.

Definition lift {A} (o : outcome A) : M A := fun w => (o, w).
Definition ask {A} (f : world -> A) : M A := fun w => (Ret (f w), w).
Definition get_world : M world := fun w => (Ret w, w).

Notation "'let*' x := m 'in' k" := (bind m (fun x => k))
  (at level 10, x name, m at level 100, k at level 200).

(** [new Date().toISOString()]: take the next reading of the clock. *)
Definition now_iso : M string :=
  fun w => (Ret (date_iso w (clock w (reads w))), set_reads (S (reads w)) w).

(** [Date.now()]. *)
Definition date_now : M Z :=
  fun w => (Ret (clock w (reads w)), set_reads (S (reads w)) w).

(** ** Requests and responses *)

(** A request: the [Authorization] header, the query parameters of the
    URL, and what [request.json()] resolves to (or throws). *)
Record request : Type := MkRequest {
  authorization : option string;
  searchParams : gmap string string;
  json_body : outcome value;
}.

(** [NextResponse.json(body, {status})]; the body goes over the wire. *)
Record response : Type := MkResponse { status : Z; payload : value }.

Definition json (body : value) (st : Z) : response := MkResponse st (wire body).

Definition respond (body : list (string * value)) (st : Z) : M response :=
  ret (json (object body) st).

(** [authHeader?.startsWith("Bearer ") ? authHeader.substring(7) : null]. *)
Definition bearer_token (req : request) : option string :=
  match authorization req with
  | Some h => if startsWith h "Bearer " then Some (substring_from 7 h) else None
  | None => None
  end.

(** A string that may be [null], as a value. *)
Definition nullable (o : option string) : value :=
  match o with
  | Some s => VStr s
  | None => VNull
  end.

(** [searchParams.get(k)]. *)
Definition query (req : request) (k : string) : value :=
  nullable (searchParams req !! k).

(** [!secretKey || !appId]. *)
Definition misconfigured (w : world) : bool :=
  negb (env_set (secretKey w)) || negb (env_set (appId w)).

(** [error?.message || fallback]. *)
Definition text_or (e fallback : string) : string :=
  if nonempty e then e else fallback.

Definition message_or (e fallback : string) : value := VStr (text_or e fallback).

(** [x * 100] and [x / 100] in binary64; [None] is an infinity. *)
Definition times100 (x : Qc) : option Qc :=
  Binary64.round64 (x * Q2Qc (100 # 1))%Qc.

Definition over100 (x : Qc) : option Qc :=
  Binary64.round64 (x / Q2Qc (100 # 1))%Qc.

(** [course.priceCents ? course.priceCents / 100 : (course.price || 0)].
    A division whose operand is not a number gives [NaN], which the
    response carries as [null], as it does an infinity. *)
Definition div100 (w : world) (v : value) : value :=
  match to_number (coerce_number w) v with
  | Some q =>
      match over100 q with
      | Some x => VNum x
      | None => VNull
      end
  | None => VNull
  end.

Definition read_price (w : world) (course : obj) : value :=
  if truthy (field course "priceCents")
  then div100 w (field course "priceCents")
  else field course "price" ||| num 0.

(** [Math.round(price * 100)]; [NaN] is written as [null] on the wire,
    and so is an infinity. *)
Definition round_cents (w : world) (price : value) : value :=
  match to_number (coerce_number w) price with
  | Some q =>
      match times100 q with
      | Some x => num (math_round x)
      | None => VNull
      end
  | None => VNull
  end.

End Server.

(* ===================================================================== *)
(** * lib/memberstack-admin.ts *)
(* ===================================================================== *)

Module Admin.
Import Js Server.

(** The data-table service is an external collaborator.  It is modelled
    by the table it keeps and by the response shapes the source
    documents:
    - a [findUnique] query answers [{data: {record: {id, data}}}] when
      the record exists; when it does not, neither [findMany] nor the
      direct [GET] finds it, and the last answers 404;
    - a [findMany] query with [take] and [after] answers a page of the
      matching records, [{data: {records, pagination: {hasMore,
      endCursor}}}]; the cursor is the position reached;
    - a create answers [{data: {id, data}}] for the record it stores;
    - an update merges the data it is sent into the stored data and
      answers the record; an update or a delete of a record the service
      does not have is an error.
    The service is reachable. *)

Definition find_record (id : string) (t : list record) : option record :=
  List.find (fun r => bool_decide (rec_id r = id)) t.

Definition replace_record (r' : record) (t : list record) : list record :=
  map (fun r => if bool_decide (rec_id r = rec_id r') then r' else r) t.

Definition remove_record (id : string) (t : list record) : list record :=
  List.filter (fun r => negb (bool_decide (rec_id r = id))) t.

Definition not_configured : string := "MEMBERSTACK_SECRET_KEY not configured".

(** The error of the service for a record it does not have. *)
Definition service_missing : string := "Record not found".

(** [if (!secretKey) throw new Error(...)]. *)
Definition require_secret : M unit :=
  fun w => if env_set (secretKey w) then (Ret tt, w) else (Throw not_configured, w).

(** [try { m } catch (error) { throw new Error(`${prefix}: ${error.message}`) }]. *)
Definition rethrow {A} (prefix : string) (m : M A) : M A :=
  try_catch m (fun e => throw (prefix +:+ ": " +:+ text_or e "Unknown error")).

(** [{ ...recordData, id: record.id }]: the identifier is set last. *)
Definition course_of_record (r : record) : obj :=
  <["id" := VStr (rec_id r)]> (rec_data r).

(** [{ id: record.id || recordData.id, ...recordData }]: a field [id]
    of the data overrides the identifier of the record. *)
Definition listed_course (r : record) : obj :=
  rec_data r ∪ {[ "id" := VStr (rec_id r) ||| field (rec_data r) "id" ]}.

(** [{ id: record.id, ...(record.data || record) }]. *)
Definition written_course (r : record) : obj :=
  rec_data r ∪ {[ "id" := VStr (rec_id r) ]}.

(** [getCourse]: the course of the record [findUnique] answers, [null]
    when the three lookups miss. *)
Definition getCourse (courseId : string) : M (option obj) :=
  let* _ := require_secret in
  rethrow "Failed to get course"
    (let* t := ask table in
     ret (course_of_record <$> find_record courseId t)).

Definition pageSize : nat := 100.

(** One [findMany] query: the page after [cursor] and
    [pagination.hasMore]. *)
Definition query_page (matching : list record) (cursor : nat)
    : list record * bool :=
  (take pageSize (drop cursor matching),
   (cursor + pageSize <? length matching)%nat).

(** [while (hasMore) { ... }]: pages are fetched until the service has
    no more, a page is empty, or more than 1000 records are held.  A
    continued iteration holds 100 records more, so the body runs at most
    11 times ([Facts.fetch_pages_enough]). *)
Fixpoint fetch_pages (fuel : nat) (matching : list record) (cursor : nat)
    (allRecords : list record) : list record :=
  match fuel with
  | O => allRecords
  | S fuel' =>
      let (records, more) := query_page matching cursor in
      let allRecords' := (allRecords ++ records)%list in
      let hasMore :=
        more && negb (length records =? 0)%nat
        && negb (1000 <? length allRecords')%nat in
      if hasMore
      then fetch_pages fuel' matching (cursor + length records) allRecords'
      else allRecords'
  end.

Definition listCourses (ownerId : value) : M (list obj) :=
  let* _ := require_secret in
  rethrow "Failed to list courses"
    (let* t := ask table in
     let matching :=
       if truthy ownerId
       then List.filter (fun r => strict_eq (field (rec_data r) "owner_id") ownerId) t
       else t in
     ret (map listed_course (fetch_pages 11 matching 0 []))).

Definition createCourse (course : obj) : M obj :=
  let* _ := require_secret in
  let* now := now_iso in
  let courseData :=
    <["updated_at" := VStr now]> (<["created_at" := VStr now]> course) in
  rethrow "Failed to create course"
    (fun w =>
       match refuses w (wire_obj courseData) with
       | Some e => (Throw e, w)
       | None =>
           let r := MkRecord (fresh_id w (table w)) (wire_obj courseData) in
           (Ret (rec_data r ∪ (courseData ∪ {[ "id" := VStr (rec_id r) ]})),
            set_table (table w ++ [r]) w)
       end).

(** The data of a record after the service has been sent [sent] for
    it: the fields sent, over the stored ones when the service
    merges. *)
Definition put_data (merges : bool) (sent stored : obj) : obj :=
  if merges then sent ∪ stored else sent.

(** [updateCourse]: sends [{data: {...updates, updated_at}}] for the
    record and returns the record the service answers with. *)
Definition updateCourse (courseId : string) (updates : obj) : M obj :=
  let* _ := require_secret in
  let* now := now_iso in
  let updateData := <["updated_at" := VStr now]> updates in
  rethrow "Failed to update course"
    (fun w =>
       match find_record courseId (table w) with
       | None => (Throw service_missing, w)
       | Some r =>
           let r' :=
             MkRecord (rec_id r)
               (put_data (put_merges w) (wire_obj updateData) (rec_data r)) in
           (Ret (written_course r'), set_table (replace_record r' (table w)) w)
       end).

Definition deleteCourse (courseId : string) : M bool :=
  let* _ := require_secret in
  rethrow "Failed to delete course"
    (fun w =>
       match find_record courseId (table w) with
       | None => (Throw service_missing, w)
       | Some _ => (Ret true, set_table (remove_record courseId (table w)) w)
       end).

End Admin.

(* ===================================================================== *)
(** * Token verification *)
(* ===================================================================== *)

Module Auth.
Import Js Server.

(** app/api/auth/verify-token/route.ts, [POST]. *)
Definition body_token (req : request) : M value :=
  match json_body req with
  | Ret VNull | Ret VUndef =>
      throw "Cannot read properties of null (reading 'token')"
  | Ret b => ret (get b "token" ||| VNull)
  | Throw _ => ret VNull
  end.

Definition verify_token_route (req : request) : M response :=
  try_catch
    (let* secret := ask secretKey in
     if negb (env_set secret)
     then respond [("error", VStr "MEMBERSTACK_SECRET_KEY not configured")] 500
     else
       let* token :=
         match authorization req with
         | Some h =>
             if startsWith h "Bearer " then ret (VStr (substring_from 7 h))
             else body_token req
         | None => body_token req
         end in
       if negb (truthy token)
       then respond [("error", VStr "Token not provided")] 401
       else
         let* verify := ask sdk_verifyToken in
         let* verification := lift (verify token) in
         if negb (truthy verification) || negb (truthy (get verification "id"))
         then respond [("error", VStr "Invalid token")] 401
         else
           let* app := ask appId in
           respond
             [("member",
               object [("id", get verification "id");
                       ("memberId", get verification "id");
                       ("type", get verification "type")]);
              ("appId", env_value app)] 200)
    (fun e => respond [("error", message_or e "Token verification failed")] 401).

(** [response.ok]. *)
Definition ok (r : response) : bool := (200 <=? status r)%Z && (status r <=? 299)%Z.

(** lib/memberstack-api.ts, [verifyToken]: the member, or [null].  The
    request goes to the route above, which is reachable. *)
Definition verifyToken (token : string) : M value :=
  try_catch
    (let* r := verify_token_route
                 (MkRequest (Some ("Bearer " +:+ token)) ∅
                            (Ret (object [("token", VStr token)]))) in
     if negb (ok r)
     then
       if bool_decide (status r = 401%Z) then ret VNull
       else throw "Token verification failed"
     else ret (get (payload r) "member" ||| payload r))
    (fun _ => ret VNull).

End Auth.

(* ===================================================================== *)
(** * app/api/courses/route.ts *)
(* ===================================================================== *)

Module CoursesRoute.
Import Js Server.

Definition config_error : M response :=
  respond [("error", VStr "Server configuration error")] 500.

(** [let member = null; if (token) { member = await verifyToken(token) }]. *)
Definition optional_member (req : request) : M value :=
  match bearer_token req with
  | Some t => if truthy (VStr t) then Auth.verifyToken t else ret VNull
  | None => ret VNull
  end.

(** The record a listing returns for a stored course. *)
Definition processed (w : world) (course : obj) : obj :=
  <["status" := field course "status" ||| VStr "published"]>
    (<["price" := read_price w course]> course).

Definition is_published (course : obj) : bool :=
  strict_eq (field course "status") (VStr "published").

Definition GET (req : request) : M response :=
  try_catch
    (let* bad := ask misconfigured in
     if bad then config_error
     else
       let* member := optional_member req in
       let ownerId := query req "owner_id" in
       if truthy ownerId && negb (truthy member)
       then respond
              [("error", VStr "Authentication required to filter by owner_id")] 401
       else
         try_catch
           (let* courses := Admin.listCourses (ownerId ||| VUndef) in
            let* w := get_world in
            let processedCourses := map (processed w) courses in
            let filteredCourses :=
              if negb (truthy member) && negb (truthy ownerId)
              then List.filter is_published processedCourses
              else processedCourses in
            respond [("courses", VArr (map VObj filteredCourses))] 200)
           (fun _ =>
              respond
                [("courses", VArr []);
                 ("message", VStr "Unable to fetch courses via Admin REST API.")]
                200))
    (fun e => respond [("error", message_or e "Failed to list courses")] 500).

(** Destructuring [null] throws a [TypeError]. *)
Definition destructure (body : value) : M value :=
  match body with
  | VNull | VUndef => throw "Cannot destructure property 'title' of 'body'"
  | _ => ret body
  end.

(** [priceCents: price ? Math.round(price * 100) : 0]. *)
Definition write_cents (w : world) (price : value) : value :=
  if truthy price then round_cents w price else num 0.

Definition courseData (w : world) (body member : value) : obj :=
  list_to_map
    [("title", get body "title");
     ("description", get body "description" ||| VStr "");
     ("owner_id", get member "id" ||| get member "memberId");
     ("video_link", get body "video_link" ||| VStr "");
     ("thumbnail_url", get body "thumbnail_url" ||| VStr "");
     ("priceCents", write_cents w (get body "price"));
     ("status", get body "status" ||| VStr "draft");
     ("duration", get body "duration" ||| num 0);
     ("category", get body "category" ||| VStr "");
     ("tags", get body "tags" ||| VArr [])].

(** [price: course.priceCents ? course.priceCents / 100 : course.price]. *)
Definition created_price (w : world) (course : obj) : value :=
  if truthy (field course "priceCents")
  then div100 w (field course "priceCents")
  else field course "price".

Definition POST (req : request) : M response :=
  try_catch
    (let* bad := ask misconfigured in
     if bad then config_error
     else
       match bearer_token req with
       | None => respond [("error", VStr "Authentication required")] 401
       | Some t =>
           if negb (truthy (VStr t))
           then respond [("error", VStr "Authentication required")] 401
           else
             let* member := Auth.verifyToken t in
             if negb (truthy member)
             then respond [("error", VStr "Invalid token")] 401
             else
               let* parsed := lift (json_body req) in
               let* body := destructure parsed in
               if negb (truthy (get body "title"))
               then respond [("error", VStr "Title is required")] 400
               else
                 try_catch
                   (let* w := get_world in
                    let* course := Admin.createCourse (courseData w body member) in
                    let* w' := get_world in
                    respond
                      [("course",
                        VObj (<["price" := created_price w' course]> course))]
                      201)
                   (fun e =>
                      if includes e "table" || includes e "not found"
                      then respond
                             [("error",
                               VStr "Courses table not found. Please create the table first.")]
                             400
                      else throw e)
       end)
    (fun e => respond [("error", message_or e "Failed to create course")] 500).

End CoursesRoute.

(* ===================================================================== *)
(** * app/api/courses/[id]/route.ts *)
(* ===================================================================== *)

Module CourseRoute.
Import Js Server.

Definition config_error : M response :=
  respond [("error", VStr "Server configuration error")] 500.

(** [course.status === "published" || course.status === undefined]. *)
Definition isPublished (course : obj) : bool :=
  strict_eq (field course "status") (VStr "published")
  || strict_eq (field course "status") VUndef.

(** [member && course.owner_id &&
     (member.id === course.owner_id || member.memberId === course.owner_id)]. *)
Definition isOwner (member : value) (course : obj) : value :=
  member &&& field course "owner_id" &&&
  VBool (strict_eq (get member "id") (field course "owner_id")
         || strict_eq (get member "memberId") (field course "owner_id")).

(** [{ ...course, price }]. *)
Definition responseCourse (w : world) (course : obj) : value :=
  VObj (<["price" := read_price w course]> course).

Definition GET (req : request) (courseId : string) : M response :=
  try_catch
    (let* bad := ask misconfigured in
     if bad then config_error
     else
       let* member := CoursesRoute.optional_member req in
       try_catch
         (let* found := Admin.getCourse courseId in
          match found with
          | None =>
              respond [("error", VStr "Course not found");
                       ("courseId", VStr courseId)] 404
          | Some course =>
              if negb (isPublished course) && negb (truthy (isOwner member course))
              then respond
                     [("error", VStr "Course not found or access denied")] 404
              else
                let* w := get_world in
                respond [("course", responseCourse w course)] 200
          end)
         (fun e =>
            if includes e "not found"
            then respond [("error", VStr "Course not found")] 404
            else throw e))
    (fun e => respond [("error", message_or e "Failed to get course")] 500).

(** The checks every mutating handler starts with: configuration, then
    a bearer token, then its verification; [k] continues with the
    member. *)
Definition authenticated (req : request) (k : value -> M response) : M response :=
  let* bad := ask misconfigured in
  if bad then config_error
  else
    match bearer_token req with
    | None => respond [("error", VStr "Authentication required")] 401
    | Some t =>
        if negb (truthy (VStr t))
        then respond [("error", VStr "Authentication required")] 401
        else
          let* member := Auth.verifyToken t in
          if negb (truthy member)
          then respond [("error", VStr "Invalid token")] 401
          else k member
    end.

(** [member.id || member.memberId]. *)
Definition memberId (member : value) : value :=
  get member "id" ||| get member "memberId".

(** [{ ...body, updated_at }] without [id] and [created_at]. *)
Definition initial_updates (body : value) (now : string) : obj :=
  delete "created_at" (delete "id" (<["updated_at" := VStr now]> (spread body))).

(** [if (updates.price) { updates.priceCents = Math.round(updates.price * 100);
                          delete updates.price }]. *)
Definition with_cents (w : world) (updates : obj) : obj :=
  if truthy (field updates "price")
  then delete "price"
         (<["priceCents" := round_cents w (field updates "price")]> updates)
  else updates.

Definition PUT (req : request) (courseId : string) : M response :=
  try_catch
    (authenticated req (fun member =>
       let* body := lift (json_body req) in
       let* now := now_iso in
       let updates := initial_updates body now in
       let* existingCourse := Admin.getCourse courseId in
       match existingCourse with
       | None => respond [("error", VStr "Course not found")] 404
       | Some existing =>
           if negb (strict_eq (field existing "owner_id") (memberId member))
           then respond
                  [("error",
                    VStr "You don't have permission to update this course")] 403
           else
             let* w := get_world in
             let* course := Admin.updateCourse courseId (with_cents w updates) in
             let* w' := get_world in
             respond [("course", responseCourse w' course)] 200
       end))
    (fun e => respond [("error", message_or e "Failed to update course")] 500).

Definition DELETE (req : request) (courseId : string) : M response :=
  try_catch
    (authenticated req (fun member =>
       let* existingCourse := Admin.getCourse courseId in
       match existingCourse with
       | None => respond [("error", VStr "Course not found")] 404
       | Some existing =>
           if negb (strict_eq (field existing "owner_id") (memberId member))
           then respond
                  [("error",
                    VStr "You don't have permission to delete this course")] 403
           else
             let* _ := Admin.deleteCourse courseId in
             respond [("success", VBool true);
                      ("message", VStr "Course deleted")] 200
       end))
    (fun e => respond [("error", message_or e "Failed to delete course")] 500).

End CourseRoute.

(* ===================================================================== *)
(** * app/api/seed-courses/route.ts *)
(* ===================================================================== *)

Module SeedRoute.
Import Js Server.

Record template : Type := MkTemplate {
  t_title : string;
  t_description : string;
  t_category : string;
  t_tags : list string;
  t_price : Qc;
  t_duration : Z;
}.

(** The price literals, such as [49.99], are kept as the decimals they
    are written as; the cents sent for a seeded course are the same as
    for the doubles. *)
Definition cents (z : Z) : Qc := Q2Qc (z # 100).

Definition courseTemplates : list template :=
  [ MkTemplate "Introduction to Web Development"
      "Learn the fundamentals of web development including HTML, CSS, and JavaScript."
      "Web Development" ["html"; "css"; "javascript"; "beginner"] (cents 4999) 120;
    MkTemplate "Advanced React Patterns"
      "Master advanced React patterns and best practices for building scalable applications."
      "Web Development" ["react"; "javascript"; "advanced"] (cents 7999) 180;
    MkTemplate "Full-Stack Next.js Development"
      "Build complete full-stack applications with Next.js, React, and TypeScript."
      "Web Development" ["nextjs"; "react"; "typescript"; "fullstack"] (cents 9999) 240;
    MkTemplate "Python for Data Science"
      "Learn Python programming and data analysis with pandas, numpy, and matplotlib."
      "Data Science" ["python"; "data-science"; "pandas"; "numpy"] (cents 8999) 200;
    MkTemplate "Machine Learning Fundamentals"
      "Introduction to machine learning algorithms and their applications."
      "Data Science" ["machine-learning"; "ai"; "python"; "scikit-learn"] (cents 12999) 300;
    MkTemplate "UI/UX Design Principles"
      "Master the principles of user interface and user experience design."
      "Design" ["design"; "ui"; "ux"; "figma"] (cents 6999) 150;
    MkTemplate "Mobile App Development with React Native"
      "Build cross-platform mobile apps using React Native."
      "Mobile Development" ["react-native"; "mobile"; "javascript"] (cents 9499) 220;
    MkTemplate "Docker and Kubernetes"
      "Learn containerization and orchestration with Docker and Kubernetes."
      "DevOps" ["docker"; "kubernetes"; "devops"; "containers"] (cents 10999) 250;
    MkTemplate "GraphQL API Development"
      "Build efficient APIs with GraphQL and Apollo Server."
      "Backend Development" ["graphql"; "api"; "apollo"; "nodejs"] (cents 8499) 190;
    MkTemplate "TypeScript Mastery"
      "Master TypeScript for building type-safe applications."
      "Programming" ["typescript"; "javascript"; "programming"] (cents 7499) 160 ].

Definition default_template : template := MkTemplate "" "" "" [] 0%Qc 0.

(** [parseInt(countParam, 10) || 50]: [NaN] and [0] are both falsy. *)
Definition parsed_or_50 (parsed : option Z) : Z :=
  match parsed with
  | None => 50
  | Some n => if (n =? 0)%Z then 50 else n
  end.

(** [Math.min(Math.max(parseInt(countParam, 10) || 50, 1), 200)]. *)
Definition seed_count (w : world) (countParam : value) : Z :=
  Z.min (Z.max (parsed_or_50 (parseInt (number_to_string w) countParam)) 1) 200.

(** [searchParams.get("count") || body.count || "50"]; reading a
    property of [null] throws. *)
Definition countParam (req : request) : M value :=
  let body :=
    match json_body req with
    | Ret b => b
    | Throw _ => object []
    end in
  if truthy (query req "count") then ret (query req "count")
  else
    match body with
    | VNull | VUndef => throw "Cannot read properties of null (reading 'count')"
    | _ => ret (get body "count" ||| VStr "50")
    end.

(** lib/image-helpers.ts, [getSeededImageUrl(seed, 800, 450)] for a
    string seed: the seed number is the sum of the character codes. *)
Fixpoint char_code_sum (s : string) : nat :=
  match s with
  | EmptyString => 0
  | String c r => nat_of_ascii c + char_code_sum r
  end.

Definition getSeededImageUrl (seed : string) : string :=
  "https://picsum.photos/seed/" +:+ pretty (char_code_sum seed) +:+ "/800/450".

(** [Math.floor(count * 0.8)]. *)
Definition published_up_to (count : Z) : Z :=
  Qfloor (Q2Qc (inject_Z count) * Q2Qc (8 # 10))%Qc.

(** The [i]-th generated course; [stamp] is [Date.now()] at that
    iteration. *)
Definition seeded_course (count : Z) (memberId : value) (now : string)
    (iso : Z -> string) (i : nat) (stamp : Z) : obj :=
  let t := nth (i mod 10) courseTemplates default_template in
  let variation := (i / 10)%nat in
  list_to_map
    [("title",
      VStr (if (0 <? variation)%nat
            then t_title t +:+ " - Part " +:+ pretty (variation + 1)%nat
            else t_title t));
     ("description", VStr (t_description t));
     ("owner_id", memberId);
     ("video_link", VStr ("https://example.com/video/course-" +:+ pretty (i + 1)%nat));
     ("thumbnail_url", VStr (getSeededImageUrl ("course-" +:+ pretty (i + 1)%nat)));
     ("price", VNum (t_price t + Q2Qc (inject_Z (Z.of_nat variation * 10)))%Qc);
     ("status",
      VStr (if (Z.of_nat i <? published_up_to count)%Z then "published" else "draft"));
     ("duration", num (t_duration t + Z.of_nat variation * 20));
     ("category", VStr (t_category t));
     ("tags", VArr (map VStr (t_tags t)));
     ("created_at", VStr (iso (stamp - Z.of_nat i * 86400000)%Z));
     ("updated_at", VStr now)].

(** [for (let i = 0; i < count; i++) { ...; courses.push(course) }]. *)
Fixpoint generate (count : Z) (memberId : value) (now : string)
    (indices : list nat) : M (list obj) :=
  match indices with
  | [] => ret []
  | i :: rest =>
      let* stamp := date_now in
      let* iso := ask date_iso in
      let* tail := generate count memberId now rest in
      ret (seeded_course count memberId now iso i stamp :: tail)
  end.

(** The body sent for one course: [price] becomes [priceCents]. *)
Definition record_data (w : world) (course : obj) : obj :=
  delete "price"
    (<["priceCents" := round_cents w (field course "price")]> course).

(** The counters of the handler. *)
Record tally : Type := MkTally {
  successCount : nat;
  errorCount : nat;
  errors : list string;
}.

(** One [fetch(endpoint, { method: "POST", ... })] with its
    [try]/[catch]: [n] is the number of the course. *)
Definition post_one (n : nat) (course : obj) (acc : tally) : M tally :=
  fun w =>
    let data := wire_obj (record_data w course) in
    match refuses w data with
    | Some e =>
        (Ret (MkTally (successCount acc) (S (errorCount acc))
                (errors acc ++
                 ["Course " +:+ pretty n +:+ ": " +:+ e])), w)
    | None =>
        (Ret (MkTally (S (successCount acc)) (errorCount acc) (errors acc)),
         set_table (table w ++ [MkRecord (fresh_id w (table w)) data]) w)
    end.

(** One batch, [courses.slice(i, i + batchSize)]; the requests of a
    batch are taken in order. *)
Fixpoint post_batch (i : nat) (index : nat) (batch : list obj) (acc : tally)
    : M tally :=
  match batch with
  | [] => ret acc
  | course :: rest =>
      let* acc' := post_one (i + index + 1) course acc in
      post_batch i (S index) rest acc'
  end.

Definition batchSize : nat := 5.

(** [for (let i = 0; i < courses.length; i += batchSize)]. *)
Fixpoint post_batches (starts : list nat) (courses : list obj) (acc : tally)
    : M tally :=
  match starts with
  | [] => ret acc
  | i :: rest =>
      let* acc' := post_batch i 0 (take batchSize (drop i courses)) acc in
      post_batches rest courses acc'
  end.

Definition batch_starts (n : nat) : list nat :=
  map (fun b => b * batchSize)%nat (seq 0 ((n + batchSize - 1) / batchSize)).

Definition POST (req : request) : M response :=
  try_catch
    (CourseRoute.authenticated req (fun member =>
       let* param := countParam req in
       let* w := get_world in
       let count := seed_count w param in
       let* now := now_iso in
       let memberId := CourseRoute.memberId member in
       let* courses := generate count memberId now (seq 0 (Z.to_nat count)) in
       let* done := post_batches (batch_starts (length courses)) courses
                      (MkTally 0 0 []) in
       respond
         [("success", VBool true);
          ("message",
           VStr ("Created " +:+ pretty (successCount done) +:+ " out of "
                 +:+ pretty count +:+ " courses successfully"));
          ("requested", num count);
          ("created", num (Z.of_nat (successCount done)));
          ("errors", num (Z.of_nat (errorCount done)));
          ("errorDetails",
           match errors done with
           | [] => VUndef
           | _ => VArr (map VStr (take 10 (errors done)))
           end)] 200))
    (fun e => respond [("error", message_or e "Failed to seed courses")] 500).

End SeedRoute.

(* ===================================================================== *)
(** * lib/memberstack-client.ts *)
(* ===================================================================== *)

Module Client.
Import Js.
Import Server (outcome, Ret, Throw).

(** The membership SDK instance [ms], an external collaborator: which
    methods it has ([typeof ms.getToken === 'function']), what awaiting
    them gives, and its direct properties. *)
Record sdk : Type := MkSdk {
  loginMemberEmailPassword : option (string -> string -> outcome value);
  getToken : option (outcome value);
  getAccessToken : option (outcome value);
  getSessionToken : option (outcome value);
  ms_token : value;
  ms_accessToken : value;
  ms_sessionToken : value;
}.

(** The browser: whether [window] is defined, [localStorage], what
    [getMemberstack()] resolves to, and the runtime's rendering of
    numbers. *)
Record browser : Type := MkBrowser {
  window_defined : bool;
  localStorage : gmap string string;
  memberstack : option sdk;
  render_number : Qc -> string;
}.

Definition setItem (k v : string) (b : browser) : browser :=
  MkBrowser (window_defined b) (<[k := v]> (localStorage b)) (memberstack b)
            (render_number b).

(** Step 1: [result?.data?.tokens?.accessToken || result?.data?.token ||
    result?.token || result?.data?.accessToken || result?.accessToken]. *)
Definition probe_response (result : value) : value :=
  get (get (get result "data") "tokens") "accessToken"
  ||| get (get result "data") "token"
  ||| get result "token"
  ||| get (get result "data") "accessToken"
  ||| get result "accessToken".

(** Step 2, first half: the token of the SDK instance.  [None] when an
    awaited method throws, which leaves the [try] block. *)
Definition probe_sdk (ms : sdk) (token : value) : option value :=
  match getToken ms with
  | Some (Ret t) => Some t
  | Some (Throw _) => None
  | None =>
      match getAccessToken ms with
      | Some (Ret t) => Some t
      | Some (Throw _) => None
      | None =>
          match getSessionToken ms with
          | Some (Ret t) => Some t
          | Some (Throw _) => None
          | None =>
              if truthy (ms_token ms) then Some (ms_token ms)
              else if truthy (ms_accessToken ms) then Some (ms_accessToken ms)
              else if truthy (ms_sessionToken ms) then Some (ms_sessionToken ms)
              else Some token
          end
      end
  end.

(** Step 2, second half: a token inside the member object. *)
Definition probe_member (result : value) (token : value) : value :=
  let token1 :=
    if negb (truthy token) && truthy (get (get result "data") "member")
    then get (get (get result "data") "member") "token"
         ||| get (get (get result "data") "member") "accessToken"
    else token in
  if negb (truthy token1) && truthy (get result "member")
  then get (get result "member") "token" ||| get (get result "member") "accessToken"
  else token1.

(** The value of [token] when the resolution is over. *)
Definition resolve_token (ms : sdk) (result : value) : value :=
  let token := probe_response result in
  if negb (truthy token)
  then
    match probe_sdk ms token with
    | Some t => probe_member result t
    | None => token
    end
  else token.

(** [if (token && typeof window !== "undefined")
      localStorage.setItem("memberstack_token", token)]. *)
Definition store_token (token : value) (b : browser) : browser :=
  if truthy token && window_defined b
  then setItem "memberstack_token" (to_string (render_number b) token) b
  else b.

Definition loginMember (email password : string) (b : browser)
    : outcome value * browser :=
  match memberstack b with
  | None => (Throw "Memberstack not initialized", b)
  | Some ms =>
      match loginMemberEmailPassword ms with
      | None => (Throw "loginMemberEmailPassword method not available", b)
      | Some login =>
          match login email password with
          | Throw e => (Throw e, b)
          | Ret result => (Ret result, store_token (resolve_token ms result) b)
          end
      end
  end.

End Client.

(* ===================================================================== *)
(** * app/courses/page.tsx *)
(* ===================================================================== *)

Module CoursesPage.
Import Js.

(** [interface Course]. *)
Record Course : Type := MkCourse {
  id : option string;
  title : string;
  description : option string;
  owner_id : string;
  video_link : option string;
  thumbnail_url : option string;
  price : option Qc;
  status : option string;
  duration : option Z;
  category : option string;
  tags : option (list string);
  created_at : option string;
  updated_at : option string;
}.

(** The filter inputs kept in component state. *)
Record filters : Type := MkFilters {
  searchQuery : string;
  selectedCategory : string;
  sortBy : string;
  priceFilter : string;
  ratingFilter : Z;
}.

(** The state after mount, and after [clearFilters]. *)
Definition initial : filters := MkFilters "" "all" "newest" "all" 0.

Definition setSearchQuery (q : string) (f : filters) : filters :=
  MkFilters q (selectedCategory f) (sortBy f) (priceFilter f) (ratingFilter f).
Definition setSelectedCategory (c : string) (f : filters) : filters :=
  MkFilters (searchQuery f) c (sortBy f) (priceFilter f) (ratingFilter f).
Definition setSortBy (s : string) (f : filters) : filters :=
  MkFilters (searchQuery f) (selectedCategory f) s (priceFilter f) (ratingFilter f).
Definition setPriceFilter (p : string) (f : filters) : filters :=
  MkFilters (searchQuery f) (selectedCategory f) (sortBy f) p (ratingFilter f).

(** [s?.toLowerCase().includes(query)], falsy when [s] is absent. *)
Definition lower_includes (s : option string) (query : string) : bool :=
  match s with
  | Some x => includes (toLowerCase x) query
  | None => false
  end.

(** The predicate of the search filter; [query] is already lowered. *)
Definition matches (query : string) (c : Course) : bool :=
  lower_includes (Some (title c)) query
  || lower_includes (description c) query
  || lower_includes (category c) query
  || match tags c with
     | Some l => existsb (fun tag => includes (toLowerCase tag) query) l
     | None => false
     end.

(** [!c.price || c.price === 0] and [c.price && c.price > 0]. *)
Definition is_free (c : Course) : bool :=
  match price c with
  | Some p => bool_decide (p = 0%Qc)
  | None => true
  end.

Definition is_paid (c : Course) : bool :=
  match price c with
  | Some p => negb (bool_decide (p = 0%Qc)) && bool_decide (0 < p)%Qc
  | None => false
  end.

(** [Array.prototype.sort] is stable: insertion, keeping an element
    before the first one it does not have to follow.  [cmp a b] is the
    number the comparator returns. *)
Fixpoint insert_by (cmp : Course -> Course -> Qc) (x : Course) (l : list Course)
    : list Course :=
  match l with
  | [] => [x]
  | y :: r =>
      if bool_decide (cmp x y <= 0)%Qc then x :: y :: r
      else y :: insert_by cmp x r
  end.

Definition sort_by (cmp : Course -> Course -> Qc) (l : list Course) : list Course :=
  foldr (insert_by cmp) [] l.

(** [c.price || 0]. *)
Definition price_or_0 (c : Course) : Qc := default 0%Qc (price c).

Section Effect.

(** [new Date(s).getTime()] in milliseconds, and the order in which the
    engine leaves a list sorted with the comparator
    [Math.random() - 0.5]: both belong to the runtime. *)
Variable getTime : string -> Z.
Variable random_order : list Course -> list Course.

(** [a.created_at ? new Date(a.created_at).getTime() : 0]; an empty
    string is falsy. *)
Definition date_of (c : Course) : Z :=
  match created_at c with
  | Some s => if nonempty s then getTime s else 0
  | None => 0
  end.

(** The body of the effect that recomputes [filteredCourses]. *)
Definition filteredCourses (f : filters) (courses : list Course) : list Course :=
  let by_category :=
    if bool_decide (selectedCategory f = "all") then courses
    else List.filter
           (fun c => bool_decide (category c = Some (selectedCategory f)))
           courses in
  let by_search :=
    if nonempty (searchQuery f)
    then List.filter (matches (toLowerCase (searchQuery f))) by_category
    else by_category in
  let by_price :=
    if bool_decide (priceFilter f = "free") then List.filter is_free by_search
    else if bool_decide (priceFilter f = "paid") then List.filter is_paid by_search
    else by_search in
  if bool_decide (sortBy f = "price-low")
  then sort_by (fun a b => price_or_0 a - price_or_0 b)%Qc by_price
  else if bool_decide (sortBy f = "price-high")
  then sort_by (fun a b => price_or_0 b - price_or_0 a)%Qc by_price
  else if bool_decide (sortBy f = "rating")
  then random_order by_price
  else if bool_decide (sortBy f = "newest")
  then sort_by (fun a b => Q2Qc (inject_Z (date_of b - date_of a))) by_price
  else by_price.

End Effect.

(** The base list of the specification's example. *)
Definition bare (t cat : string) (p : Qc) : Course :=
  MkCourse None t None "" None None (Some p) None None (Some cat) None None None.

Definition intro_js : Course := bare "Intro to JS" "Web Development" 0%Qc.
Definition ml : Course := bare "ML" "Data Science" (Q2Qc (50 # 1)).

End CoursesPage.

(* ===================================================================== *)
(** * Notions used to state the properties *)
(* ===================================================================== *)

Module Notions.
Import Js Server.

(** The member a bearer token verifies to, [null] when it does not. *)
Definition member_of (w : world) (t : string) : value :=
  if env_set (secretKey w) && nonempty t then
    match sdk_verifyToken w (VStr t) with
    | Ret ver =>
        if truthy ver && truthy (get ver "id")
        then wire (object [("id", get ver "id"); ("memberId", get ver "id");
                           ("type", get ver "type")])
        else VNull
    | Throw _ => VNull
    end
  else VNull.

(** The member a request is made by: [null] without a bearer token. *)
Definition member_for (w : world) (req : request) : value :=
  match bearer_token req with
  | Some t => member_of w t
  | None => VNull
  end.

(** The request carries no bearer token. *)
Definition anonymous (req : request) : bool :=
  match bearer_token req with
  | Some t => negb (nonempty t)
  | None => true
  end.

(** The request without its [Authorization] header. *)
Definition without_authorization (req : request) : request :=
  MkRequest None (searchParams req) (json_body req).

(** The request asks for no [owner_id] filter. *)
Definition unfiltered (req : request) : bool :=
  negb (truthy (query req "owner_id")).

(** The status a read attributes to stored data: ["published"] when the
    field is absent. *)
Definition read_status (data : obj) : value :=
  match field data "status" with
  | VUndef => VStr "published"
  | s => s
  end.

Definition published_on_read (data : obj) : bool :=
  strict_eq (read_status data) (VStr "published").

(** The owner identifier the table holds for a course. *)
Definition stored_owner (t : list record) (courseId : string) : value :=
  match Admin.find_record courseId t with
  | Some r => field (rec_data r) "owner_id"
  | None => VUndef
  end.

Definition stored_field (t : list record) (courseId k : string) : value :=
  match Admin.find_record courseId t with
  | Some r => field (rec_data r) k
  | None => VUndef
  end.

(** The status of the response a handler returned. *)
Definition status_of (out : outcome response * world) : option Z :=
  match out.1 with
  | Ret r => Some (status r)
  | Throw _ => None
  end.

(** The requests a seeding has made so far. *)
Definition attempts (acc : SeedRoute.tally) : nat :=
  SeedRoute.successCount acc + SeedRoute.errorCount acc.

(** The courses of a listing response. *)
Definition listed (r : response) : list value :=
  match get (payload r) "courses" with
  | VArr l => l
  | _ => []
  end.



End Notions.

(* ===================================================================== *)
(** * A small deployment, for concrete runs *)
(* ===================================================================== *)

Module Demo.
Import Js Server.

(** Two members, [m1] and [m2], with one token each. *)
Definition verify (t : value) : outcome value :=
  match t with
  | VStr "token-m1" => Ret (object [("id", VStr "m1"); ("type", VStr "member")])
  | VStr "token-m2" => Ret (object [("id", VStr "m2"); ("type", VStr "member")])
  | _ => Throw "Invalid token"
  end.

(** A published course of [m1] priced 49.99 and a draft of [m2], in a
    data service that merges what it is sent into the stored record. *)
Definition c1 : record :=
  MkRecord "c1"
    (list_to_map [("title", VStr "Intro to JS"); ("owner_id", VStr "m1");
                  ("status", VStr "published"); ("priceCents", num 4999)]).

Definition c2 : record :=
  MkRecord "c2"
    (list_to_map [("title", VStr "ML"); ("owner_id", VStr "m2");
                  ("status", VStr "draft"); ("priceCents", num 5000)]).

Definition world0 : world :=
  MkWorld (Some "sk_live") (Some "app_1") verify [c1; c2]
          (fun t => "rec_" +:+ pretty (length t)) (fun _ => None) true
          (fun n => (1000 * Z.of_nat n)%Z) 0
          (fun z => "t" +:+ pretty z) (fun _ => "NaN") (fun _ => None).

(** A request with a bearer token, query parameters and a JSON body. *)
Definition request_of (token : option string) (params : list (string * string))
    (body : value) : request :=
  MkRequest (option_map (fun t => "Bearer " +:+ t) token) (list_to_map params)
            (Ret body).

(** A request of [m2] with no body: [request.json()] rejects. *)
Definition request_without_body : request :=
  MkRequest (Some "Bearer token-m2") ∅ (Throw "Unexpected end of JSON input").

Definition sdk0 : Client.sdk :=
  Client.MkSdk (Some (fun _ _ => Ret (object []))) None None None VUndef VUndef VUndef.

Definition browser0 : Client.browser :=
  Client.MkBrowser true ∅ (Some sdk0) (fun _ => "NaN").

(** An SDK whose login answers with [data.tokens.accessToken] and whose
    [getToken] would throw. *)
Definition sdk1 : Client.sdk :=
  Client.MkSdk
    (Some (fun _ _ =>
             Ret (object
                    [("data",
                      object [("tokens", object [("accessToken", VStr "abc")])])])))
    (Some (Throw "not signed in")) None None VUndef VUndef VUndef.

Definition browser1 : Client.browser :=
  Client.MkBrowser true ∅ (Some sdk1) (fun _ => "NaN").

(** An SDK with nothing to find, and a token method that throws. *)
Definition sdk2 : Client.sdk :=
  Client.MkSdk (Some (fun _ _ => Ret (object []))) (Some (Throw "not signed in"))
    None None VUndef VUndef VUndef.

Definition browser2 : Client.browser :=
  Client.MkBrowser true ∅ (Some sdk2) (fun _ => "NaN").

End Demo.

(* ===================================================================== *)
(** * Notions, further *)
(* ===================================================================== *)

Module Stored.
Import Js Server.

(** The data [createCourse] sends to the service for a body and a
    member, at the clock reading [now]. *)
Definition sent (w : world) (body member : value) (now : string) : obj :=
  wire_obj (<["updated_at" := VStr now]>
              (<["created_at" := VStr now]> (CoursesRoute.courseData w body member))).

End Stored.

(* ===================================================================== *)
(** * app/courses/page.tsx: loading the courses and the category list *)
(* ===================================================================== *)

Module CoursesPageLoad.
Import Js Server CoursesPage.

(** lib/course-categories.ts. *)
Definition COURSE_CATEGORIES : list string :=
  ["Web Development"; "Data Science"; "Design"; "Mobile Development";
   "DevOps"; "Backend Development"; "Programming"; "Business"; "Marketing";
   "Photography"].

(** [Array.from(new Set(l))]: the first occurrence of each element, in
    order. *)
Fixpoint unique_from (seen l : list string) : list string :=
  match l with
  | [] => []
  | x :: r =>
      if bool_decide (x ∈ seen) then unique_from seen r
      else x :: unique_from (x :: seen) r
  end.

Definition unique (l : list string) : list string := unique_from [] l.

(** [c.category] when it passes [filter(Boolean)]. *)
Definition truthy_category (c : Course) : option string :=
  match category c with
  | Some s => if nonempty s then Some s else None
  | None => None
  end.

(** The categories of the sidebar. *)
Definition categories (courses : list Course) : list string :=
  let courseCategories := unique (omap truthy_category courses) in
  let allAvailableCategories := (COURSE_CATEGORIES ++ courseCategories)%list in
  let uniqueCategories := unique allAvailableCategories in
  let allCategories := "all" :: uniqueCategories in
  let hardcodedInList :=
    take 6 (List.filter (fun cat => bool_decide (cat ∈ allCategories))
                        COURSE_CATEGORIES) in
  let otherCategories :=
    take (6 - length hardcodedInList)
         (List.filter (fun cat => negb (bool_decide (cat ∈ COURSE_CATEGORIES)))
                      uniqueCategories) in
  take 7 ("all" :: hardcodedInList ++ otherCategories)%list.

(** The object [loadCourses] makes of a course of the response.
    [divide] is the runtime's [course.priceCents / 100]. *)
Definition formatted (divide : value -> value) (course : value) : value :=
  object
    [("id", get course "id");
     ("title", get course "title" ||| VStr "");
     ("description", get course "description" ||| VStr "");
     ("owner_id", get course "owner_id" ||| VStr "");
     ("video_link", get course "video_link" ||| VStr "");
     ("thumbnail_url",
      get course "thumbnail_url" ||| get course "thumbnailUrl" ||| VStr "");
     ("price",
      if truthy (get course "priceCents") then divide (get course "priceCents")
      else get course "price" ||| num 0);
     ("status", get course "status" ||| VStr "published");
     ("duration", get course "duration");
     ("category", get course "category");
     ("tags", get course "tags");
     ("created_at", get course "created_at");
     ("updated_at", get course "updated_at")].

(** The visibility filter of [loadCourses]; [user] is the cached user,
    [null] when nobody is signed in. *)
Definition visible (user : value) (c : value) : bool :=
  if negb (truthy user)
  then strict_eq (get c "status") (VStr "published")
  else strict_eq (get c "status") (VStr "published")
       || strict_eq (get c "owner_id") (get user "id")
       || strict_eq (get c "owner_id") (get user "memberId").

(** What [loadCourses] leaves in the state of the page: the courses and
    the error message. *)
Record loaded : Type := MkLoaded {
  courses : list value;
  error : option string;
}.

(** Reading a property of [null] or [undefined] throws. *)
Definition nullish (v : value) : bool :=
  match v with
  | VNull | VUndef => true
  | _ => false
  end.

(** [loadCourses]: the request to [/api/courses] carries a
    [Content-Type] header and nothing else.  [statusText] is the reason
    phrase of a status. *)
Definition loadCourses (divide : value -> value) (statusText : Z -> string)
    (render : Qc -> string) (user : value) (w : world) : loaded * world :=
  match CoursesRoute.GET (MkRequest None ∅ (Throw "Unexpected end of JSON input")) w with
  | (Throw e, w') => (MkLoaded [] (Some (text_or e "Failed to load courses")), w')
  | (Ret apiResponse, w') =>
      let apiData := payload apiResponse in
      if negb (Auth.ok apiResponse)
      then
        let message :=
          if nullish apiData
          then "Cannot read properties of null (reading 'error')"
          else if truthy (get apiData "error")
          then to_string render (get apiData "error")
          else "API request failed: " +:+ statusText (Server.status apiResponse) in
        (MkLoaded [] (Some (text_or message "Failed to load courses")), w')
      else if nullish apiData
      then (MkLoaded [] (Some "Cannot read properties of null (reading 'courses')"),
            w')
      else
        match get apiData "courses" ||| VArr [] with
        | VArr l =>
            if existsb nullish l
            then (MkLoaded [] (Some "Cannot read properties of null (reading 'id')"),
                  w')
            else
              (MkLoaded (List.filter (visible user) (map (formatted divide) l))
                        None,
               w')
        | _ =>
            (MkLoaded [] (Some "courses.map is not a function"), w')
        end
  end.

End CoursesPageLoad.

(* ===================================================================== *)
(** * lib/memberstack-client.ts, lib/data-helpers.ts and lib/courses-api.ts:
      the session of the browser *)
(* ===================================================================== *)

Module ClientSession.
Import Js.
Import Server (outcome, Ret, Throw, nullable, world, MkRequest, status, payload,
               text_or).
Import Client (browser, MkBrowser, window_defined, localStorage, memberstack,
               render_number, setItem).

(** The further methods of the SDK instance that [getToken] and
    [logoutMember] look for, and what awaiting them gives. *)
Record methods : Type := MkMethods {
  ms_getCurrentMember : option (outcome value);
  ms_logoutMember : option (outcome value);
  ms_logout : option (outcome value);
}.

(** [localStorage.getItem(k)] and [localStorage.removeItem(k)]. *)
Definition getItem (k : string) (b : browser) : value :=
  nullable (localStorage b !! k).

Definition removeItem (k : string) (b : browser) : browser :=
  MkBrowser (window_defined b) (delete k (localStorage b)) (memberstack b)
            (render_number b).

(** [getCachedToken] and [clearAuthCache] of lib/data-helpers.ts. *)
Definition getCachedToken (b : browser) : value :=
  if negb (window_defined b) then VNull else getItem "memberstack_token" b.

Definition clearAuthCache (b : browser) : browser :=
  if negb (window_defined b) then b
  else removeItem "memberstack_token" (removeItem "memberstack_user" b).

(** [safeJsonParse(json, defaultValue)] and [getCachedUser]; [parse] is
    [JSON.parse]. *)
Definition safeJsonParse (parse : string -> outcome value) (json defaultValue : value)
    : value :=
  match json with
  | VStr s =>
      if nonempty s
      then match parse s with
           | Ret v => v
           | Throw _ => defaultValue
           end
      else defaultValue
  | _ => defaultValue
  end.

Definition getCachedUser (parse : string -> outcome value) (b : browser) : value :=
  if negb (window_defined b) then VNull
  else safeJsonParse parse (getItem "memberstack_user" b) VNull.

(** The token of [ms.getCurrentMember?.()], looked for when nothing was
    found before; an exception of the call is ignored. *)
Definition probe_current (more : methods) (token : value) : value :=
  if negb (truthy token)
  then
    match ms_getCurrentMember more with
    | Some (Ret member) =>
        if truthy member
        then get member "token" ||| get member "accessToken"
             ||| get member "sessionToken"
        else token
    | Some (Throw _) => token
    | None => token
    end
  else token.

(** [getToken]: the cached token, else the token of the SDK instance,
    which is then cached.  An exception of a token method is caught by
    the outer [catch], which returns [null]. *)
Definition getToken (more : methods) (b : browser) : value * browser :=
  if negb (window_defined b) then (VNull, b)
  else
    let token := getItem "memberstack_token" b in
    if negb (truthy token)
    then
      match memberstack b with
      | Some ms =>
          match Client.probe_sdk ms token with
          | None => (VNull, b)
          | Some found =>
              let token' := probe_current more found in
              (token',
               if truthy token'
               then setItem "memberstack_token"
                      (to_string (render_number b) token') b
               else b)
          end
      | None => (token, b)
      end
    else (token, b).

(** [logoutMember]: the SDK's logout when it has one, and in every case
    ([finally]) the two keys are removed. *)
Definition logoutMember (more : methods) (b : browser) : outcome unit * browser :=
  let clear (b : browser) : browser :=
    if window_defined b
    then removeItem "memberstack_token" (removeItem "memberstack_user" b)
    else b in
  match memberstack b with
  | None => (Ret tt, clear b)
  | Some ms =>
      let called :=
        match ms_logoutMember more with
        | Some o => o
        | None =>
            match ms_logout more with
            | Some o => o
            | None => Ret VUndef
            end
        end in
      match called with
      | Ret _ => (Ret tt, clear b)
      | Throw _ => (Ret tt, clear b)
      end
  end.

(** [getAuthHeaders] of lib/courses-api.ts: the [Authorization] header,
    if any. *)
Definition getAuthHeaders (more : methods) (b : browser) : option string * browser :=
  if negb (window_defined b) then (None, b)
  else
    let token := getItem "memberstack_token" b in
    let (token', b') :=
      if negb (truthy token) then getToken more b else (token, b) in
    (if truthy token'
     then Some ("Bearer " +:+ to_string (render_number b) token')
     else None,
     b').

Definition sign_in_first : string :=
  "Authentication required. Please sign in first. The token may have expired or not been stored correctly.".

Definition sign_in_again : string :=
  "Authentication failed. Please sign in again. The token may have expired.".

(** [seedCourses(count)] of lib/courses-api.ts, against the handler of
    [/api/seed-courses]: the request has no body.  [statusText] is the
    reason phrase of a status. *)
Definition seedCourses (more : methods) (statusText : Z -> string) (count : Qc)
    (b : browser) (w : world) : outcome value * browser * world :=
  let params : gmap string string :=
    if bool_decide (count = qc_of_Z 50) then ∅
    else {[ "count" := render_number b count ]} in
  let (authHeader, b1) := getAuthHeaders more b in
  match authHeader with
  | None => (Throw sign_in_first, b1, w)
  | Some header =>
      match SeedRoute.POST
              (MkRequest (Some header) params (Throw "Unexpected end of JSON input"))
              w with
      | (Throw e, w') => (Throw e, b1, w')
      | (Ret response, w') =>
          if negb (Auth.ok response)
          then
            if bool_decide (status response = 401%Z)
            then (Throw sign_in_again,
                  if window_defined b1 then removeItem "memberstack_token" b1
                  else b1,
                  w')
            else
              (Throw
                 (if truthy (get (payload response) "error")
                  then to_string (render_number b) (get (payload response) "error")
                  else "Failed to seed courses: " +:+ pretty (status response)
                       +:+ " " +:+ statusText (status response)),
               b1, w')
          else (Ret (payload response), b1, w')
      end
  end.

(** lib/mcp-client.ts, [retryMCPCall(fn, retries)]: [fn i] is what the
    call of attempt [i] gives.  The result goes with the delays awaited,
    in milliseconds, and the number of calls made. *)
Fixpoint retry_from {T} (fn : nat -> outcome T) (retries i todo : nat)
    (delays : list Z) : option T * list Z * nat :=
  match todo with
  | O => (None, delays, i)
  | S todo' =>
      match fn i with
      | Ret result => (Some result, delays, S i)
      | Throw _ =>
          retry_from fn retries (S i) todo'
            (if (i <? retries - 1)%nat
             then (delays ++ [1000 * (Z.of_nat i + 1)])%list%Z
             else delays)
      end
  end.

Definition retryMCPCall {T} (fn : nat -> outcome T) (retries : nat)
    : option T * list Z * nat :=
  retry_from fn retries 0 retries [].

End ClientSession.

(* ===================================================================== *)
(** * Lessons: lib/memberstack-admin.ts, [listLessons], and
      app/api/lessons/route.ts *)
(* ===================================================================== *)

Module Lessons.
Import Js Server.

(** What a [fetch] resolves to: [response.ok], [response.statusText]
    and what [response.json()] gives. *)
Record http : Type := MkHttp {
  http_ok : bool;
  http_statusText : string;
  http_json : outcome value;
}.

(** The records of the answer, in one of the four shapes the code
    knows; reading a property of [null] throws. *)
Definition records_of (data : value) : outcome (list value) :=
  match data with
  | VArr l => Ret l
  | VNull | VUndef => Throw "Cannot read properties of null (reading 'data')"
  | _ =>
      match get (get data "data") "records" with
      | VArr l => Ret l
      | _ =>
          match get data "data" with
          | VArr l => Ret l
          | _ =>
              match get data "records" with
              | VArr l => Ret l
              | _ => Ret []
              end
          end
      end
  end.

(** [{ id: record.id || recordData.id, ...recordData }] with
    [recordData = record.data || record]. *)
Definition lesson_of_record (record : value) : outcome value :=
  match record with
  | VNull | VUndef => Throw "Cannot read properties of null (reading 'data')"
  | _ =>
      let recordData := get record "data" ||| record in
      Ret (VObj (spread recordData
                 ∪ {[ "id" := get record "id" ||| get recordData "id" ]}))
  end.

(** [records.map(...)]: the first callback that throws ends the map. *)
Fixpoint map_records (records : list value) : outcome (list value) :=
  match records with
  | [] => Ret []
  | record :: rest =>
      match lesson_of_record record with
      | Throw e => Throw e
      | Ret lesson =>
          match map_records rest with
          | Throw e => Throw e
          | Ret lessons => Ret (lesson :: lessons)
          end
      end
  end.

(** The body of the [try] of [listLessons], given what the [fetch] of
    the lessons of the course resolved to. *)
Definition fetched_lessons (render : Qc -> string) (fetched : outcome http)
    : outcome (list value) :=
  match fetched with
  | Throw e => Throw e
  | Ret response =>
      if negb (http_ok response)
      then
        let error :=
          match http_json response with
          | Ret e => e
          | Throw _ => object [("error", VStr (http_statusText response))]
          end in
        match error with
        | VNull | VUndef =>
            Throw "Cannot read properties of null (reading 'error')"
        | _ =>
            Throw (to_string render
                     (get error "error" ||| get error "message"
                      ||| VStr ("Failed to fetch lessons: "
                                +:+ http_statusText response)))
        end
      else
        match http_json response with
        | Throw e => Throw e
        | Ret data =>
            match records_of data with
            | Throw e => Throw e
            | Ret records => map_records records
            end
        end
  end.

(** [listLessons(courseId)]; [service] is the data-table service
    answering the query for the lessons of a course. *)
Definition listLessons (service : string -> outcome http) (courseId : string)
    : M (list value) :=
  let* _ := Admin.require_secret in
  let* render := ask number_to_string in
  Admin.rethrow "Failed to list lessons"
    (lift (fetched_lessons render (service courseId))).

(** [GET /api/lessons?course_id=...]. *)
Definition GET (service : string -> outcome http) (req : request) : M response :=
  try_catch
    (let* bad := ask misconfigured in
     if bad then respond [("error", VStr "Server configuration error")] 500
     else
       match searchParams req !! "course_id" with
       | None => respond [("error", VStr "course_id parameter is required")] 400
       | Some courseId =>
           if negb (nonempty courseId)
           then respond [("error", VStr "course_id parameter is required")] 400
           else
             try_catch
               (let* lessons := listLessons service courseId in
                respond [("lessons", VArr lessons)] 200)
               (fun _ =>
                  respond
                    [("lessons", VArr []);
                     ("message",
                      VStr "Unable to fetch lessons. Lessons table may not exist yet.")]
                    200)
       end)
    (fun e => respond [("error", message_or e "Failed to list lessons")] 500).

End Lessons.

(* ===================================================================== *)
(** * The creation form: the tags of a new course *)
(* ===================================================================== *)

Module NewCourseForm.
Import Js.

(** [s.split(",")]. *)
Fixpoint split_comma (s : string) : list string :=
  match s with
  | EmptyString => [EmptyString]
  | String c r =>
      if Ascii.eqb c ","
      then EmptyString :: split_comma r
      else
        match split_comma r with
        | x :: xs => String c x :: xs
        | [] => [String c EmptyString]
        end
  end.

(** [s.trim()] on the ASCII white space: leading spaces are skipped,
    trailing ones dropped. *)
Fixpoint trim_end (s : string) : string :=
  match s with
  | EmptyString => EmptyString
  | String c r =>
      match trim_end r with
      | EmptyString => if is_space c then EmptyString else String c EmptyString
      | r' => String c r'
      end
  end.

Definition trim (s : string) : string := trim_end (skip_space s).

(** [formData.tags ? formData.tags.split(",").map(tag => tag.trim())
                                  .filter(Boolean) : undefined]. *)
Definition tags_of (tags : string) : option (list string) :=
  if nonempty tags
  then Some (List.filter nonempty (map trim (split_comma tags)))
  else None.

End NewCourseForm.

(* ===================================================================== *)
(** * Facts about the runtime and the helpers *)
(* ===================================================================== *)

Module Facts.
Import Js Server Notions.

Lemma truthy_wire v : truthy (wire v) = truthy v.
Proof. by destruct v. Qed.

Lemma field_wire_obj (m : obj) k : field (wire_obj m) k = wire (field m k).
Proof.
  unfold field, wire_obj. rewrite lookup_omap.
  destruct (m !! k) as [[]|]; reflexivity.
Qed.

Lemma get_wire v k : get (wire v) k = wire (get v k).
Proof. destruct v; try reflexivity. exact (field_wire_obj m k). Qed.

Lemma strict_eq_published v :
  strict_eq v (VStr "published") = true <-> v = VStr "published".
Proof.
  split; [|intros ->; reflexivity].
  destruct v; try discriminate. cbn. intros H.
  apply bool_decide_eq_true in H. by subst.
Qed.

Lemma bearer_prefix t : startsWith ("Bearer " +:+ t) "Bearer " = true.
Proof. destruct t; reflexivity. Qed.

Lemma bearer_suffix t : substring_from 7 ("Bearer " +:+ t) = t.
Proof. reflexivity. Qed.

(** A handler whose outer [catch] answers with a response returns. *)
Lemma try_catch_respond {A} (m : M A) (h : string -> A) w :
  exists a w', try_catch m (fun e => ret (h e)) w = (Ret a, w').
Proof.
  unfold try_catch, ret. destruct (m w) as [[a|e] w']; eauto.
Qed.

(** [verifyToken] never throws and leaves the world as it is. *)
Lemma verifyToken_run t w : Auth.verifyToken t w = (Ret (member_of w t), w).
Proof.
  unfold Auth.verifyToken, Auth.verify_token_route, member_of.
  unfold try_catch, bind, ask, lift, respond, ret.
  cbn [authorization json_body].
  rewrite bearer_prefix, bearer_suffix.
  destruct (env_set (secretKey w)); cbn; [|reflexivity].
  destruct t as [|c t]; cbn; [reflexivity|].
  destruct (sdk_verifyToken w (VStr (String c t))) as [ver|e]; cbn; [|reflexivity].
  destruct (truthy ver); cbn; [|reflexivity].
  destruct (truthy (get ver "id")); cbn; [|reflexivity].
  rewrite lookup_omap, lookup_insert_eq. reflexivity.
Qed.

Lemma member_of_empty w : member_of w "" = VNull.
Proof. unfold member_of. by rewrite andb_false_r. Qed.

Lemma optional_member_run req w :
  CoursesRoute.optional_member req w = (Ret (member_for w req), w).
Proof.
  unfold CoursesRoute.optional_member, member_for.
  destruct (bearer_token req) as [t|]; [|reflexivity].
  destruct t as [|c t]; cbn.
  - by rewrite member_of_empty.
  - apply verifyToken_run.
Qed.

(** A verified member is an object whose [id] is truthy, so that
    [member.id || member.memberId] is [member.id]. *)
Lemma member_of_truthy w t :
  truthy (member_of w t) = true ->
  truthy (get (member_of w t) "id") = true.
Proof.
  unfold member_of.
  destruct (env_set (secretKey w) && nonempty t); [|discriminate].
  destruct (sdk_verifyToken w (VStr t)) as [ver|e]; [|discriminate].
  destruct (truthy ver); cbn; [|discriminate].
  destruct (truthy (get ver "id")) eqn:Hid; cbn; [|discriminate].
  intros _. rewrite lookup_omap, lookup_insert_eq.
  destruct (get ver "id"); try discriminate; exact Hid.
Qed.

Lemma member_of_falsy w t :
  truthy (member_of w t) = false -> member_of w t = VNull.
Proof.
  unfold member_of.
  destruct (env_set (secretKey w) && nonempty t); [|reflexivity].
  destruct (sdk_verifyToken w (VStr t)) as [ver|e]; [|reflexivity].
  destruct (truthy ver && truthy (get ver "id")); [discriminate|reflexivity].
Qed.

Lemma anonymous_member w req : anonymous req = true -> member_for w req = VNull.
Proof.
  unfold anonymous, member_for.
  destruct (bearer_token req) as [[|c t]|]; try discriminate; intros _;
    [apply member_of_empty | reflexivity].
Qed.

Lemma misconfigured_secret w :
  misconfigured w = false -> env_set (secretKey w) = true.
Proof.
  unfold misconfigured.
  destruct (env_set (secretKey w)); [reflexivity|discriminate].
Qed.

Lemma getCourse_run courseId w :
  env_set (secretKey w) = true ->
  Admin.getCourse courseId w =
  (Ret (Admin.course_of_record <$> Admin.find_record courseId (table w)), w).
Proof.
  intros Hs. unfold Admin.getCourse, Admin.require_secret, Admin.rethrow.
  unfold try_catch, bind, ask, ret. rewrite Hs. reflexivity.
Qed.

Lemma owner_of_course r :
  field (Admin.course_of_record r) "owner_id" = field (rec_data r) "owner_id".
Proof. unfold field, Admin.course_of_record. by rewrite lookup_insert_ne. Qed.

Lemma status_of_course r :
  field (Admin.course_of_record r) "status" = field (rec_data r) "status".
Proof. unfold field, Admin.course_of_record. by rewrite lookup_insert_ne. Qed.

(** The status test of the single-course read is the read-path default. *)
Lemma isPublished_read r :
  CourseRoute.isPublished (Admin.course_of_record r) = published_on_read (rec_data r).
Proof.
  unfold CourseRoute.isPublished, published_on_read, read_status.
  rewrite status_of_course.
  destruct (field (rec_data r) "status"); try reflexivity.
  cbn. by rewrite orb_false_r.
Qed.

(** The listing loop ends within its 11 iterations, with the first 1100
    matching records at most. *)
Lemma fetch_pages_take matching : forall fuel k,
  (k <= 10)%nat -> (11 <= fuel + k)%nat ->
  Admin.fetch_pages fuel matching (100 * k) (take (100 * k) matching)
  = take 1100 matching.
Proof.
  induction fuel as [|fuel IH]; intros k Hk Hf; [lia|].
  cbn [Admin.fetch_pages Admin.query_page]. unfold Admin.pageSize.
  rewrite take_take_drop.
  assert (Hlen : length (take 100 (drop (100 * k) matching))
                 = Nat.min 100 (length matching - 100 * k)).
  { by rewrite length_take, length_drop. }
  destruct (100 * k + 100 <? length matching)%nat eqn:Hmore.
  - apply Nat.ltb_lt in Hmore.
    assert (Hfull : length (take 100 (drop (100 * k) matching)) = 100%nat)
      by lia.
    rewrite Hfull. cbn [Nat.eqb negb andb].
    rewrite length_take.
    destruct (1000 <? (100 * k + 100) `min` length matching)%nat eqn:Hcap.
    + apply Nat.ltb_lt in Hcap. cbn [negb]. f_equal. lia.
    + apply Nat.ltb_ge in Hcap. cbn [negb].
      replace (100 * k + 100)%nat with (100 * S k)%nat by lia.
      apply IH; lia.
  - apply Nat.ltb_ge in Hmore. cbn [andb].
    rewrite !take_ge by lia. reflexivity.
Qed.

Lemma fetch_pages_enough matching fuel :
  (11 <= fuel)%nat ->
  Admin.fetch_pages fuel matching 0 [] = take 1100 matching.
Proof.
  intros Hf. apply (fetch_pages_take matching fuel 0); lia.
Qed.

End Facts.

(* ===================================================================== *)
(** * Reading a single course *)
(* ===================================================================== *)

Module CourseReadFacts.
Import Js Server Notions Facts.

(** What [GET /api/courses/:id] answers on a configured server. *)
Lemma GET_course_run req courseId w :
  misconfigured w = false ->
  CourseRoute.GET req courseId w =
  (Ret match Admin.find_record courseId (table w) with
       | None =>
           json (object [("error", VStr "Course not found");
                         ("courseId", VStr courseId)]) 404
       | Some r =>
           let course := Admin.course_of_record r in
           if negb (CourseRoute.isPublished course)
              && negb (truthy (CourseRoute.isOwner (member_for w req) course))
           then json (object
                        [("error", VStr "Course not found or access denied")]) 404
           else json (object [("course", CourseRoute.responseCourse w course)]) 200
       end, w).
Proof.
  intros Hc. unfold CourseRoute.GET, CourseRoute.config_error.
  unfold try_catch at 1. unfold bind at 1. unfold ask at 1. rewrite Hc.
  unfold bind at 1. rewrite optional_member_run.
  unfold try_catch at 1. unfold bind at 1.
  rewrite getCourse_run by (by apply misconfigured_secret).
  destruct (Admin.find_record courseId (table w)) as [r|]; cbn; [|reflexivity].
  destruct (negb _ && negb _); reflexivity.
Qed.

Lemma GET_misconfigured req courseId w :
  misconfigured w = true ->
  CourseRoute.GET req courseId w =
  (Ret (json (object [("error", VStr "Server configuration error")]) 500), w).
Proof.
  intros Hc. unfold CourseRoute.GET, CourseRoute.config_error.
  unfold try_catch, bind, ask. rewrite Hc. reflexivity.
Qed.

(** The handler looks at the request only through the member it is
    made by. *)
Lemma GET_member req req' courseId w :
  member_for w req = member_for w req' ->
  CourseRoute.GET req courseId w = CourseRoute.GET req' courseId w.
Proof.
  intros Hm. unfold CourseRoute.GET.
  unfold try_catch at 1 3. unfold bind at 1 5. unfold ask.
  destruct (misconfigured w); [reflexivity|].
  unfold bind at 1 4. rewrite !optional_member_run, Hm. reflexivity.
Qed.

Lemma isOwner_null course : truthy (CourseRoute.isOwner VNull course) = false.
Proof. reflexivity. Qed.



(** C10: on [GET /api/courses/:id] a bearer token that fails
    verification is not answered with 401: the answer is the one of the
    same request without the header, so a published course is returned
    and an unpublished one gives 404. *)
Theorem invalid_token_reads_as_anonymous w req courseId t :
  bearer_token req = Some t ->
  Auth.verifyToken t w = (Ret VNull, w) ->
  CourseRoute.GET req courseId w
  = CourseRoute.GET (without_authorization req) courseId w
  /\ (exists resp,
         CourseRoute.GET req courseId w = (Ret resp, w) /\ status resp <> 401%Z)
  /\ (forall r,
         misconfigured w = false ->
         Admin.find_record courseId (table w) = Some r ->
         CourseRoute.GET req courseId w
         = (Ret (if published_on_read (rec_data r)
                 then json (object
                              [("course",
                                CourseRoute.responseCourse w
                                  (Admin.course_of_record r))]) 200
                 else json (object
                              [("error",
                                VStr "Course not found or access denied")]) 404),
            w)).
Proof.
  intros Ht Hv. rewrite verifyToken_run in Hv.
  assert (Hm : member_for w req = VNull).
  { unfold member_for. rewrite Ht. congruence. }
  split; [|split].
  - apply GET_member. by rewrite Hm.
  - destruct (misconfigured w) eqn:Hc.
    + rewrite GET_misconfigured by done. eexists; split; [reflexivity|done].
    + rewrite GET_course_run by done.
      destruct (Admin.find_record courseId (table w)) as [r|].
      * cbn zeta. destruct (negb _ && negb _);
          (eexists; split; [reflexivity|done]).
      * eexists; split; [reflexivity|done].
  - intros r Hc Hr. rewrite GET_course_run, Hr by done. cbn zeta.
    rewrite isPublished_read, Hm, isOwner_null.
    by destruct (published_on_read (rec_data r)).
Qed.

Lemma invalid_token_reads_as_anonymous_witness :
  CourseRoute.GET (Demo.request_of (Some "stale") [] VNull) "c1" Demo.world0
  = CourseRoute.GET
      (without_authorization (Demo.request_of (Some "stale") [] VNull))
      "c1" Demo.world0.
Proof.
  apply (invalid_token_reads_as_anonymous Demo.world0
           (Demo.request_of (Some "stale") [] VNull) "c1" "stale");
    reflexivity.
Defined.

End CourseReadFacts.

(* ===================================================================== *)
(** * Updating and deleting a course *)
(* ===================================================================== *)

Module CourseWriteFacts.
Import Js Server Notions Facts.

(** A branch that answers before the ownership test has passed: the
    status is not 200 and the table is the one the handler started
    with. *)
Ltac refused := cbn; intros [= <- <-]; left; by split.

(** The bearer token of a verified member is not empty. *)
Ltac token_nonempty t Hm Hn :=
  assert (Hn : nonempty t = true)
    by (destruct t; [by rewrite member_of_empty in Hm | reflexivity]).

Lemma find_record_id courseId t r :
  Admin.find_record courseId t = Some r -> rec_id r = courseId.
Proof.
  unfold Admin.find_record. intros H. apply find_some in H as [_ H].
  by apply bool_decide_eq_true in H.
Qed.

Lemma find_replace_record courseId t r r' :
  Admin.find_record courseId t = Some r ->
  rec_id r' = courseId ->
  Admin.find_record courseId (Admin.replace_record r' t) = Some r'.
Proof.
  unfold Admin.find_record, Admin.replace_record. intros H Hid.
  induction t as [|x t IH]; [discriminate|]. cbn in *.
  destruct (bool_decide (rec_id x = courseId)) eqn:Hx.
  - apply bool_decide_eq_true in Hx.
    rewrite (bool_decide_eq_true_2 (rec_id x = rec_id r')) by congruence.
    cbn. by rewrite bool_decide_eq_true_2.
  - apply bool_decide_eq_false in Hx.
    rewrite (bool_decide_eq_false_2 (rec_id x = rec_id r')) by congruence.
    cbn. rewrite bool_decide_eq_false_2 by done. by apply IH.
Qed.

(** The two ways in which [PUT] ends: without having written, or past
    the ownership test. *)
Lemma PUT_inv req courseId w resp w' :
  CourseRoute.PUT req courseId w = (Ret resp, w') ->
  (status resp <> 200%Z /\ table w' = table w)
  \/ (exists t r,
        bearer_token req = Some t
        /\ truthy (member_of w t) = true
        /\ Admin.find_record courseId (table w) = Some r
        /\ strict_eq (field (rec_data r) "owner_id")
                     (CourseRoute.memberId (member_of w t)) = true).
Proof.
  unfold CourseRoute.PUT, CourseRoute.authenticated, CourseRoute.config_error.
  unfold try_catch at 1. unfold bind at 1. unfold ask at 1.
  destruct (misconfigured w) eqn:Hc.
  { refused. }
  destruct (bearer_token req) as [t|] eqn:Ht.
  2:{ refused. }
  destruct t as [|c t].
  { refused. }
  cbn [truthy nonempty negb]. unfold bind at 1. rewrite verifyToken_run.
  destruct (truthy (member_of w (String c t))) eqn:Hm; cbn [negb].
  2:{ refused. }
  unfold bind at 1, lift at 1.
  destruct (json_body req) as [body|e].
  2:{ refused. }
  unfold bind at 1, now_iso at 1. unfold bind at 1.
  rewrite getCourse_run by (cbn; by apply misconfigured_secret).
  change (table (set_reads _ w)) with (table w).
  destruct (Admin.find_record courseId (table w)) as [r|] eqn:Hr.
  2:{ refused. }
  cbn [fmap option_fmap option_map]. rewrite owner_of_course.
  destruct (strict_eq _ _) eqn:Ho; cbn [negb].
  2:{ refused. }
  intros _. right. exists (String c t), r. done.
Qed.

Lemma DELETE_inv req courseId w resp w' :
  CourseRoute.DELETE req courseId w = (Ret resp, w') ->
  (status resp <> 200%Z /\ table w' = table w)
  \/ (exists t r,
        bearer_token req = Some t
        /\ truthy (member_of w t) = true
        /\ Admin.find_record courseId (table w) = Some r
        /\ strict_eq (field (rec_data r) "owner_id")
                     (CourseRoute.memberId (member_of w t)) = true).
Proof.
  unfold CourseRoute.DELETE, CourseRoute.authenticated, CourseRoute.config_error.
  unfold try_catch at 1. unfold bind at 1. unfold ask at 1.
  destruct (misconfigured w) eqn:Hc.
  { refused. }
  destruct (bearer_token req) as [t|] eqn:Ht.
  2:{ refused. }
  destruct t as [|c t].
  { refused. }
  cbn [truthy nonempty negb]. unfold bind at 1. rewrite verifyToken_run.
  destruct (truthy (member_of w (String c t))) eqn:Hm; cbn [negb].
  2:{ refused. }
  unfold bind at 1.
  rewrite getCourse_run by (by apply misconfigured_secret).
  destruct (Admin.find_record courseId (table w)) as [r|] eqn:Hr.
  2:{ refused. }
  cbn [fmap option_fmap option_map]. rewrite owner_of_course.
  destruct (strict_eq _ _) eqn:Ho; cbn [negb].
  2:{ refused. }
  intros _. right. exists (String c t), r. done.
Qed.

(** A verified member who is not the owner is refused before anything
    is written. *)
Lemma PUT_forbidden req courseId w t r body :
  misconfigured w = false ->
  bearer_token req = Some t ->
  truthy (member_of w t) = true ->
  json_body req = Ret body ->
  Admin.find_record courseId (table w) = Some r ->
  strict_eq (field (rec_data r) "owner_id")
            (CourseRoute.memberId (member_of w t)) = false ->
  CourseRoute.PUT req courseId w
  = (Ret (json (object
                  [("error",
                    VStr "You don't have permission to update this course")])
               403),
     set_reads (S (reads w)) w).
Proof.
  intros Hc Ht Hm Hb Hr Ho.
  unfold CourseRoute.PUT, CourseRoute.authenticated.
  unfold try_catch at 1. unfold bind at 1. unfold ask at 1. rewrite Hc, Ht.
  token_nonempty t Hm Hn. cbn [truthy]. rewrite Hn. cbn [negb].
  unfold bind at 1. rewrite verifyToken_run, Hm. cbn [negb].
  unfold bind at 1, lift at 1. rewrite Hb.
  unfold bind at 1, now_iso at 1. unfold bind at 1.
  rewrite getCourse_run by (cbn; by apply misconfigured_secret).
  change (table (set_reads _ w)) with (table w). rewrite Hr.
  cbn [fmap option_fmap option_map]. rewrite owner_of_course, Ho. reflexivity.
Qed.

(** The body of a [PUT] is parsed after the token is verified and before
    the course is looked up: when it does not parse, a verified member
    is answered 500, whoever owns the course. *)
Lemma PUT_unparsed req courseId w t e :
  misconfigured w = false ->
  bearer_token req = Some t ->
  truthy (member_of w t) = true ->
  json_body req = Throw e ->
  CourseRoute.PUT req courseId w
  = (Ret (json (object [("error", message_or e "Failed to update course")])
               500),
     w).
Proof.
  intros Hc Ht Hm Hb.
  unfold CourseRoute.PUT, CourseRoute.authenticated.
  unfold try_catch at 1. unfold bind at 1. unfold ask at 1. rewrite Hc, Ht.
  token_nonempty t Hm Hn. cbn [truthy]. rewrite Hn. cbn [negb].
  unfold bind at 1. rewrite verifyToken_run, Hm. cbn [negb].
  unfold bind at 1, lift at 1. rewrite Hb. reflexivity.
Qed.

Lemma DELETE_forbidden req courseId w t r :
  misconfigured w = false ->
  bearer_token req = Some t ->
  truthy (member_of w t) = true ->
  Admin.find_record courseId (table w) = Some r ->
  strict_eq (field (rec_data r) "owner_id")
            (CourseRoute.memberId (member_of w t)) = false ->
  CourseRoute.DELETE req courseId w
  = (Ret (json (object
                  [("error",
                    VStr "You don't have permission to delete this course")])
               403),
     w).
Proof.
  intros Hc Ht Hm Hr Ho.
  unfold CourseRoute.DELETE, CourseRoute.authenticated.
  unfold try_catch at 1. unfold bind at 1. unfold ask at 1. rewrite Hc, Ht.
  token_nonempty t Hm Hn. cbn [truthy]. rewrite Hn. cbn [negb].
  unfold bind at 1. rewrite verifyToken_run, Hm. cbn [negb].
  unfold bind at 1.
  rewrite getCourse_run by (by apply misconfigured_secret).
  rewrite Hr.
  cbn [fmap option_fmap option_map]. rewrite owner_of_course, Ho. reflexivity.
Qed.

(** The handlers of the route always answer: their outer [catch] turns
    an exception into a response. *)
Lemma handlers_return req courseId w :
  (exists resp w', CourseRoute.GET req courseId w = (Ret resp, w'))
  /\ (exists resp w', CourseRoute.PUT req courseId w = (Ret resp, w'))
  /\ (exists resp w', CourseRoute.DELETE req courseId w = (Ret resp, w')).
Proof.
  split; [|split]; apply try_catch_respond.
Qed.

Lemma memberId_verified w t :
  truthy (member_of w t) = true ->
  CourseRoute.memberId (member_of w t) = get (member_of w t) "id".
Proof.
  intros H. unfold CourseRoute.memberId, or_else.
  by rewrite (member_of_truthy w t H).
Qed.

(** C3, with the condition on the body that the 403 of a [PUT] needs:
    for an existing course, a [PUT] or [DELETE] on [/api/courses/:id]
    succeeds (answers 200, or changes the table at all) only when the
    request bears a token that verifies to a member whose identifier is
    the owner identifier stored for the course.  A request with a valid
    token of another member leaves the table as it was; a [DELETE] is
    answered 403, and so is a [PUT] whose body parses as JSON; a [PUT]
    whose body does not parse is answered 500, because the body is read
    before the owner is compared. *)
Theorem mutation_only_by_owner w req courseId r :
  Admin.find_record courseId (table w) = Some r ->
  (forall resp w',
      CourseRoute.PUT req courseId w = (Ret resp, w')
      \/ CourseRoute.DELETE req courseId w = (Ret resp, w') ->
      status resp = 200%Z \/ table w' <> table w ->
      exists t member,
        bearer_token req = Some t
        /\ Auth.verifyToken t w = (Ret member, w)
        /\ truthy member = true
        /\ strict_eq (field (rec_data r) "owner_id") (get member "id") = true)
  /\ (forall t member,
        misconfigured w = false ->
        bearer_token req = Some t ->
        Auth.verifyToken t w = (Ret member, w) ->
        truthy member = true ->
        strict_eq (field (rec_data r) "owner_id") (get member "id") = false ->
        (exists resp w',
            CourseRoute.DELETE req courseId w = (Ret resp, w')
            /\ status resp = 403%Z /\ table w' = table w)
        /\ (forall body,
              json_body req = Ret body ->
              exists resp w',
                CourseRoute.PUT req courseId w = (Ret resp, w')
                /\ status resp = 403%Z /\ table w' = table w)
        /\ (forall e,
              json_body req = Throw e ->
              exists resp,
                CourseRoute.PUT req courseId w = (Ret resp, w)
                /\ status resp = 500%Z)).
Proof.
  intros Hr. split.
  - intros resp w' Hrun Hok.
    assert (Hinv :
      (status resp <> 200%Z /\ table w' = table w)
      \/ (exists t r0,
            bearer_token req = Some t
            /\ truthy (member_of w t) = true
            /\ Admin.find_record courseId (table w) = Some r0
            /\ strict_eq (field (rec_data r0) "owner_id")
                         (CourseRoute.memberId (member_of w t)) = true)).
    { destruct Hrun as [H|H]; [by eapply PUT_inv | by eapply DELETE_inv]. }
    destruct Hinv as [[Hs Ht]|(t & r0 & Ht & Hm & Hr0 & Ho)].
    + destruct Hok; congruence.
    + exists t, (member_of w t). rewrite verifyToken_run.
      rewrite memberId_verified in Ho by done.
      replace r with r0 by congruence. done.
  - intros t member Hc Ht Hv Hm Ho.
    rewrite verifyToken_run in Hv. injection Hv as <-.
    rewrite <- memberId_verified in Ho by done. split; [|split].
    + eexists _, _. rewrite (DELETE_forbidden req courseId w t r) by done.
      by split.
    + intros body Hb. eexists _, _.
      rewrite (PUT_forbidden req courseId w t r body) by done. by split.
    + intros e Hb. eexists.
      rewrite (PUT_unparsed req courseId w t e) by done. by split.
Qed.

Lemma mutation_only_by_owner_witness :
  exists resp w',
    CourseRoute.PUT
      (Demo.request_of (Some "token-m2") [] (object [("title", VStr "Mine")]))
      "c1" Demo.world0 = (Ret resp, w')
    /\ status resp = 403%Z /\ table w' = table Demo.world0.
Proof.
  pose proof (mutation_only_by_owner Demo.world0
                (Demo.request_of (Some "token-m2") []
                   (object [("title", VStr "Mine")]))
                "c1" Demo.c1 eq_refl) as [_ H].
  destruct (H "token-m2" (member_of Demo.world0 "token-m2")) as (_ & Hput & _);
    try reflexivity.
  eapply Hput. reflexivity.
Defined.

(** C3 as stated does not hold of every [PUT]: member [m2], whose token
    is valid, sends a [PUT] without a body for course [c1] of member
    [m1]; the answer is 500 and not 403.  The course is unchanged. *)
Theorem put_of_another_member_without_body_is_500 :
  stored_owner (table Demo.world0) "c1" = VStr "m1"
  /\ bearer_token Demo.request_without_body = Some "token-m2"
  /\ (Auth.verifyToken "token-m2" Demo.world0).1
     = Ret (object [("id", VStr "m2"); ("memberId", VStr "m2");
                    ("type", VStr "member")])
  /\ CourseRoute.PUT Demo.request_without_body "c1" Demo.world0
     = (Ret (json (object [("error", VStr "Unexpected end of JSON input")])
                  500),
        Demo.world0).
Proof. vm_compute. repeat split. Qed.

(** What an accepted [PUT] writes and answers. *)
Lemma PUT_accepted req courseId w t r body :
  misconfigured w = false ->
  bearer_token req = Some t ->
  truthy (member_of w t) = true ->
  json_body req = Ret body ->
  Admin.find_record courseId (table w) = Some r ->
  strict_eq (field (rec_data r) "owner_id")
            (CourseRoute.memberId (member_of w t)) = true ->
  let now1 := date_iso w (clock w (reads w)) in
  let now2 := date_iso w (clock w (S (reads w))) in
  let updates :=
    CourseRoute.with_cents w (CourseRoute.initial_updates body now1) in
  let r' :=
    MkRecord (rec_id r)
      (Admin.put_data (put_merges w)
         (wire_obj (<["updated_at" := VStr now2]> updates)) (rec_data r)) in
  let w' :=
    set_table (Admin.replace_record r' (table w))
      (set_reads (S (S (reads w))) w) in
  CourseRoute.PUT req courseId w
  = (Ret (json (object
                  [("course",
                    CourseRoute.responseCourse w' (Admin.written_course r'))])
               200),
     w').
Proof.
  intros Hc Ht Hm Hb Hr Ho.
  unfold CourseRoute.PUT, CourseRoute.authenticated.
  unfold try_catch at 1. unfold bind at 1. unfold ask at 1. rewrite Hc, Ht.
  token_nonempty t Hm Hn. cbn [truthy]. rewrite Hn. cbn [negb].
  unfold bind at 1. rewrite verifyToken_run, Hm. cbn [negb].
  unfold bind at 1, lift at 1. rewrite Hb.
  unfold bind at 1, now_iso at 1. unfold bind at 1.
  rewrite getCourse_run by (cbn; by apply misconfigured_secret).
  change (table (set_reads _ w)) with (table w). rewrite Hr.
  cbn [fmap option_fmap option_map]. rewrite owner_of_course, Ho.
  cbn [negb]. unfold bind at 1, get_world at 1.
  unfold bind at 1, Admin.updateCourse.
  unfold bind at 1, Admin.require_secret. cbn [secretKey set_reads].
  rewrite (misconfigured_secret w Hc).
  unfold bind at 1, now_iso at 1. unfold Admin.rethrow, try_catch.
  cbn [table set_reads]. rewrite Hr. reflexivity.
Qed.

Lemma stored_field_replaced courseId t r r' k :
  Admin.find_record courseId t = Some r ->
  rec_id r' = courseId ->
  stored_field (Admin.replace_record r' t) courseId k = field (rec_data r') k.
Proof.
  intros Hr Hid. unfold stored_field.
  by rewrite (find_replace_record courseId t r r').
Qed.

(** Whichever way the service applies an update, a field it is sent is
    stored as sent. *)
Lemma put_data_sent merges (sent stored : obj) k v :
  sent !! k = Some v -> Admin.put_data merges sent stored !! k = Some v.
Proof.
  intros H. unfold Admin.put_data. destruct merges; [|done].
  by erewrite lookup_union_Some_l.
Qed.

(** A field it is not sent is kept by a service that merges, and is gone
    otherwise. *)
Lemma put_data_not_sent merges (sent stored : obj) k :
  sent !! k = None ->
  Admin.put_data merges sent stored !! k
  = if merges then stored !! k else None.
Proof.
  intros H. unfold Admin.put_data. destruct merges; [|done].
  by rewrite lookup_union_r.
Qed.

(** The fields a [PUT] sets are those of the body, except [id] and
    [created_at], with [updated_at] and possibly [priceCents] added:
    an absent [owner_id] stays absent. *)
Lemma updates_owner w body now1 now2 :
  spread body !! "owner_id" = None ->
  wire_obj (<["updated_at" := VStr now2]>
              (CourseRoute.with_cents w (CourseRoute.initial_updates body now1)))
  !! "owner_id" = None.
Proof.
  intros Hb. unfold wire_obj. rewrite lookup_omap, lookup_insert_ne by done.
  unfold CourseRoute.with_cents, CourseRoute.initial_updates.
  destruct (truthy _).
  - rewrite lookup_delete_ne, lookup_insert_ne by done.
    rewrite !lookup_delete_ne, lookup_insert_ne by done. by rewrite Hb.
  - rewrite !lookup_delete_ne, lookup_insert_ne by done. by rewrite Hb.
Qed.

(** A [PUT] whose body has no [owner_id] keeps the owner, when the
    service merges. *)
Lemma PUT_keeps_owner req courseId w t r body :
  put_merges w = true ->
  misconfigured w = false ->
  bearer_token req = Some t ->
  truthy (member_of w t) = true ->
  json_body req = Ret body ->
  Admin.find_record courseId (table w) = Some r ->
  spread body !! "owner_id" = None ->
  stored_owner (table (CourseRoute.PUT req courseId w).2) courseId
  = stored_owner (table w) courseId.
Proof.
  intros Hmerges Hc Ht Hm Hb Hr Hbody.
  destruct (strict_eq (field (rec_data r) "owner_id")
              (CourseRoute.memberId (member_of w t))) eqn:Ho.
  - rewrite (PUT_accepted req courseId w t r body) by done.
    cbn [snd table set_table].
    change (stored_owner ?t ?c) with (stored_field t c "owner_id").
    rewrite (stored_field_replaced courseId (table w) r)
      by (done || apply (find_record_id _ _ _ Hr)).
    unfold stored_field. rewrite Hr. cbn [rec_data]. unfold field.
    rewrite put_data_not_sent by apply updates_owner, Hbody.
    by rewrite Hmerges.
  - by rewrite (PUT_forbidden req courseId w t r body).
Qed.

(** A [PUT] whose body has a non-zero number as [price] stores
    [Math.round(price * 100)] as [priceCents], and the time of the update
    as [updated_at]. *)
Lemma PUT_rederives_cents req courseId w t r body p :
  misconfigured w = false ->
  bearer_token req = Some t ->
  truthy (member_of w t) = true ->
  json_body req = Ret body ->
  Admin.find_record courseId (table w) = Some r ->
  strict_eq (field (rec_data r) "owner_id")
            (CourseRoute.memberId (member_of w t)) = true ->
  field (spread body) "price" = VNum p ->
  p <> 0%Qc ->
  let t' := table (CourseRoute.PUT req courseId w).2 in
  stored_field t' courseId "priceCents" = round_cents w (VNum p)
  /\ stored_field t' courseId "updated_at"
     = VStr (date_iso w (clock w (S (reads w)))).
Proof.
  intros Hc Ht Hm Hb Hr Ho Hp Hnz.
  rewrite (PUT_accepted req courseId w t r body) by done.
  cbn [snd table set_table].
  rewrite !(stored_field_replaced courseId (table w) r)
    by (done || apply (find_record_id _ _ _ Hr)).
  cbn [rec_data].
  assert (Hprice :
    field (CourseRoute.initial_updates body
             (date_iso w (clock w (reads w)))) "price" = VNum p).
  { unfold field, CourseRoute.initial_updates.
    rewrite !lookup_delete_ne, lookup_insert_ne by done. exact Hp. }
  unfold CourseRoute.with_cents. rewrite Hprice.
  cbn [truthy]. rewrite bool_decide_eq_false_2 by done. cbn [negb].
  split; unfold field.
  - erewrite put_data_sent; [reflexivity|].
    unfold wire_obj. rewrite lookup_omap, lookup_insert_ne by done.
    rewrite lookup_delete_ne, lookup_insert_eq by done.
    unfold round_cents. cbn [to_number]. by destruct (times100 p).
  - erewrite put_data_sent; [reflexivity|].
    unfold wire_obj. by rewrite lookup_omap, lookup_insert_eq.
Qed.

(** C2, which the code does not meet: the owner identifier of a course
    is meant to be the same after every [PUT].  The handler strips [id]
    and [created_at] from the body but not [owner_id]: here member [m1],
    owner of course [c1], sends [{owner_id: "m2"}]; the request is
    answered 200 and the stored owner becomes [m2]. *)
Theorem put_rewrites_owner :
  let req := Demo.request_of (Some "token-m1") []
               (object [("owner_id", VStr "m2")]) in
  let out := CourseRoute.PUT req "c1" Demo.world0 in
  stored_owner (table Demo.world0) "c1" = VStr "m1"
  /\ status_of out = Some 200%Z
  /\ stored_owner (table out.2) "c1" = VStr "m2".
Proof. vm_compute. repeat split. Qed.

(** C7, which the code does not meet for a price of zero: a [PUT] with
    a [price] is meant to store [round(price * 100)] as [priceCents].
    The test [if (updates.price)] is false for [0]: here the owner of
    [c1], stored with 4999 cents, sends [{price: 0}]; the request is
    answered 200, the stored [priceCents] is still 4999 and not
    [round(0 * 100)], and the course is read back at 49.99, the double
    that 4999 / 100 gives. *)
Theorem put_price_zero_keeps_cents :
  let req := Demo.request_of (Some "token-m1") [] (object [("price", num 0)]) in
  let out := CourseRoute.PUT req "c1" Demo.world0 in
  status_of out = Some 200%Z
  /\ stored_field (table out.2) "c1" "priceCents" = num 4999
  /\ num (math_round (0 * Q2Qc (100 # 1))%Qc) = num 0
  /\ stored_field (table out.2) "c1" "updated_at" = VStr "t1000"
  /\ match (CourseRoute.GET (Demo.request_of None [] VNull) "c1" out.2).1 with
     | Ret resp =>
         Some (get (get (payload resp) "course") "price")
     | Throw _ => None
     end = VNum <$> over100 (Q2Qc (4999 # 1))
  /\ over100 (Q2Qc (4999 # 1))
     = Some (Q2Qc (7035467042882847 # 140737488355328)).
Proof. vm_compute. repeat split. Qed.

End CourseWriteFacts.

(* ===================================================================== *)
(** * Listing the courses *)
(* ===================================================================== *)

Module CourseListFacts.
Import Js Server Notions Facts.

(** What [GET /api/courses] answers without an [owner_id] filter on a
    configured server: every stored course for a verified member, and
    the published ones otherwise. *)
Lemma GET_list_run req w :
  misconfigured w = false ->
  unfiltered req = true ->
  let all :=
    map (CoursesRoute.processed w)
        (map Admin.listed_course (take 1100 (table w))) in
  CoursesRoute.GET req w
  = (Ret (json (object
                  [("courses",
                    VArr (map VObj
                            (if truthy (member_for w req) then all
                             else List.filter CoursesRoute.is_published all)))])
               200),
     w).
Proof.
  intros Hc Hu. unfold unfiltered in Hu. apply negb_true_iff in Hu.
  unfold CoursesRoute.GET, CoursesRoute.config_error.
  unfold try_catch at 1. unfold bind at 1. unfold ask at 1. rewrite Hc.
  unfold bind at 1. rewrite optional_member_run, Hu.
  cbn [andb]. unfold try_catch at 1. unfold bind at 1.
  unfold Admin.listCourses, Admin.require_secret, Admin.rethrow.
  unfold or_else. rewrite Hu.
  unfold try_catch, bind, ask, get_world, ret, respond.
  rewrite (misconfigured_secret w Hc). cbn [truthy].
  rewrite fetch_pages_enough by done.
  destruct (truthy (member_for w req)); reflexivity.
Qed.

Lemma list_handlers_return req w :
  (exists resp w', CoursesRoute.GET req w = (Ret resp, w'))
  /\ (exists resp w', CoursesRoute.POST req w = (Ret resp, w')).
Proof. split; apply try_catch_respond. Qed.

Lemma listed_json courses :
  listed (json (object [("courses", VArr (map VObj courses))]) 200)
  = map (fun c => VObj (wire_obj c)) courses.
Proof.
  unfold listed, json, object. cbn [payload].
  rewrite get_wire. cbn [get list_to_map foldr].
  rewrite lookup_insert_eq. cbn [default wire id snd].
  rewrite map_map. reflexivity.
Qed.

(** Without a verified member and without a filter, every course of the
    answer is published. *)
Lemma anonymous_list_published req w :
  misconfigured w = false ->
  unfiltered req = true ->
  truthy (member_for w req) = false ->
  exists resp,
    CoursesRoute.GET req w = (Ret resp, w)
    /\ status resp = 200%Z
    /\ forall c, In c (listed resp) -> get c "status" = VStr "published".
Proof.
  intros Hc Hu Hm. rewrite GET_list_run, Hm by done. cbn zeta.
  eexists. split; [reflexivity|]. split; [reflexivity|].
  intros c. rewrite listed_json. rewrite in_map_iff.
  intros (x & <- & Hx). apply filter_In in Hx as [_ Hx].
  change (get (VObj (wire_obj x)) "status") with (field (wire_obj x) "status").
  rewrite field_wire_obj.
  apply strict_eq_published in Hx. by rewrite Hx.
Qed.

(** With a verified member and without a filter, every stored course
    the listing fetches is in the answer, whatever its status and its
    owner. *)
Lemma member_list_everything req w :
  misconfigured w = false ->
  unfiltered req = true ->
  truthy (member_for w req) = true ->
  exists resp,
    CoursesRoute.GET req w = (Ret resp, w)
    /\ status resp = 200%Z
    /\ listed resp
       = map (fun r => VObj (wire_obj (CoursesRoute.processed w
                                         (Admin.listed_course r))))
             (take 1100 (table w)).
Proof.
  intros Hc Hu Hm. rewrite GET_list_run, Hm by done. cbn zeta.
  eexists. split; [reflexivity|]. split; [reflexivity|].
  by rewrite listed_json, !map_map.
Qed.

(** C1, which the code does not meet: without an [owner_id] filter an
    authenticated caller is meant to receive the published courses and
    their own unpublished ones, and nobody another member's unpublished
    course.  The handler filters for anonymous callers only: here member
    [m1] lists the courses and receives [c2], the draft of [m2]. *)
Theorem member_list_leaks_draft :
  let req := Demo.request_of (Some "token-m1") [] VNull in
  match (CoursesRoute.GET req Demo.world0).1 with
  | Ret resp =>
      status resp = 200%Z
      /\ map (fun c => (get c "id", get c "owner_id", get c "status"))
             (listed resp)
         = [(VStr "c1", VStr "m1", VStr "published");
            (VStr "c2", VStr "m2", VStr "draft")]
  | Throw _ => False
  end.
Proof. vm_compute. split; reflexivity. Qed.

End CourseListFacts.

(* ===================================================================== *)
(** * Seeding sample courses *)
(* ===================================================================== *)

Module SeedFacts.
Import Js Server Notions Facts.

(** The count is always between 1 and 200. *)
Lemma seed_count_bounds w param :
  (1 <= SeedRoute.seed_count w param <= 200)%Z.
Proof. unfold SeedRoute.seed_count. lia. Qed.

(** A negative count is raised to 1. *)
Lemma seed_count_negative w param n :
  parseInt (number_to_string w) param = Some n ->
  (n < 0)%Z ->
  SeedRoute.seed_count w param = 1%Z.
Proof.
  intros Hp Hn. unfold SeedRoute.seed_count, SeedRoute.parsed_or_50.
  rewrite Hp. destruct (n =? 0)%Z eqn:H0; lia.
Qed.

(** A count in range that is not zero is kept. *)
Lemma seed_count_in_range w param n :
  parseInt (number_to_string w) param = Some n ->
  (1 <= n <= 200)%Z ->
  SeedRoute.seed_count w param = n.
Proof.
  intros Hp Hn. unfold SeedRoute.seed_count, SeedRoute.parsed_or_50.
  rewrite Hp. destruct (n =? 0)%Z eqn:H0; lia.
Qed.

(** A count above 200 is lowered to 200. *)
Lemma seed_count_above w param n :
  parseInt (number_to_string w) param = Some n ->
  (200 <= n)%Z ->
  SeedRoute.seed_count w param = 200%Z.
Proof.
  intros Hp Hn. unfold SeedRoute.seed_count, SeedRoute.parsed_or_50.
  rewrite Hp. destruct (n =? 0)%Z eqn:H0; lia.
Qed.

Example seed_count_examples w :
  SeedRoute.seed_count w (VStr "200") = 200%Z
  /\ SeedRoute.seed_count w (VStr "1000") = 200%Z
  /\ SeedRoute.seed_count w (VStr "-7") = 1%Z
  /\ SeedRoute.seed_count w (VStr "12") = 12%Z
  /\ SeedRoute.seed_count w (VStr "many") = 50%Z.
Proof. repeat split. Qed.

Lemma seed_handler_returns req w :
  exists resp w', SeedRoute.POST req w = (Ret resp, w').
Proof. apply try_catch_respond. Qed.

Lemma post_one_attempts n course acc w :
  exists acc' w',
    SeedRoute.post_one n course acc w = (Ret acc', w')
    /\ attempts acc' = S (attempts acc).
Proof.
  unfold SeedRoute.post_one, attempts.
  destruct (refuses w _); eexists _, _; (split; [reflexivity|]); cbn; lia.
Qed.

Lemma post_batch_attempts batch : forall i index acc w,
  exists acc' w',
    SeedRoute.post_batch i index batch acc w = (Ret acc', w')
    /\ attempts acc' = (attempts acc + length batch)%nat.
Proof.
  induction batch as [|course rest IH]; intros i index acc w.
  - eexists _, _. split; [reflexivity|]. cbn. lia.
  - cbn [SeedRoute.post_batch]. unfold bind at 1.
    destruct (post_one_attempts (i + index + 1) course acc w)
      as (acc1 & w1 & -> & H1).
    destruct (IH i (S index) acc1 w1) as (acc2 & w2 & -> & H2).
    eexists _, _. split; [reflexivity|]. cbn [length]. lia.
Qed.

Lemma post_batches_attempts courses starts : forall acc w,
  exists acc' w',
    SeedRoute.post_batches starts courses acc w = (Ret acc', w')
    /\ attempts acc'
       = (attempts acc
          + sum_list (map (fun i => length (take SeedRoute.batchSize (drop i courses)))
                          starts))%nat.
Proof.
  induction starts as [|i rest IH]; intros acc w.
  - eexists _, _. split; [reflexivity|]. cbn. lia.
  - cbn [SeedRoute.post_batches]. unfold bind at 1.
    destruct (post_batch_attempts
                (take SeedRoute.batchSize (drop i courses)) i 0 acc w)
      as (acc1 & w1 & -> & H1).
    destruct (IH acc1 w1) as (acc2 & w2 & -> & H2).
    eexists _, _. split; [reflexivity|].
    cbn [map sum_list sum_list_with id]. lia.
Qed.

(** The batches cover the list: their lengths add up to its length. *)
Lemma batches_cover {A} k : forall (l : list A),
  (length l <= SeedRoute.batchSize * k)%nat ->
  sum_list (map (fun i => length (take SeedRoute.batchSize (drop i l)))
                (map (fun b => b * SeedRoute.batchSize)%nat (seq 0 k)))
  = length l.
Proof.
  unfold SeedRoute.batchSize.
  induction k as [|k IH]; intros l Hl.
  - cbn. lia.
  - rewrite <- cons_seq, <- fmap_S_seq. cbn [map sum_list sum_list_with id].
    change (fmap S (seq 0 k)) with (map S (seq 0 k)).
    rewrite !map_map.
    rewrite (map_ext _ (fun b => length (take 5 (drop (b * 5) (drop 5 l))))).
    2:{ intros b. rewrite drop_drop. by do 3 f_equal. }
    rewrite <- (map_map (fun b => b * 5)%nat
                        (fun i => length (take 5 (drop i (drop 5 l))))).
    rewrite IH by (rewrite length_drop; lia).
    cbn [Nat.mul drop]. rewrite length_take, !length_drop. lia.
Qed.

Lemma batch_starts_cover {A} (l : list A) :
  sum_list (map (fun i => length (take SeedRoute.batchSize (drop i l)))
                (SeedRoute.batch_starts (length l)))
  = length l.
Proof.
  unfold SeedRoute.batch_starts. apply batches_cover.
  unfold SeedRoute.batchSize.
  pose proof (Nat.div_mod (length l + 5 - 1) 5 ltac:(lia)).
  pose proof (Nat.mod_upper_bound (length l + 5 - 1) 5 ltac:(lia)). lia.
Qed.

Lemma generate_length count memberId now indices : forall w,
  exists courses w',
    SeedRoute.generate count memberId now indices w = (Ret courses, w')
    /\ length courses = length indices.
Proof.
  induction indices as [|i rest IH]; intros w.
  - eexists _, _. split; reflexivity.
  - cbn [SeedRoute.generate]. unfold bind at 1, date_now at 1.
    unfold bind at 1, ask at 1. unfold bind at 1.
    destruct (IH (set_reads (S (reads w)) w)) as (tail & w' & -> & Hlen).
    eexists _, _. split; [reflexivity|]. cbn [length]. by rewrite Hlen.
Qed.

(** Every generated course is posted once: the answers add up to the
    count the handler settled on. *)
Lemma seeding_attempts count memberId now w :
  exists courses w1 done w2,
    SeedRoute.generate count memberId now (seq 0 (Z.to_nat count)) w
    = (Ret courses, w1)
    /\ SeedRoute.post_batches (SeedRoute.batch_starts (length courses)) courses
         (SeedRoute.MkTally 0 0 []) w1 = (Ret done, w2)
    /\ attempts done = Z.to_nat count.
Proof.
  destruct (generate_length count memberId now (seq 0 (Z.to_nat count)) w)
    as (courses & w1 & Hg & Hlen).
  destruct (post_batches_attempts courses
              (SeedRoute.batch_starts (length courses))
              (SeedRoute.MkTally 0 0 []) w1) as (done & w2 & Hp & Ha).
  exists courses, w1, done, w2. split; [done|]. split; [done|].
  rewrite Ha, batch_starts_cover, Hlen, length_seq. reflexivity.
Qed.

(** With a [count] parameter, a verified member has as many records
    posted as the count the handler settled on; the answer reports
    them. *)
Lemma POST_seeds_count req w t :
  misconfigured w = false ->
  bearer_token req = Some t ->
  truthy (member_of w t) = true ->
  truthy (query req "count") = true ->
  let count := SeedRoute.seed_count w (query req "count") in
  exists resp w' done,
    SeedRoute.POST req w = (Ret resp, w')
    /\ status resp = 200%Z
    /\ get (payload resp) "requested" = num count
    /\ get (payload resp) "created" = num (Z.of_nat (SeedRoute.successCount done))
    /\ get (payload resp) "errors" = num (Z.of_nat (SeedRoute.errorCount done))
    /\ Z.of_nat (attempts done) = count.
Proof.
  intros Hc Ht Hm Hq count.
  unfold SeedRoute.POST, CourseRoute.authenticated.
  unfold try_catch at 1. unfold bind at 1. unfold ask at 1. rewrite Hc, Ht.
  assert (Hn : nonempty t = true).
  { destruct t; [|reflexivity]. by rewrite member_of_empty in Hm. }
  cbn [truthy]. rewrite Hn. cbn [negb].
  unfold bind at 1. rewrite verifyToken_run, Hm. cbn [negb].
  unfold bind at 1, SeedRoute.countParam. rewrite Hq.
  unfold ret at 1. unfold bind at 1, get_world at 1.
  unfold bind at 1, now_iso at 1. unfold bind at 1.
  destruct (seeding_attempts count (CourseRoute.memberId (member_of w t))
              (date_iso w (clock w (reads w))) (set_reads (S (reads w)) w))
    as (courses & w1 & done & w2 & Hg & Hp & Ha).
  fold count. rewrite Hg. unfold bind at 1. rewrite Hp.
  eexists _, _, done. split; [reflexivity|]. split; [reflexivity|].
  unfold respond, ret, json. cbn [fst payload].
  rewrite !get_wire. do 3 (split; [reflexivity|]).
  rewrite Ha. pose proof (seed_count_bounds w (query req "count")).
  subst count. lia.
Qed.

(** The number of records of a seeding answer. *)
Lemma within_200_created :
  let req := Demo.request_of (Some "token-m1") [("count", "200")] (object []) in
  let out := SeedRoute.POST req Demo.world0 in
  status_of out = Some 200%Z
  /\ length (table out.2) = (length (table Demo.world0) + 200)%nat.
Proof. vm_compute. split; reflexivity. Qed.

(** C5, which the code does not meet for a count of zero: the number of
    records the seeding attempts is meant to be the requested count
    clamped to [1, 200], 50 being for an unspecified count only.  In
    [parseInt(countParam, 10) || 50] a parsed [0] is as falsy as [NaN]:
    [POST /api/seed-courses?count=0] settles on 50 and creates 50
    records, where the clamp gives 1. *)
Theorem seed_count_zero_is_fifty :
  (forall w, SeedRoute.seed_count w (VStr "0") = 50%Z)
  /\ Z.min (Z.max 0 1) 200 = 1%Z
  /\ let req := Demo.request_of (Some "token-m1") [("count", "0")] (object []) in
     let out := SeedRoute.POST req Demo.world0 in
     status_of out = Some 200%Z
     /\ match out.1 with
        | Ret resp => get (payload resp) "requested" = num 50
                      /\ get (payload resp) "created" = num 50
        | Throw _ => False
        end
     /\ length (table out.2) = (length (table Demo.world0) + 50)%nat.
Proof.
  split; [reflexivity|]. split; [reflexivity|].
  vm_compute. repeat split.
Qed.

End SeedFacts.

(* ===================================================================== *)
(** * Binary64 rounding *)
(* ===================================================================== *)

Module Binary64Facts.
Import Js Binary64.
Local Open Scope Z_scope.

(** Rounding on known doubles: 0.1 and 0.1 + 0.2; a tie at [2 ^ 53 + 1]
    going down to the even significand and one at [2 ^ 53 + 3] going
    up; half of the least subnormal going to zero; the largest double,
    and an infinity above it. *)
Example round64_examples :
  this <$> round64 (Q2Qc (1 # 10))
  = Some (3602879701896397 # 36028797018963968)%Q
  /\ this <$> round64 (Q2Qc (3602879701896397 # 36028797018963968)
                       + Q2Qc (3602879701896397 # 18014398509481984))%Qc
     = Some (1351079888211149 # 4503599627370496)%Q
  /\ this <$> round64 (Q2Qc (inject_Z (2 ^ 53 + 1))) = Some (inject_Z (2 ^ 53))
  /\ this <$> round64 (Q2Qc (inject_Z (2 ^ 53 + 3)))
     = Some (inject_Z (2 ^ 53 + 4))
  /\ this <$> round64 (Q2Qc (1 # Z.to_pos (2 ^ 1075))) = Some 0%Q
  /\ this <$> round64 (Q2Qc (inject_Z ((2 ^ 53 - 1) * 2 ^ 971)))
     = Some (inject_Z ((2 ^ 53 - 1) * 2 ^ 971))
  /\ round64 (Q2Qc (inject_Z (2 ^ 1024))) = None.
Proof. vm_compute. repeat split. Qed.








End Binary64Facts.

(* ===================================================================== *)
(** * Prices: cents on the way in, decimals on the way out *)
(* ===================================================================== *)

Module PriceFacts.
Import Js Server Notions Facts.

(** Rounding an integer gives it back. *)
Lemma round_integer n : math_round (qc_of_Z n) = n.
Proof.
  unfold math_round, qc_of_Z.
  transitivity (Qfloor (inject_Z n + (1 # 2))).
  - apply Qfloor_comp. cbn [Qcplus this Q2Qc].
    rewrite !Qred_correct. reflexivity.
  - unfold Qfloor, Qplus, inject_Z. cbn [Qnum Qden].
    rewrite Z.mul_1_l.
    change (Z.pos (1 * 2)) with 2%Z.
    symmetry. apply (Z.div_unique _ _ _ 1); lia.
Qed.










(** The cents of the seeded courses do not depend on the rounding of
    their prices: for each template and each of the twenty variations a
    seeding can reach, the decimal price and the double
    [template.price + variation * 10] give the same cents. *)
Example seeded_cents_of_doubles :
  forallb
    (fun t =>
       forallb
         (fun variation =>
            let exact :=
              (SeedRoute.t_price t + qc_of_Z (Z.of_nat variation * 10))%Qc in
            match Binary64.round64 (SeedRoute.t_price t) with
            | Some literal =>
                match Binary64.round64
                        (literal + qc_of_Z (Z.of_nat variation * 10))%Qc with
                | Some double =>
                    bool_decide
                      (math_round <$> times100 double
                       = math_round <$> times100 exact)
                | None => false
                end
            | None => false
            end)
         (seq 0 20))
    SeedRoute.courseTemplates
  = true.
Proof. vm_compute. reflexivity. Qed.

(** The product is rounded to a double before [Math.round] sees it.
    The double 0.015 is below 15 / 1000, yet its product with 100 is
    the double 1.5, and the cents are 2; the double 1.005 is below
    1005 / 1000, its product with 100 is a double below 100.5, and the
    cents are 100. *)
Example rounded_products :
  (Q2Qc (1080863910568919 # 72057594037927936) < Q2Qc (15 # 1000))%Qc
  /\ this <$> times100 (Q2Qc (1080863910568919 # 72057594037927936))
     = Some (3 # 2)
  /\ round_cents Demo.world0 (VNum (Q2Qc (1080863910568919 # 72057594037927936)))
     = num 2
  /\ (Q2Qc (1131529406376837 # 1125899906842624) < Q2Qc (1005 # 1000))%Qc
  /\ this <$> times100 (Q2Qc (1131529406376837 # 1125899906842624))
     = Some (7072058789855231 # 70368744177664)
  /\ round_cents Demo.world0 (VNum (Q2Qc (1131529406376837 # 1125899906842624)))
     = num 100.
Proof. vm_compute. repeat split. Qed.

End PriceFacts.

(* ===================================================================== *)
(** * Token resolution after login *)
(* ===================================================================== *)

Module ClientFacts.
Import Js Notions.
Import Server (outcome, Ret, Throw).




Example login_caches_token :
  Client.localStorage (Client.loginMember "a@b.c" "secret" Demo.browser1).2
  !! "memberstack_token" = Some "abc".
Proof. reflexivity. Qed.

(** A token method that throws is caught: the login still returns. *)
Example login_survives_sdk_error :
  Client.loginMember "a@b.c" "secret" Demo.browser2
  = (Ret (object []), Demo.browser2).
Proof. reflexivity. Qed.


End ClientFacts.

(* ===================================================================== *)
(** * The listing filter of the courses page *)
(* ===================================================================== *)

Module PageFacts.
Import Js CoursesPage.

Lemma lower_ascii_idempotent c : lower_ascii (lower_ascii c) = lower_ascii c.
Proof. destruct c as [[] [] [] [] [] [] [] []]; reflexivity. Qed.

Lemma toLowerCase_idempotent s : toLowerCase (toLowerCase s) = toLowerCase s.
Proof.
  induction s as [|c s IH]; [reflexivity|].
  cbn. by rewrite lower_ascii_idempotent, IH.
Qed.

Lemma toLowerCase_nonempty s : nonempty (toLowerCase s) = nonempty s.
Proof. by destruct s. Qed.

(** Sorting keeps the elements. *)
Lemma insert_by_In cmp x l c : In c (insert_by cmp x l) <-> c = x \/ In c l.
Proof.
  induction l as [|y r IH]; cbn.
  - intuition congruence.
  - case_bool_decide; cbn; [intuition congruence|].
    rewrite IH. intuition congruence.
Qed.

Lemma sort_by_In cmp l c : In c (sort_by cmp l) <-> In c l.
Proof.
  unfold sort_by. induction l as [|x l IH]; cbn; [done|].
  rewrite insert_by_In, IH. intuition congruence.
Qed.

Section Effect.
Variable getTime : string -> Z.
Variable random_order : list Course -> list Course.

Abbreviation run := (filteredCourses getTime random_order).

(** In the initial state with a search text, the displayed courses are
    those that match it. *)
Lemma search_In q courses c :
  nonempty q = true ->
  In c (run (setSearchQuery q initial) courses)
  <-> In c courses /\ matches (toLowerCase q) c = true.
Proof.
  intros Hq. unfold filteredCourses. cbn [setSearchQuery initial
    searchQuery selectedCategory sortBy priceFilter].
  rewrite Hq.
  change (bool_decide ("all" = "all")) with true.
  change (bool_decide ("all" = "free")) with false.
  change (bool_decide ("all" = "paid")) with false.
  change (bool_decide ("newest" = "price-low")) with false.
  change (bool_decide ("newest" = "price-high")) with false.
  change (bool_decide ("newest" = "rating")) with false.
  change (bool_decide ("newest" = "newest")) with true.
  cbv iota. rewrite sort_by_In. apply filter_In.
Qed.

(** The case of the search text does not matter. *)
Lemma search_ignores_case q f courses :
  run (setSearchQuery (toLowerCase q) f) courses
  = run (setSearchQuery q f) courses.
Proof.
  unfold filteredCourses. cbn [setSearchQuery searchQuery selectedCategory
    sortBy priceFilter].
  by rewrite toLowerCase_nonempty, toLowerCase_idempotent.
Qed.

(** C8: on the base list of "Intro to JS" (Web Development, price 0)
    and "ML" (Data Science, price 50), selecting the category
    "Web Development" displays exactly the first course, the price
    filter "paid" exactly the second, and the search text "intro"
    exactly the first; a search displays the courses one of whose
    title, description, category or tags contains the lowered text once
    lowered itself. *)
Theorem listing_filter_examples :
  run (setSelectedCategory "Web Development" initial) [intro_js; ml] = [intro_js]
  /\ run (setPriceFilter "paid" initial) [intro_js; ml] = [ml]
  /\ run (setSearchQuery "intro" initial) [intro_js; ml] = [intro_js]
  /\ run (setSearchQuery "INTRO" initial) [intro_js; ml] = [intro_js]
  /\ forall q courses c,
       nonempty q = true ->
       (In c (run (setSearchQuery q initial) courses)
        <-> In c courses
            /\ (includes (toLowerCase (title c)) (toLowerCase q)
                || lower_includes (description c) (toLowerCase q)
                || lower_includes (category c) (toLowerCase q)
                || match tags c with
                   | Some l =>
                       existsb (fun tag => includes (toLowerCase tag)
                                             (toLowerCase q)) l
                   | None => false
                   end) = true).
Proof.
  do 4 (split; [vm_compute; reflexivity|]).
  intros q courses c Hq. exact (search_In q courses c Hq).
Qed.

End Effect.

Lemma listing_filter_examples_witness :
  In intro_js
     (filteredCourses (fun _ => 0%Z) (fun l => l)
        (setSearchQuery "JS" initial) [intro_js; ml]).
Proof.
  apply (listing_filter_examples (fun _ => 0%Z) (fun l => l)); [reflexivity|].
  split; [left; reflexivity | reflexivity].
Defined.

End PageFacts.

(* ===================================================================== *)
(** * Token verification, further *)
(* ===================================================================== *)

Module AuthFacts.
Import Js Server Notions Facts.

(** X1: [verifyToken] never throws and changes nothing: it returns
    [null], or a member object whose [id] is truthy, whose [memberId]
    is its [id], and whose [id] is the one the SDK verified the token
    to. *)
Theorem verifyToken_never_throws t w :
  exists member,
    Auth.verifyToken t w = (Ret member, w)
    /\ (member = VNull
        \/ (truthy member = true
            /\ truthy (get member "id") = true
            /\ get member "memberId" = get member "id"
            /\ exists ver,
                 sdk_verifyToken w (VStr t) = Ret ver
                 /\ get member "id" = wire (get ver "id"))).
Proof.
  exists (member_of w t). split; [apply verifyToken_run|].
  unfold member_of.
  destruct (env_set (secretKey w) && nonempty t); [|by left].
  destruct (sdk_verifyToken w (VStr t)) as [ver|e] eqn:Hv; [|by left].
  destruct (truthy ver); cbn [andb]; [|by left].
  destruct (truthy (get ver "id")) eqn:Hid; [|by left].
  right. rewrite !get_wire, truthy_wire.
  assert (Hg : get (object [("id", get ver "id"); ("memberId", get ver "id");
                            ("type", get ver "type")]) "id" = get ver "id").
  { unfold object. cbn [get list_to_map foldr]. by rewrite lookup_insert_eq. }
  assert (Hm : get (object [("id", get ver "id"); ("memberId", get ver "id");
                            ("type", get ver "type")]) "memberId" = get ver "id").
  { unfold object. cbn [get list_to_map foldr].
    by rewrite lookup_insert_ne, lookup_insert_eq. }
  rewrite Hg, Hm. split; [reflexivity|]. split; [by rewrite truthy_wire|].
  split; [done|]. exists ver. by split.
Qed.

(** X2: the verification route answers 200, 401 or 500 and nothing
    else: 500 exactly when the secret key is not configured, and 200
    only when the token of the request, which is the bearer token of the
    [Authorization] header when there is one and the [token] of the
    parsed body otherwise, is truthy and is the one the SDK verified, to
    an object with a truthy [id]; the [member] of the answer then has
    that [id]. *)
Theorem verify_route_statuses req w :
  exists resp,
    Auth.verify_token_route req w = (Ret resp, w)
    /\ (status resp = 200%Z \/ status resp = 401%Z \/ status resp = 500%Z)
    /\ (status resp = 500%Z <-> env_set (secretKey w) = false)
    /\ (status resp = 200%Z ->
        exists token ver,
          match bearer_token req with
          | Some t => token = VStr t
          | None => exists b, json_body req = Ret b /\ token = get b "token"
          end
          /\ truthy token = true
          /\ sdk_verifyToken w token = Ret ver
          /\ truthy ver = true /\ truthy (get ver "id") = true
          /\ get (get (payload resp) "member") "id" = wire (get ver "id")).
Proof.
  unfold Auth.verify_token_route.
  unfold try_catch at 1. unfold bind at 1, ask at 1.
  destruct (env_set (secretKey w)) eqn:Hs; cbn [negb].
  2:{ eexists. split; [reflexivity|]. cbn. intuition (try discriminate; auto). }
  set (found := match authorization req with
                | Some h =>
                    if startsWith h "Bearer " then ret (VStr (substring_from 7 h))
                    else Auth.body_token req
                | None => Auth.body_token req
                end).
  assert (Hfound :
    (exists e, found w = (Throw e, w))
    \/ (exists token,
          found w = (Ret token, w)
          /\ (truthy token = true ->
              match bearer_token req with
              | Some t => token = VStr t
              | None => exists b, json_body req = Ret b /\ token = get b "token"
              end))).
  { assert (Hbody :
      (exists e, Auth.body_token req w = (Throw e, w))
      \/ (exists token,
            Auth.body_token req w = (Ret token, w)
            /\ (truthy token = true ->
                exists b, json_body req = Ret b /\ token = get b "token"))).
    { unfold Auth.body_token.
      destruct (json_body req) as [b|e] eqn:Hb.
      - assert (Hor : forall v, truthy (v ||| VNull) = true -> v ||| VNull = v).
        { intros v. unfold or_else. by destruct (truthy v). }
        destruct b; first [ left; eexists; reflexivity
                          | right; eexists; split; [reflexivity|];
                            intros Ht; eexists; split; [reflexivity|];
                            by apply Hor ].
      - right. exists VNull. split; [reflexivity|]. discriminate. }
    subst found. unfold bearer_token.
    destruct (authorization req) as [h|]; [|exact Hbody].
    destruct (startsWith h "Bearer "); [|exact Hbody].
    right. eexists. split; [reflexivity|]. done. }
  unfold bind at 1.
  destruct Hfound as [[e He]|(token & Ht & Htoken)]; rewrite ?He, ?Ht.
  { eexists. split; [reflexivity|]. cbn.
    split; [auto|]. split; [intuition discriminate|]. discriminate. }
  destruct (truthy token) eqn:Htr; cbn [negb].
  2:{ eexists. split; [reflexivity|]. cbn.
      split; [auto|]. split; [intuition discriminate|]. discriminate. }
  unfold bind at 1, ask at 1. unfold bind at 1, lift at 1.
  destruct (sdk_verifyToken w token) as [ver|e] eqn:Hv.
  2:{ eexists. split; [reflexivity|]. cbn.
      split; [auto|]. split; [intuition discriminate|]. discriminate. }
  destruct (truthy ver) eqn:Hver; cbn [negb orb].
  2:{ eexists. split; [reflexivity|]. cbn.
      split; [auto|]. split; [intuition discriminate|]. discriminate. }
  destruct (truthy (get ver "id")) eqn:Hid; cbn [negb].
  2:{ eexists. split; [reflexivity|]. cbn.
      split; [auto|]. split; [intuition discriminate|]. discriminate. }
  eexists. split; [reflexivity|].
  split; [by left|]. split; [cbn; intuition discriminate|].
  intros _. exists token, ver. split; [by apply Htoken|].
  repeat (split; [done|]).
  unfold bind, ask, respond, ret, json. cbn [payload].
  rewrite !get_wire. unfold object. cbn [get list_to_map foldr].
  rewrite lookup_insert_eq. cbn [default id snd get].
  by rewrite lookup_insert_eq.
Qed.

End AuthFacts.

(* ===================================================================== *)
(** * Listing, further *)
(* ===================================================================== *)

Module ListingFacts.
Import Js Server Notions Facts.

(** X3: the paging loop of [listCourses] ends within 11 iterations,
    whatever the number of records, and returns the first 1100 matching
    records at most: more iterations would change nothing. *)
Theorem listing_is_capped w ownerId fuel :
  env_set (secretKey w) = true ->
  (11 <= fuel)%nat ->
  let matching :=
    if truthy ownerId
    then List.filter
           (fun r => strict_eq (field (rec_data r) "owner_id") ownerId) (table w)
    else table w in
  Admin.fetch_pages fuel matching 0 [] = Admin.fetch_pages 11 matching 0 []
  /\ Admin.listCourses ownerId w
     = (Ret (map Admin.listed_course (take 1100 matching)), w)
  /\ (length matching <= 1000 ->
      Admin.listCourses ownerId w = (Ret (map Admin.listed_course matching), w))%nat.
Proof.
  intros Hs Hf matching.
  assert (Hrun : Admin.listCourses ownerId w
                 = (Ret (map Admin.listed_course (take 1100 matching)), w)).
  { unfold Admin.listCourses, Admin.require_secret, Admin.rethrow.
    unfold try_catch, bind, ask, ret. rewrite Hs.
    fold matching. by rewrite fetch_pages_enough. }
  split; [by rewrite !fetch_pages_enough|]. split; [exact Hrun|].
  intros Hlen. rewrite Hrun, take_ge by lia. reflexivity.
Qed.

Lemma listing_is_capped_witness :
  Admin.fetch_pages 40 (table Demo.world0) 0 []
  = Admin.fetch_pages 11 (table Demo.world0) 0 [].
Proof.
  apply (listing_is_capped Demo.world0 VUndef 40); [reflexivity | cbn; lia].
Defined.

(** X4: asking for an [owner_id] filter without a bearer token that
    verifies is answered 401, and nothing is read or changed. *)
Theorem owner_filter_needs_member req w member :
  misconfigured w = false ->
  truthy (query req "owner_id") = true ->
  CoursesRoute.optional_member req w = (Ret member, w) ->
  truthy member = false ->
  CoursesRoute.GET req w
  = (Ret (json (object
                  [("error",
                    VStr "Authentication required to filter by owner_id")])
               401),
     w).
Proof.
  intros Hc Hq Hm Hf.
  unfold CoursesRoute.GET. unfold try_catch at 1. unfold bind at 1, ask at 1.
  rewrite Hc. unfold bind at 1. rewrite Hm, Hq, Hf. reflexivity.
Qed.

Lemma owner_filter_needs_member_witness :
  CoursesRoute.GET (Demo.request_of (Some "stale") [("owner_id", "m2")] VNull)
    Demo.world0
  = (Ret (json (object
                  [("error",
                    VStr "Authentication required to filter by owner_id")])
               401),
     Demo.world0).
Proof.
  apply (owner_filter_needs_member _ _ VNull); reflexivity.
Defined.

(** X5: with an [owner_id] filter, any verified member, owner or not,
    is sent the records stored with that owner identifier, whatever
    their status: the first 1100 of them, each with its price and its
    defaulted status. *)
Theorem owner_filter_lists_any_owner req w member owner :
  misconfigured w = false ->
  searchParams req !! "owner_id" = Some owner ->
  nonempty owner = true ->
  CoursesRoute.optional_member req w = (Ret member, w) ->
  truthy member = true ->
  let matching :=
    List.filter
      (fun r => strict_eq (field (rec_data r) "owner_id") (VStr owner))
      (table w) in
  CoursesRoute.GET req w
  = (Ret (json (object
                  [("courses",
                    VArr (map VObj
                            (map (CoursesRoute.processed w)
                                 (map Admin.listed_course
                                      (take 1100 matching)))))])
               200),
     w)
  /\ forall c,
       In c (listed (json (object
                  [("courses",
                    VArr (map VObj
                            (map (CoursesRoute.processed w)
                                 (map Admin.listed_course
                                      (take 1100 matching)))))])
               200)) ->
       get c "owner_id" = VStr owner.
Proof.
  intros Hc Hq Hn Hm Ht matching.
  assert (Hquery : query req "owner_id" = VStr owner).
  { unfold query. by rewrite Hq. }
  split.
  - unfold CoursesRoute.GET. unfold try_catch at 1. unfold bind at 1, ask at 1.
    rewrite Hc. unfold bind at 1. rewrite Hm, Hquery, Ht.
    cbn [truthy negb andb]. rewrite Hn. cbn [negb andb].
    unfold try_catch at 1. unfold bind at 1.
    unfold Admin.listCourses, Admin.require_secret, Admin.rethrow.
    unfold or_else. cbn [truthy]. rewrite Hn.
    unfold try_catch, bind, ask, get_world, ret, respond.
    rewrite (misconfigured_secret w Hc). cbn [truthy]. rewrite Hn.
    rewrite fetch_pages_enough by done. reflexivity.
  - intros c. rewrite CourseListFacts.listed_json, !map_map, in_map_iff.
    intros (r & <- & Hr). apply list_elem_of_In, elem_of_take in Hr as (i & Hr & _).
    apply list_elem_of_lookup_2, list_elem_of_In, filter_In in Hr as [_ Hr].
    change (get (VObj ?m) ?k) with (field m k). rewrite field_wire_obj.
    unfold CoursesRoute.processed, field.
    rewrite !lookup_insert_ne by done.
    unfold Admin.listed_course. 
    destruct (rec_data r !! "owner_id") as [o|] eqn:Ho.
    + erewrite lookup_union_Some_l by exact Ho.
      unfold field in Hr. rewrite Ho in Hr. cbn in Hr |- *.
      destruct o; try discriminate. apply bool_decide_eq_true in Hr. by subst.
    + unfold field in Hr. rewrite Ho in Hr. discriminate.
Qed.

Lemma owner_filter_lists_any_owner_witness :
  CoursesRoute.GET (Demo.request_of (Some "token-m1") [("owner_id", "m2")] VNull)
    Demo.world0
  = (Ret (json (object
                  [("courses",
                    VArr (map VObj
                            (map (CoursesRoute.processed Demo.world0)
                                 (map Admin.listed_course [Demo.c2]))))])
               200),
     Demo.world0).
Proof.
  apply (owner_filter_lists_any_owner _ Demo.world0
           (member_of Demo.world0 "token-m1") "m2"); reflexivity.
Defined.

End ListingFacts.

(* ===================================================================== *)
(** * Creating a course *)
(* ===================================================================== *)

Module CourseCreateFacts.
Import Js Server Notions Stored Facts.

(** What an accepted [POST /api/courses] stores and answers. *)
Lemma POST_created req w t body :
  misconfigured w = false ->
  bearer_token req = Some t ->
  truthy (member_of w t) = true ->
  json_body req = Ret body ->
  truthy (get body "title") = true ->
  let now := date_iso w (clock w (reads w)) in
  let data := sent w body (member_of w t) now in
  refuses w data = None ->
  exists resp,
    CoursesRoute.POST req w
    = (Ret resp,
       set_table (table w ++ [MkRecord (fresh_id w (table w)) data])
         (set_reads (S (reads w)) w))
    /\ status resp = 201%Z.
Proof.
  intros Hc Ht Hm Hb Htitle now data Hr.
  unfold CoursesRoute.POST.
  unfold try_catch at 1. unfold bind at 1. unfold ask at 1. rewrite Hc, Ht.
  assert (Hn : nonempty t = true).
  { destruct t; [by rewrite member_of_empty in Hm | reflexivity]. }
  cbn [truthy]. rewrite Hn. cbn [negb].
  unfold bind at 1. rewrite verifyToken_run, Hm. cbn [negb].
  unfold bind at 1, lift at 1. rewrite Hb.
  assert (Hd : CoursesRoute.destructure body = ret body).
  { destruct body; try reflexivity; discriminate. }
  unfold bind at 1. rewrite Hd. unfold ret at 1. rewrite Htitle. cbn [negb].
  unfold try_catch at 1. unfold bind at 1, get_world at 1.
  unfold bind at 1, Admin.createCourse.
  unfold bind at 1, Admin.require_secret. rewrite (misconfigured_secret w Hc).
  unfold bind at 1, now_iso at 1. unfold Admin.rethrow, try_catch.
  cbn [refuses table fresh_id set_reads].
  fold now. change (wire_obj _) with data. rewrite Hr.
  eexists. split; reflexivity.
Qed.

Lemma sent_field w body member now k v :
  CoursesRoute.courseData w body member !! k = Some v ->
  k <> "updated_at" -> k <> "created_at" -> v <> VUndef ->
  field (sent w body member now) k = wire v.
Proof.
  intros Hk H1 H2 Hv. unfold sent. rewrite field_wire_obj. unfold field.
  rewrite !lookup_insert_ne by done. by rewrite Hk.
Qed.

Lemma or_else_defined a b : b <> VUndef -> a ||| b <> VUndef.
Proof.
  intros Hb. unfold or_else. destruct (truthy a) eqn:Ha; [|done].
  by destruct a.
Qed.

Lemma find_record_app_fresh id t data :
  Admin.find_record id t = None ->
  Admin.find_record id (t ++ [MkRecord id data]) = Some (MkRecord id data).
Proof.
  unfold Admin.find_record. induction t as [|x t IH]; cbn; intros H.
  - by rewrite bool_decide_eq_true_2.
  - destruct (bool_decide (rec_id x = id)); [discriminate|]. by apply IH.
Qed.

Lemma find_record_app_other id id' t data :
  id <> id' ->
  Admin.find_record id (t ++ [MkRecord id' data]) = Admin.find_record id t.
Proof.
  intros Hne. unfold Admin.find_record. induction t as [|x t IH]; cbn.
  - by rewrite bool_decide_eq_false_2 by congruence.
  - destruct (bool_decide (rec_id x = id)); [reflexivity|]. exact IH.
Qed.

(** X6: an accepted [POST /api/courses] answers 201 and appends one
    record to the table, every other record being kept.  The owner it
    stores is the identifier of the verified member, whatever the body
    says; the status is the one of the body, ["draft"] when the body has
    none; [created_at] and [updated_at] are the same clock reading. *)
Theorem created_course_belongs_to_member req w t body :
  misconfigured w = false ->
  bearer_token req = Some t ->
  truthy (member_of w t) = true ->
  json_body req = Ret body ->
  truthy (get body "title") = true ->
  refuses w (sent w body (member_of w t) (date_iso w (clock w (reads w)))) = None ->
  exists resp w' data,
    CoursesRoute.POST req w = (Ret resp, w')
    /\ status resp = 201%Z
    /\ table w' = (table w ++ [MkRecord (fresh_id w (table w)) data])%list
    /\ field data "owner_id" = wire (get (member_of w t) "id")
    /\ field data "status" = wire (get body "status" ||| VStr "draft")
    /\ (truthy (get body "status") = false -> field data "status" = VStr "draft")
    /\ field data "created_at" = VStr (date_iso w (clock w (reads w)))
    /\ field data "updated_at" = field data "created_at".
Proof.
  intros Hc Ht Hm Hb Htitle Hr.
  destruct (POST_created req w t body Hc Ht Hm Hb Htitle Hr) as (resp & Hrun & Hst).
  eexists resp, _, _. split; [exact Hrun|]. split; [exact Hst|].
  split; [reflexivity|].
  pose proof (member_of_truthy w t Hm) as Hid.
  assert (Hstatus :
    field (sent w body (member_of w t) (date_iso w (clock w (reads w)))) "status"
    = wire (get body "status" ||| VStr "draft")).
  { apply sent_field; [reflexivity|done|done|]. by apply or_else_defined. }
  split.
  { rewrite (sent_field _ _ _ _ "owner_id"
               (get (member_of w t) "id" ||| get (member_of w t) "memberId"));
      [|reflexivity|done|done|].
    - unfold or_else. by rewrite Hid.
    - unfold or_else. rewrite Hid. intros E. by rewrite E in Hid. }
  split; [exact Hstatus|]. split.
  { intros Hf. rewrite Hstatus. unfold or_else. by rewrite Hf. }
  assert (Hcr :
    field (sent w body (member_of w t) (date_iso w (clock w (reads w)))) "created_at"
    = VStr (date_iso w (clock w (reads w)))).
  { unfold sent. rewrite field_wire_obj. unfold field.
    by rewrite lookup_insert_ne, lookup_insert_eq. }
  split; [exact Hcr|]. rewrite Hcr.
  unfold sent. rewrite field_wire_obj. unfold field.
  by rewrite lookup_insert_eq.
Qed.

Lemma created_course_belongs_to_member_witness :
  exists resp w' data,
    CoursesRoute.POST
      (Demo.request_of (Some "token-m2") []
         (object [("title", VStr "Mine"); ("owner_id", VStr "m1")]))
      Demo.world0 = (Ret resp, w')
    /\ status resp = 201%Z
    /\ table w' = (table Demo.world0 ++ [MkRecord "rec_2" data])%list
    /\ field data "owner_id" = VStr "m2"
    /\ field data "status" = VStr "draft".
Proof.
  destruct (created_course_belongs_to_member
              (Demo.request_of (Some "token-m2") []
                 (object [("title", VStr "Mine"); ("owner_id", VStr "m1")]))
              Demo.world0 "token-m2"
              (object [("title", VStr "Mine"); ("owner_id", VStr "m1")]))
    as (resp & w' & data & H1 & H2 & H3 & H4 & H5 & _); try reflexivity.
  exists resp, w', data. repeat (split; [assumption|]). exact H5.
Defined.

(** X7: [POST /api/courses] stores nothing and takes no clock reading
    unless the request has a bearer token that verifies and a body with
    a title: it answers 401 without a token, 401 for a token that does
    not verify, and 400 for a body without a title. *)
Theorem create_rejections req w :
  misconfigured w = false ->
  (bearer_token req = None ->
   CoursesRoute.POST req w
   = (Ret (json (object [("error", VStr "Authentication required")]) 401), w))
  /\ (forall t,
        bearer_token req = Some t ->
        truthy (member_of w t) = false ->
        exists resp,
          CoursesRoute.POST req w = (Ret resp, w) /\ status resp = 401%Z)
  /\ (forall t body,
        bearer_token req = Some t ->
        truthy (member_of w t) = true ->
        json_body req = Ret body ->
        body <> VNull -> body <> VUndef ->
        truthy (get body "title") = false ->
        CoursesRoute.POST req w
        = (Ret (json (object [("error", VStr "Title is required")]) 400), w)).
Proof.
  intros Hc. split; [|split].
  - intros Ht. unfold CoursesRoute.POST.
    unfold try_catch, bind, ask. by rewrite Hc, Ht.
  - intros t Ht Hm. unfold CoursesRoute.POST.
    unfold try_catch at 1. unfold bind at 1. unfold ask at 1. rewrite Hc, Ht.
    destruct t as [|c t]; [eexists; split; reflexivity|].
    cbn [truthy nonempty negb]. unfold bind at 1.
    rewrite verifyToken_run, Hm. eexists; split; reflexivity.
  - intros t body Ht Hm Hb Hnull Hundef Htitle. unfold CoursesRoute.POST.
    unfold try_catch at 1. unfold bind at 1. unfold ask at 1. rewrite Hc, Ht.
    assert (Hn : nonempty t = true).
    { destruct t; [by rewrite member_of_empty in Hm | reflexivity]. }
    cbn [truthy]. rewrite Hn. cbn [negb].
    unfold bind at 1. rewrite verifyToken_run, Hm. cbn [negb].
    unfold bind at 1, lift at 1. rewrite Hb.
    assert (Hd : CoursesRoute.destructure body = ret body).
    { by destruct body. }
    unfold bind at 1. rewrite Hd. unfold ret at 1. by rewrite Htitle.
Qed.

Lemma create_rejections_witness :
  CoursesRoute.POST
    (Demo.request_of None [] (object [("title", VStr "Mine")])) Demo.world0
  = (Ret (json (object [("error", VStr "Authentication required")]) 401),
     Demo.world0).
Proof.
  apply (create_rejections
           (Demo.request_of None [] (object [("title", VStr "Mine")]))
           Demo.world0); reflexivity.
Defined.

(** X8: a course that was just created is read back by its creator,
    whatever its status, under the identifier the service gave it, when
    that identifier is new and the member's identifier is a string; the
    course read has the creator as owner.  The records stored before
    are found as before. *)
Theorem created_course_reads_back req w t body m :
  misconfigured w = false ->
  bearer_token req = Some t ->
  get (member_of w t) "id" = VStr m ->
  nonempty m = true ->
  json_body req = Ret body ->
  truthy (get body "title") = true ->
  refuses w (sent w body (member_of w t) (date_iso w (clock w (reads w)))) = None ->
  Admin.find_record (fresh_id w (table w)) (table w) = None ->
  exists resp w',
    CoursesRoute.POST req w = (Ret resp, w')
    /\ status resp = 201%Z
    /\ (exists read,
          CourseRoute.GET req (fresh_id w (table w)) w' = (Ret read, w')
          /\ status read = 200%Z
          /\ get (get (payload read) "course") "owner_id" = VStr m
          /\ get (get (payload read) "course") "id" = VStr (fresh_id w (table w)))
    /\ (forall other,
          other <> fresh_id w (table w) ->
          Admin.find_record other (table w') = Admin.find_record other (table w)).
Proof.
  intros Hc Ht Hid Hm0 Hb Htitle Hr Hfresh.
  assert (Hm : truthy (member_of w t) = true).
  { destruct (member_of w t); try discriminate; reflexivity. }
  destruct (POST_created req w t body Hc Ht Hm Hb Htitle Hr) as (resp & Hrun & Hst).
  eexists resp, _. split; [exact Hrun|]. split; [exact Hst|].
  set (data := sent w body (member_of w t) (date_iso w (clock w (reads w)))).
  set (w' := set_table _ _).
  assert (Hfind : Admin.find_record (fresh_id w (table w)) (table w')
                  = Some (MkRecord (fresh_id w (table w)) data)).
  { subst w'. cbn [table set_table]. by apply find_record_app_fresh. }
  assert (Howner : field data "owner_id" = VStr m).
  { subst data.
    rewrite (sent_field _ _ _ _ "owner_id"
               (get (member_of w t) "id" ||| get (member_of w t) "memberId"));
      [|reflexivity|done|done|].
    - unfold or_else. rewrite Hid. cbn [truthy]. by rewrite Hm0.
    - unfold or_else. rewrite Hid. cbn [truthy]. by rewrite Hm0. }
  split.
  - rewrite CourseReadFacts.GET_course_run by exact Hc. rewrite Hfind. cbn zeta.
    assert (Hmem : member_for w' req = member_of w t).
    { unfold member_for. by rewrite Ht. }
    assert (Hown : truthy (CourseRoute.isOwner (member_for w' req)
                     (Admin.course_of_record
                        (MkRecord (fresh_id w (table w)) data))) = true).
    { rewrite Hmem. unfold CourseRoute.isOwner, and_then. rewrite Hm.
      rewrite owner_of_course. cbn [rec_data]. rewrite Howner, Hid.
      cbn [truthy strict_eq]. rewrite Hm0.
      by rewrite bool_decide_eq_true_2. }
    rewrite Hown, andb_false_r.
    eexists. split; [reflexivity|]. split; [reflexivity|].
    unfold json. cbn [payload]. rewrite !get_wire.
    unfold object. cbn [get list_to_map foldr]. rewrite lookup_insert_eq.
    cbn [default wire id snd CourseRoute.responseCourse].
    unfold CourseRoute.responseCourse, Admin.course_of_record.
    cbn [get rec_id rec_data].
    rewrite !(lookup_insert_ne _ "price") by done.
    rewrite lookup_insert_ne, lookup_insert_eq by done.
    fold (field data "owner_id"). rewrite Howner. by split.
  - intros other Hne. subst w'. cbn [table set_table].
    by apply find_record_app_other.
Qed.

Lemma created_course_reads_back_witness :
  exists resp w',
    CoursesRoute.POST
      (Demo.request_of (Some "token-m2") [] (object [("title", VStr "Mine")]))
      Demo.world0 = (Ret resp, w')
    /\ status resp = 201%Z
    /\ exists read,
         CourseRoute.GET
           (Demo.request_of (Some "token-m2") [] (object [("title", VStr "Mine")]))
           "rec_2" w' = (Ret read, w')
         /\ status read = 200%Z.
Proof.
  destruct (created_course_reads_back
              (Demo.request_of (Some "token-m2") []
                 (object [("title", VStr "Mine")]))
              Demo.world0 "token-m2" (object [("title", VStr "Mine")]) "m2")
    as (resp & w' & H1 & H2 & (read & H3 & H4 & _) & _); try reflexivity.
  exists resp, w'. split; [exact H1|]. split; [exact H2|].
  exists read. by split.
Defined.

(** X9: when the service refuses the new record, nothing is stored
    and the error of [createCourse] decides the answer: 400 with a
    request to create the table when its message speaks of a table or
    of something not found, and otherwise 500 with the message. *)
Theorem create_refused_by_service req w t body e :
  misconfigured w = false ->
  bearer_token req = Some t ->
  truthy (member_of w t) = true ->
  json_body req = Ret body ->
  truthy (get body "title") = true ->
  refuses w (sent w body (member_of w t) (date_iso w (clock w (reads w)))) = Some e ->
  let message := "Failed to create course: " +:+ text_or e "Unknown error" in
  exists resp w',
    CoursesRoute.POST req w = (Ret resp, w')
    /\ table w' = table w
    /\ (if includes message "table" || includes message "not found"
        then status resp = 400%Z
             /\ get (payload resp) "error"
                = VStr "Courses table not found. Please create the table first."
        else status resp = 500%Z
             /\ get (payload resp) "error" = VStr message).
Proof.
  intros Hc Ht Hm Hb Htitle Hr message.
  unfold CoursesRoute.POST.
  unfold try_catch at 1. unfold bind at 1. unfold ask at 1. rewrite Hc, Ht.
  assert (Hn : nonempty t = true).
  { destruct t; [by rewrite member_of_empty in Hm | reflexivity]. }
  cbn [truthy]. rewrite Hn. cbn [negb].
  unfold bind at 1. rewrite verifyToken_run, Hm. cbn [negb].
  unfold bind at 1, lift at 1. rewrite Hb.
  assert (Hd : CoursesRoute.destructure body = ret body).
  { destruct body; try reflexivity; discriminate. }
  unfold bind at 1. rewrite Hd. unfold ret at 1. rewrite Htitle. cbn [negb].
  unfold try_catch at 1. unfold bind at 1, get_world at 1.
  unfold bind at 1, Admin.createCourse.
  unfold bind at 1, Admin.require_secret. rewrite (misconfigured_secret w Hc).
  unfold bind at 1, now_iso at 1. unfold Admin.rethrow, try_catch.
  cbn [refuses table fresh_id set_reads].
  change (wire_obj _) with
    (sent w body (member_of w t) (date_iso w (clock w (reads w)))).
  rewrite Hr. unfold throw at 1.
  change ("Failed to create course" +:+ ": " +:+ text_or e "Unknown error")
    with message.
  destruct (includes message "table" || includes message "not found").
  - eexists _, _. split; [reflexivity|]. split; [reflexivity|].
    split; [reflexivity|]. unfold json. cbn [payload]. by rewrite get_wire.
  - eexists _, _. split; [reflexivity|]. split; [reflexivity|].
    split; [reflexivity|]. unfold json. cbn [payload]. by rewrite get_wire.
Qed.

Lemma create_refused_by_service_witness :
  let w :=
    MkWorld (Some "sk_live") (Some "app_1") Demo.verify [Demo.c1]
      (fun _ => "rec_9") (fun _ => Some "quota exceeded") true (fun _ => 0%Z) 0
      (fun _ => "now") (fun _ => "NaN") (fun _ => None) in
  exists resp w',
    CoursesRoute.POST
      (Demo.request_of (Some "token-m1") [] (object [("title", VStr "Mine")])) w
    = (Ret resp, w')
    /\ table w' = table w
    /\ status resp = 500%Z
    /\ get (payload resp) "error"
       = VStr "Failed to create course: quota exceeded".
Proof.
  cbv zeta.
  apply (create_refused_by_service
           (Demo.request_of (Some "token-m1") []
              (object [("title", VStr "Mine")]))
           (MkWorld (Some "sk_live") (Some "app_1") Demo.verify [Demo.c1]
              (fun _ => "rec_9") (fun _ => Some "quota exceeded") true
              (fun _ => 0%Z) 0 (fun _ => "now") (fun _ => "NaN")
              (fun _ => None))
           "token-m1" (object [("title", VStr "Mine")]) "quota exceeded");
    reflexivity.
Defined.

End CourseCreateFacts.

(* ===================================================================== *)
(** * Reading, updating and deleting, further *)
(* ===================================================================== *)

Module CourseAccessFacts.
Import Js Server Notions Facts.

Lemma strict_eq_string m v : strict_eq (VStr m) v = true -> v = VStr m.
Proof.
  destruct v; try discriminate. cbn. intros H.
  apply bool_decide_eq_true in H. by subst.
Qed.

(** The two identifiers of a verified member are the same. *)
Lemma member_of_memberId w t :
  get (member_of w t) "memberId" = get (member_of w t) "id".
Proof.
  unfold member_of.
  destruct (env_set (secretKey w) && nonempty t); [|reflexivity].
  destruct (sdk_verifyToken w (VStr t)) as [ver|e]; [|reflexivity].
  destruct (truthy ver && truthy (get ver "id")); [|reflexivity].
  rewrite !get_wire. unfold object. cbn [get list_to_map foldr].
  by rewrite lookup_insert_ne, !lookup_insert_eq.
Qed.

Lemma listed_status r :
  field (Admin.listed_course r) "status" = field (rec_data r) "status".
Proof.
  unfold field, Admin.listed_course.
  destruct (rec_data r !! "status") as [v|] eqn:Hv.
  - by erewrite lookup_union_Some_l.
  - rewrite lookup_union_r by done. by rewrite lookup_singleton_ne.
Qed.

(** X10: a stored status that is falsy without being absent ([null],
    the empty string, [0], [false]) is read in two ways.  The listing
    replaces it by ["published"], so an anonymous caller is sent the
    course; the single read takes only ["published"] and an absent
    status as published, and answers 404 for the same course. *)
Theorem falsy_status_listed_but_hidden req w r :
  misconfigured w = false ->
  anonymous req = true ->
  unfiltered req = true ->
  In r (take 1100 (table w)) ->
  truthy (field (rec_data r) "status") = false ->
  field (rec_data r) "status" <> VUndef ->
  Admin.find_record (rec_id r) (table w) = Some r ->
  (exists resp c,
      CoursesRoute.GET req w = (Ret resp, w)
      /\ In c (listed resp)
      /\ c = VObj (wire_obj (CoursesRoute.processed w (Admin.listed_course r)))
      /\ get c "status" = VStr "published")
  /\ (exists resp,
        CourseRoute.GET req (rec_id r) w = (Ret resp, w)
        /\ status resp = 404%Z).
Proof.
  intros Hc Ha Hu Hin Hf Hdef Hfind.
  pose proof (anonymous_member w req Ha) as Hm.
  assert (Hst : field (CoursesRoute.processed w (Admin.listed_course r)) "status"
                = VStr "published").
  { unfold CoursesRoute.processed, field at 1. rewrite lookup_insert_eq.
    cbn [default]. rewrite listed_status. unfold or_else. by rewrite Hf. }
  split.
  - rewrite CourseListFacts.GET_list_run, Hm by done. cbn zeta. cbn [truthy].
    eexists _, _. split; [reflexivity|].
    rewrite CourseListFacts.listed_json. split; [|split; [reflexivity|]].
    + apply in_map_iff.
      exists (CoursesRoute.processed w (Admin.listed_course r)).
      split; [reflexivity|]. apply filter_In. split.
      * apply in_map, in_map, Hin.
      * unfold CoursesRoute.is_published. by rewrite Hst.
    + change (get (VObj ?m) ?k) with (field m k).
      by rewrite field_wire_obj, Hst.
  - rewrite CourseReadFacts.GET_course_run, Hfind by done. cbn zeta.
    rewrite Hm, CourseReadFacts.isOwner_null.
    assert (Hp : CourseRoute.isPublished (Admin.course_of_record r) = false).
    { unfold CourseRoute.isPublished. rewrite status_of_course.
      destruct (field (rec_data r) "status") as [| |b|q|s|l|m]; try done.
      cbn in Hf |- *. destruct s; [reflexivity|discriminate]. }
    rewrite Hp. eexists. split; reflexivity.
Qed.

Lemma falsy_status_listed_but_hidden_witness :
  let r := MkRecord "c3" (list_to_map [("title", VStr "Legacy"); ("status", VNull)]) in
  let w := set_table [r] Demo.world0 in
  exists resp,
    CourseRoute.GET (Demo.request_of None [] VNull) "c3" w = (Ret resp, w)
    /\ status resp = 404%Z.
Proof.
  cbv zeta.
  apply (falsy_status_listed_but_hidden
           (Demo.request_of None [] VNull)
           (set_table
              [MkRecord "c3"
                 (list_to_map [("title", VStr "Legacy"); ("status", VNull)])]
              Demo.world0)
           (MkRecord "c3"
              (list_to_map [("title", VStr "Legacy"); ("status", VNull)])));
    try reflexivity.
  - left. reflexivity.
  - discriminate.
Defined.

(** X11: a course that is not published is returned to the member who
    owns it and to nobody else: for a verified member whose identifier
    is a string, the single read answers 200 exactly when the stored
    owner is that identifier, and 404 otherwise. *)
Theorem draft_read_by_owner_only req w t m courseId r :
  misconfigured w = false ->
  bearer_token req = Some t ->
  get (member_of w t) "id" = VStr m ->
  nonempty m = true ->
  Admin.find_record courseId (table w) = Some r ->
  published_on_read (rec_data r) = false ->
  exists resp,
    CourseRoute.GET req courseId w = (Ret resp, w)
    /\ (status resp = 200%Z \/ status resp = 404%Z)
    /\ (status resp = 200%Z <-> field (rec_data r) "owner_id" = VStr m).
Proof.
  intros Hc Ht Hid Hm0 Hr Hp.
  rewrite CourseReadFacts.GET_course_run, Hr by done. cbn zeta.
  rewrite isPublished_read, Hp. cbn [negb andb].
  assert (Hmem : member_for w req = member_of w t).
  { unfold member_for. by rewrite Ht. }
  rewrite Hmem.
  assert (Hm : truthy (member_of w t) = true).
  { destruct (member_of w t); try discriminate; reflexivity. }
  unfold CourseRoute.isOwner, and_then. rewrite Hm, owner_of_course.
  rewrite member_of_memberId, Hid, orb_diag.
  destruct (truthy (field (rec_data r) "owner_id")) eqn:Ho.
  - destruct (strict_eq (VStr m) (field (rec_data r) "owner_id")) eqn:He;
      cbn [truthy negb].
    + apply strict_eq_string in He. eexists. split; [reflexivity|].
      split; [by left|]. by split.
    + eexists. split; [reflexivity|]. split; [by right|].
      split; [discriminate|]. intros E. rewrite E in He. cbn in He.
      by rewrite bool_decide_eq_true_2 in He.
  - rewrite Ho. cbn [negb]. eexists. split; [reflexivity|]. split; [by right|].
    split; [discriminate|]. intros E. rewrite E in Ho. cbn in Ho. congruence.
Qed.

Lemma draft_read_by_owner_only_witness :
  exists resp,
    CourseRoute.GET (Demo.request_of (Some "token-m1") [] VNull) "c2" Demo.world0
    = (Ret resp, Demo.world0)
    /\ (status resp = 200%Z \/ status resp = 404%Z)
    /\ (status resp = 200%Z <-> field (rec_data Demo.c2) "owner_id" = VStr "m1").
Proof.
  apply (draft_read_by_owner_only
           (Demo.request_of (Some "token-m1") [] VNull)
           Demo.world0 "token-m1" "m1" "c2" Demo.c2); reflexivity.
Defined.



Lemma find_replace_other other r' t :
  other <> rec_id r' ->
  Admin.find_record other (Admin.replace_record r' t)
  = Admin.find_record other t.
Proof.
  intros Hne. unfold Admin.find_record, Admin.replace_record.
  induction t as [|x t IH]; [reflexivity|]. cbn.
  destruct (bool_decide (rec_id x = rec_id r')) eqn:Hx.
  - apply bool_decide_eq_true in Hx.
    rewrite !(bool_decide_eq_false_2 (_ = other)) by congruence.
    exact IH.
  - destruct (bool_decide (rec_id x = other)); [reflexivity|exact IH].
Qed.




Lemma updates_absent w body now1 now2 k :
  k <> "updated_at" -> k <> "priceCents" ->
  spread body !! k = None \/ k = "id" \/ k = "created_at" ->
  wire_obj (<["updated_at" := VStr now2]>
              (CourseRoute.with_cents w (CourseRoute.initial_updates body now1)))
  !! k = None.
Proof.
  intros H1 H2 Hk. unfold wire_obj. rewrite lookup_omap, lookup_insert_ne by done.
  assert (Hi : CourseRoute.initial_updates body now1 !! k = None).
  { unfold CourseRoute.initial_updates.
    destruct (decide (k = "created_at")) as [->|Hc];
      [by rewrite lookup_delete_eq|].
    rewrite lookup_delete_ne by done.
    destruct (decide (k = "id")) as [->|Hid];
      [by rewrite lookup_delete_eq|].
    rewrite lookup_delete_ne, lookup_insert_ne by done.
    destruct Hk as [Hk|[Hk|Hk]]; done. }
  unfold CourseRoute.with_cents. destruct (truthy _).
  - destruct (decide (k = "price")) as [->|Hp];
      [by rewrite lookup_delete_eq|].
    rewrite lookup_delete_ne, lookup_insert_ne by done. by rewrite Hi.
  - by rewrite Hi.
Qed.

(** X13: what an accepted [PUT] stores depends on the fields it sends
    and on the data service.  The handler never sends [id] or
    [created_at], whatever the body has for them, and no field that the
    body does not have other than [updated_at] and [priceCents]; such a
    field is stored afterwards as it was before when the service merges
    what it is sent into the record, and is gone when the service
    stores what it is sent and nothing else.  [updated_at] is stored as
    the second reading of the clock by either service, and no other
    course is touched. *)
Theorem put_sends_no_more_than_the_body req courseId w t r body :
  misconfigured w = false ->
  bearer_token req = Some t ->
  truthy (member_of w t) = true ->
  json_body req = Ret body ->
  Admin.find_record courseId (table w) = Some r ->
  strict_eq (field (rec_data r) "owner_id") (get (member_of w t) "id") = true ->
  let t' := table (CourseRoute.PUT req courseId w).2 in
  (forall k,
      k <> "updated_at" -> k <> "priceCents" ->
      spread body !! k = None \/ k = "id" \/ k = "created_at" ->
      stored_field t' courseId k
      = if put_merges w then stored_field (table w) courseId k else VUndef)
  /\ stored_field t' courseId "updated_at"
     = VStr (date_iso w (clock w (S (reads w))))
  /\ (forall other,
        other <> courseId ->
        Admin.find_record other t' = Admin.find_record other (table w)).
Proof.
  intros Hc Ht Hm Hb Hr Ho t'. subst t'.
  assert (Ho' : strict_eq (field (rec_data r) "owner_id")
                  (CourseRoute.memberId (member_of w t)) = true).
  { unfold CourseRoute.memberId, or_else.
    by rewrite (member_of_truthy w t Hm). }
  pose proof (CourseWriteFacts.find_record_id _ _ _ Hr) as Hid.
  rewrite (CourseWriteFacts.PUT_accepted req courseId w t r body) by done.
  cbn [snd table set_table]. split; [|split].
  - intros k H1 H2 Hk.
    rewrite (CourseWriteFacts.stored_field_replaced courseId (table w) r)
      by done.
    unfold stored_field. rewrite Hr. cbn [rec_data]. unfold field.
    rewrite CourseWriteFacts.put_data_not_sent by by apply updates_absent.
    by destruct (put_merges w).
  - rewrite (CourseWriteFacts.stored_field_replaced courseId (table w) r)
      by done.
    cbn [rec_data]. unfold field.
    erewrite CourseWriteFacts.put_data_sent; [reflexivity|].
    unfold wire_obj. by rewrite lookup_omap, lookup_insert_eq.
  - intros other Hne. apply find_replace_other. cbn [rec_id]. congruence.
Qed.

Lemma put_sends_no_more_than_the_body_witness :
  stored_field
    (table (CourseRoute.PUT
              (Demo.request_of (Some "token-m1") []
                 (object [("title", VStr "New"); ("id", VStr "c9")]))
              "c1" Demo.world0).2) "c1" "status"
  = stored_field (table Demo.world0) "c1" "status".
Proof.
  apply (put_sends_no_more_than_the_body
           (Demo.request_of (Some "token-m1") []
              (object [("title", VStr "New"); ("id", VStr "c9")]))
           "c1" Demo.world0 "token-m1" Demo.c1
           (object [("title", VStr "New"); ("id", VStr "c9")]));
    try reflexivity; try done.
  left. reflexivity.
Defined.

Lemma authenticated_refuses req k w :
  misconfigured w = false ->
  (forall t, bearer_token req = Some t -> truthy (member_of w t) = false) ->
  exists resp,
    CourseRoute.authenticated req k w = (Ret resp, w) /\ status resp = 401%Z.
Proof.
  intros Hc Hno. unfold CourseRoute.authenticated.
  unfold bind at 1. unfold ask at 1. rewrite Hc.
  destruct (bearer_token req) as [t|] eqn:Ht.
  2:{ eexists; split; reflexivity. }
  specialize (Hno t eq_refl).
  destruct t as [|c t]; [eexists; split; reflexivity|].
  cbn [truthy nonempty negb]. unfold bind at 1.
  rewrite verifyToken_run, Hno. eexists; split; reflexivity.
Qed.




End CourseAccessFacts.

(* ===================================================================== *)
(** * Prices, further *)
(* ===================================================================== *)

Module StoredPriceFacts.
Import Js Server Notions Facts.

Lemma num_truthy z : z <> 0%Z -> truthy (num z) = true.
Proof.
  intros Hz. unfold num. cbn [truthy].
  rewrite bool_decide_eq_false_2; [reflexivity|].
  intros E. apply Hz. change 0%Qc with (Q2Qc (inject_Z 0)) in E.
  apply Q2Qc_eq_iff in E. unfold Qeq in E. cbn in E. lia.
Qed.

(** Stored cents that are not zero are read as the double
    [cents / 100]. *)
Lemma read_price_cents w course z y :
  field course "priceCents" = num z ->
  z <> 0%Z ->
  over100 (qc_of_Z z) = Some y ->
  read_price w course = VNum y.
Proof.
  intros Hf Hz Hy. unfold read_price. rewrite Hf, (num_truthy z Hz).
  unfold div100, num. cbn [to_number].
  change (Q2Qc (inject_Z z)) with (qc_of_Z z). by rewrite Hy.
Qed.

(** X15: a [PUT] by the owner with a number [p] as [price], where the
    double product [p * 100] is [x] and [Math.round(x)] is not zero,
    answers 200, stores [Math.round(x)] as [priceCents] and the second
    clock reading as [updated_at], and both its answer and a later read
    give as the price the double quotient [Math.round(x) / 100]. *)
Theorem put_price_reads_back req courseId w t r body p x y :
  misconfigured w = false ->
  bearer_token req = Some t ->
  truthy (member_of w t) = true ->
  json_body req = Ret body ->
  Admin.find_record courseId (table w) = Some r ->
  strict_eq (field (rec_data r) "owner_id") (get (member_of w t) "id") = true ->
  field (spread body) "price" = VNum p ->
  times100 p = Some x ->
  math_round x <> 0%Z ->
  over100 (qc_of_Z (math_round x)) = Some y ->
  exists resp w' r',
    CourseRoute.PUT req courseId w = (Ret resp, w')
    /\ status resp = 200%Z
    /\ get (get (payload resp) "course") "price" = VNum y
    /\ Admin.find_record courseId (table w') = Some r'
    /\ field (rec_data r') "priceCents" = num (math_round x)
    /\ field (rec_data r') "updated_at" = VStr (date_iso w (clock w (S (reads w))))
    /\ read_price w' (Admin.course_of_record r') = VNum y.
Proof.
  intros Hc Ht Hm Hb Hr Ho Hp Hx Hround Hy.
  assert (Ho' : strict_eq (field (rec_data r) "owner_id")
                  (CourseRoute.memberId (member_of w t)) = true).
  { unfold CourseRoute.memberId, or_else.
    by rewrite (member_of_truthy w t Hm). }
  assert (Hnz : p <> 0%Qc).
  { intros ->. vm_compute in Hx. injection Hx as <-. by apply Hround. }
  pose proof (CourseWriteFacts.find_record_id _ _ _ Hr) as Hid.
  rewrite (CourseWriteFacts.PUT_accepted req courseId w t r body) by done.
  cbn zeta.
  set (r' := MkRecord (rec_id r) _). set (w' := set_table _ _).
  assert (Hprice :
    field (CourseRoute.initial_updates body
             (date_iso w (clock w (reads w)))) "price" = VNum p).
  { unfold field, CourseRoute.initial_updates.
    rewrite !lookup_delete_ne, lookup_insert_ne by done. exact Hp. }
  assert (Hcents : field (rec_data r') "priceCents" = num (math_round x)).
  { subst r'. cbn [rec_data]. unfold field.
    erewrite CourseWriteFacts.put_data_sent; [reflexivity|].
    unfold CourseRoute.with_cents. rewrite Hprice.
    cbn [truthy]. rewrite bool_decide_eq_false_2 by done. cbn [negb].
    unfold wire_obj. rewrite lookup_omap, lookup_insert_ne by done.
    rewrite lookup_delete_ne, lookup_insert_eq by done.
    unfold round_cents. cbn [to_number]. rewrite Hx. reflexivity. }
  exists (json (object
                  [("course",
                    CourseRoute.responseCourse w' (Admin.written_course r'))])
               200), w', r'.
  split; [reflexivity|]. split; [reflexivity|]. split.
  { unfold json. cbn [payload]. rewrite !get_wire.
    unfold object. cbn [get list_to_map foldr]. rewrite lookup_insert_eq.
    cbn [default wire id snd CourseRoute.responseCourse get].
    rewrite lookup_insert_eq. cbn [default].
    rewrite (read_price_cents w' _ (math_round x) y); [reflexivity| |done|done].
    unfold field, Admin.written_course.
    unfold field in Hcents.
    destruct (rec_data r' !! "priceCents") as [v|] eqn:Hv.
    - by erewrite lookup_union_Some_l.
    - discriminate. }
  split.
  { subst w'. cbn [table set_table].
    by apply (CourseWriteFacts.find_replace_record courseId (table w) r). }
  split; [exact Hcents|]. split.
  { subst r'. cbn [rec_data]. unfold field.
    erewrite CourseWriteFacts.put_data_sent; [reflexivity|].
    unfold wire_obj. by rewrite lookup_omap, lookup_insert_eq. }
  apply (read_price_cents _ _ (math_round x)); [|done|done].
  unfold field, Admin.course_of_record. by rewrite lookup_insert_ne.
Qed.

(** The double 0.015 as the price: the product is the double 1.5, the
    stored cents are 2, and the price read back is the double 0.02. *)
Lemma put_price_reads_back_witness :
  exists resp w' r',
    CourseRoute.PUT
      (Demo.request_of (Some "token-m1") []
         (object [("price",
                   VNum (Q2Qc (1080863910568919 # 72057594037927936)))]))
      "c1" Demo.world0 = (Ret resp, w')
    /\ status resp = 200%Z
    /\ get (get (payload resp) "course") "price"
       = VNum (Q2Qc (5764607523034235 # 288230376151711744))
    /\ Admin.find_record "c1" (table w') = Some r'
    /\ field (rec_data r') "priceCents" = num 2.
Proof.
  destruct (put_price_reads_back
              (Demo.request_of (Some "token-m1") []
                 (object [("price",
                           VNum (Q2Qc (1080863910568919 # 72057594037927936)))]))
              "c1" Demo.world0 "token-m1" Demo.c1
              (object [("price",
                        VNum (Q2Qc (1080863910568919 # 72057594037927936)))])
              (Q2Qc (1080863910568919 # 72057594037927936))
              (Q2Qc (6755399441055744 # 4503599627370496))
              (Q2Qc (5764607523034235 # 288230376151711744)))
    as (resp & w' & r' & H1 & H2 & H3 & H4 & H5 & _);
    try reflexivity; try done.
  exists resp, w', r'. repeat (split; [assumption|]). exact H5.
Defined.

End StoredPriceFacts.

(* ===================================================================== *)
(** * Seeding, further *)
(* ===================================================================== *)

Module SeedingFacts.
Import Js Server Notions Facts.

(** [Math.floor(count * 0.8)] in integers. *)
Lemma published_up_to_div count :
  SeedRoute.published_up_to count = (count * 8 / 10)%Z.
Proof.
  unfold SeedRoute.published_up_to.
  transitivity (Qfloor (inject_Z count * (8 # 10))).
  - apply Qfloor_comp. cbn [Qcmult this Q2Qc].
    rewrite !Qred_correct. reflexivity.
  - unfold Qfloor, Qmult, inject_Z. cbn [Qnum Qden]. reflexivity.
Qed.

(** The loop of the generator: the course of each index, stamped with
    the clock reading of its iteration. *)
Lemma generate_run count memberId now indices : forall w,
  exists courses,
    SeedRoute.generate count memberId now indices w
    = (Ret courses, set_reads (reads w + length indices) w)
    /\ length courses = length indices
    /\ forall k idx,
         indices !! k = Some idx ->
         courses !! k
         = Some (SeedRoute.seeded_course count memberId now (date_iso w) idx
                   (clock w (reads w + k))).
Proof.
  induction indices as [|i rest IH]; intros w.
  - exists []. split; [|split; [reflexivity|intros k idx; discriminate]].
    cbn. unfold ret. destruct w; cbn. by rewrite Nat.add_0_r.
  - cbn [SeedRoute.generate]. unfold bind at 1, date_now at 1.
    unfold bind at 1, ask at 1. unfold bind at 1.
    destruct (IH (set_reads (S (reads w)) w)) as (tail & -> & Hlen & Hnth).
    eexists. split; [|split].
    + unfold ret. cbn [length set_reads reads secretKey appId sdk_verifyToken
                       table fresh_id refuses clock date_iso number_to_string
                       coerce_number].
      replace (reads w + S (length rest))%nat
        with (S (reads w) + length rest)%nat by lia.
      reflexivity.
    + cbn [length]. by rewrite Hlen.
    + intros [|k] idx Hk.
      * injection Hk as <-. by rewrite Nat.add_0_r.
      * change ((?x :: tail) !! S k) with (tail !! k).
        change ((i :: rest) !! S k) with (rest !! k) in Hk.
        rewrite (Hnth k idx Hk). cbn [date_iso clock reads set_reads].
        do 3 f_equal. lia.
Qed.

(** X16: the generator makes [count] courses, all owned by the
    requesting member and all with the time of the request as
    [updated_at]; the course of index [i] is published exactly when
    [i < floor(0.8 * count)], that is when [10 * (i + 1) <= 8 * count],
    and takes its category from the template of index [i mod 10]. *)
Theorem generated_courses count memberId now w :
  exists courses w',
    SeedRoute.generate count memberId now (seq 0 (Z.to_nat count)) w
    = (Ret courses, w')
    /\ table w' = table w
    /\ length courses = Z.to_nat count
    /\ forall i c,
         courses !! i = Some c ->
         field c "owner_id" = memberId
         /\ field c "updated_at" = VStr now
         /\ field c "status"
            = VStr (if (10 * (Z.of_nat i + 1) <=? 8 * count)%Z
                    then "published" else "draft")
         /\ field c "category"
            = VStr (SeedRoute.t_category
                      (nth (i mod 10) SeedRoute.courseTemplates
                           SeedRoute.default_template)).
Proof.
  destruct (generate_run count memberId now (seq 0 (Z.to_nat count)) w)
    as (courses & Hrun & Hlen & Hnth).
  eexists courses, _. split; [exact Hrun|]. split; [reflexivity|].
  rewrite length_seq in Hlen. split; [exact Hlen|].
  intros i c Hc.
  assert (Hi : (i < Z.to_nat count)%nat).
  { rewrite <- Hlen. by eapply lookup_lt_Some. }
  rewrite (Hnth i i) in Hc by (by apply lookup_seq).
  injection Hc as <-.
  unfold SeedRoute.seeded_course, field. cbn [list_to_map foldr fst snd].
  split; [by rewrite !lookup_insert_ne, lookup_insert_eq by done|].
  split.
  { rewrite !(lookup_insert_ne _ _ "updated_at") by done.
    by rewrite lookup_insert_eq. }
  split.
  { rewrite !(lookup_insert_ne _ _ "status") by done.
    rewrite lookup_insert_eq. cbn [default from_option id].
    rewrite published_up_to_div.
    assert (Hb : (Z.of_nat i <? count * 8 / 10)%Z
                 = (10 * (Z.of_nat i + 1) <=? 8 * count)%Z).
    { destruct (10 * (Z.of_nat i + 1) <=? 8 * count)%Z eqn:Hle.
      - apply Z.leb_le in Hle. apply Z.ltb_lt.
        apply Z.lt_le_trans with (Z.of_nat i + 1)%Z; [lia|].
        apply Z.div_le_lower_bound; lia.
      - apply Z.leb_gt in Hle. apply Z.ltb_ge.
        apply Z.lt_succ_r. apply Z.div_lt_upper_bound; lia. }
    by rewrite Hb. }
  rewrite !(lookup_insert_ne _ _ "category") by done.
  by rewrite lookup_insert_eq.
Qed.

Lemma record_data_owner w course :
  field (wire_obj (SeedRoute.record_data w course)) "owner_id"
  = wire (field course "owner_id").
Proof.
  rewrite field_wire_obj. unfold SeedRoute.record_data, field.
  by rewrite lookup_delete_ne, lookup_insert_ne.
Qed.

Lemma set_table_same w : set_table (table w ++ []) w = w.
Proof. rewrite app_nil_r. by destruct w. Qed.

Lemma post_one_adds owner n course acc w :
  field course "owner_id" = owner ->
  exists acc' added,
    SeedRoute.post_one n course acc w
    = (Ret acc', set_table (table w ++ added) w)
    /\ Forall (fun r => field (rec_data r) "owner_id" = wire owner) added
    /\ SeedRoute.successCount acc' = (SeedRoute.successCount acc + length added)%nat
    /\ attempts acc' = S (attempts acc).
Proof.
  intros Ho. unfold SeedRoute.post_one, attempts.
  destruct (refuses w _).
  - eexists _, []. rewrite set_table_same. split; [reflexivity|].
    split; [constructor|cbn; lia].
  - eexists _, [_]. split; [reflexivity|]. split; [|cbn; lia].
    constructor; [|constructor]. cbn [rec_data].
    by rewrite record_data_owner, Ho.
Qed.

Lemma post_batch_adds owner batch : forall i index acc w,
  Forall (fun c => field c "owner_id" = owner) batch ->
  exists acc' added,
    SeedRoute.post_batch i index batch acc w
    = (Ret acc', set_table (table w ++ added) w)
    /\ Forall (fun r => field (rec_data r) "owner_id" = wire owner) added
    /\ SeedRoute.successCount acc' = (SeedRoute.successCount acc + length added)%nat
    /\ attempts acc' = (attempts acc + length batch)%nat.
Proof.
  induction batch as [|course rest IH]; intros i index acc w Hall.
  - exists acc, []. rewrite set_table_same. split; [reflexivity|].
    split; [constructor|cbn; lia].
  - apply Forall_cons in Hall as [Hc Hrest].
    cbn [SeedRoute.post_batch]. unfold bind at 1.
    destruct (post_one_adds owner (i + index + 1) course acc w Hc)
      as (acc1 & added1 & -> & Hf1 & Hs1 & Ha1).
    destruct (IH i (S index) acc1 (set_table (table w ++ added1) w) Hrest)
      as (acc2 & added2 & -> & Hf2 & Hs2 & Ha2).
    exists acc2, (added1 ++ added2)%list. split; [|split; [|split]].
    + cbn [table set_table]. unfold set_table. cbn. by rewrite app_assoc.
    + by apply Forall_app.
    + rewrite length_app. lia.
    + cbn [length]. lia.
Qed.

Lemma post_batches_adds owner courses starts : forall acc w,
  Forall (fun c => field c "owner_id" = owner) courses ->
  exists acc' added,
    SeedRoute.post_batches starts courses acc w
    = (Ret acc', set_table (table w ++ added) w)
    /\ Forall (fun r => field (rec_data r) "owner_id" = wire owner) added
    /\ SeedRoute.successCount acc' = (SeedRoute.successCount acc + length added)%nat
    /\ attempts acc'
       = (attempts acc
          + sum_list (map (fun i => length (take SeedRoute.batchSize (drop i courses)))
                          starts))%nat.
Proof.
  induction starts as [|i rest IH]; intros acc w Hall.
  - exists acc, []. rewrite set_table_same. split; [reflexivity|].
    split; [constructor|cbn; lia].
  - cbn [SeedRoute.post_batches]. unfold bind at 1.
    destruct (post_batch_adds owner (take SeedRoute.batchSize (drop i courses))
                i 0 acc w) as (acc1 & added1 & -> & Hf1 & Hs1 & Ha1).
    { by apply Forall_take, Forall_drop. }
    destruct (IH acc1 (set_table (table w ++ added1) w) Hall)
      as (acc2 & added2 & -> & Hf2 & Hs2 & Ha2).
    exists acc2, (added1 ++ added2)%list. split; [|split; [|split]].
    + cbn [table set_table]. unfold set_table. cbn. by rewrite app_assoc.
    + by apply Forall_app.
    + rewrite length_app. lia.
    + cbn [map sum_list sum_list_with id]. lia.
Qed.

(** The run of a seeding by a verified member: the tally of the
    requests, the answer made of it, and the records appended. *)
Lemma seeding_run req w t param :
  misconfigured w = false ->
  bearer_token req = Some t ->
  truthy (member_of w t) = true ->
  SeedRoute.countParam req w = (Ret param, w) ->
  let count := SeedRoute.seed_count w param in
  exists done added,
    SeedRoute.POST req w
    = (Ret (json (object
          [("success", VBool true);
           ("message",
            VStr ("Created " +:+ pretty (SeedRoute.successCount done)
                  +:+ " out of " +:+ pretty count +:+ " courses successfully"));
           ("requested", num count);
           ("created", num (Z.of_nat (SeedRoute.successCount done)));
           ("errors", num (Z.of_nat (SeedRoute.errorCount done)));
           ("errorDetails",
            match SeedRoute.errors done with
            | [] => VUndef
            | _ => VArr (map VStr (take 10 (SeedRoute.errors done)))
            end)]) 200),
       set_table (table w ++ added)
         (set_reads (S (reads w) + Z.to_nat count) w))
    /\ Forall (fun r => field (rec_data r) "owner_id"
                        = wire (get (member_of w t) "id")) added
    /\ SeedRoute.successCount done = length added
    /\ attempts done = Z.to_nat count.
Proof.
  intros Hc Ht Hm Hq count.
  unfold SeedRoute.POST, CourseRoute.authenticated.
  unfold try_catch at 1. unfold bind at 1. unfold ask at 1. rewrite Hc, Ht.
  assert (Hn : nonempty t = true).
  { destruct t; [|reflexivity]. by rewrite member_of_empty in Hm. }
  cbn [truthy]. rewrite Hn. cbn [negb].
  unfold bind at 1. rewrite verifyToken_run, Hm. cbn [negb].
  unfold bind at 1. rewrite Hq.
  unfold bind at 1, get_world at 1.
  unfold bind at 1, now_iso at 1. unfold bind at 1.
  fold count.
  assert (Hmem : CourseRoute.memberId (member_of w t) = get (member_of w t) "id").
  { unfold CourseRoute.memberId, or_else.
    by rewrite (member_of_truthy w t Hm). }
  rewrite Hmem.
  destruct (generate_run count (get (member_of w t) "id")
              (date_iso w (clock w (reads w))) (seq 0 (Z.to_nat count))
              (set_reads (S (reads w)) w))
    as (courses & -> & Hlen & Hnth).
  assert (Hall : Forall (fun c => field c "owner_id" = get (member_of w t) "id")
                   courses).
  { apply Forall_lookup. intros i c Hi.
    assert (Hlt : (i < length (seq 0 (Z.to_nat count)))%nat).
    { rewrite <- Hlen. by eapply lookup_lt_Some. }
    rewrite length_seq in Hlt.
    rewrite (Hnth i i) in Hi by (by apply lookup_seq).
    injection Hi as <-.
    unfold SeedRoute.seeded_course, field. cbn [list_to_map foldr fst snd].
    by rewrite !lookup_insert_ne, lookup_insert_eq by done. }
  unfold bind at 1.
  match goal with
  | |- context [SeedRoute.post_batches ?s courses ?a ?w1] =>
      destruct (post_batches_adds (get (member_of w t) "id") courses s a w1 Hall)
        as (done & added & -> & Hf & Hs & Ha)
  end.
  exists done, added. rewrite length_seq.
  split; [reflexivity|]. split; [exact Hf|].
  rewrite SeedFacts.batch_starts_cover, Hlen, length_seq in Ha.
  split; [exact Hs|]. exact Ha.
Qed.

(** X17: a seeding by a verified member answers 200 with a requested
    count between 1 and 200; every generated course is posted once, so
    [created] and [errors] add up to [requested]; a refusal of the
    service is counted and the seeding goes on.  The table is the one
    before with [created] records appended, each owned by the
    requesting member. *)
Theorem seeding_accounts req w t param :
  misconfigured w = false ->
  bearer_token req = Some t ->
  truthy (member_of w t) = true ->
  SeedRoute.countParam req w = (Ret param, w) ->
  exists resp w' added created failed,
    SeedRoute.POST req w = (Ret resp, w')
    /\ status resp = 200%Z
    /\ (1 <= SeedRoute.seed_count w param <= 200)%Z
    /\ get (payload resp) "requested" = num (SeedRoute.seed_count w param)
    /\ get (payload resp) "created" = num (Z.of_nat created)
    /\ get (payload resp) "errors" = num (Z.of_nat failed)
    /\ Z.of_nat (created + failed) = SeedRoute.seed_count w param
    /\ table w' = (table w ++ added)%list
    /\ length added = created
    /\ Forall (fun r => field (rec_data r) "owner_id"
                        = wire (get (member_of w t) "id")) added.
Proof.
  intros Hc Ht Hm Hq.
  destruct (seeding_run req w t param Hc Ht Hm Hq)
    as (done & added & Hrun & Hf & Hs & Ha).
  eexists _, _, added, (SeedRoute.successCount done), (SeedRoute.errorCount done).
  split; [exact Hrun|]. split; [reflexivity|].
  pose proof (SeedFacts.seed_count_bounds w param) as Hb.
  split; [exact Hb|].
  unfold json. cbn [payload]. rewrite !get_wire.
  do 3 (split; [reflexivity|]).
  unfold attempts in Ha.
  split; [lia|]. split; [reflexivity|]. split; [by symmetry|exact Hf].
Qed.

Lemma seeding_accounts_witness :
  exists resp w' added created failed,
    SeedRoute.POST
      (Demo.request_of (Some "token-m1") [("count", "3")] (object []))
      Demo.world0 = (Ret resp, w')
    /\ status resp = 200%Z
    /\ (1 <= 3 <= 200)%Z
    /\ get (payload resp) "requested" = num 3
    /\ get (payload resp) "created" = num (Z.of_nat created)
    /\ get (payload resp) "errors" = num (Z.of_nat failed)
    /\ Z.of_nat (created + failed) = 3%Z
    /\ table w' = (table Demo.world0 ++ added)%list
    /\ length added = created
    /\ Forall (fun r => field (rec_data r) "owner_id" = VStr "m1") added.
Proof.
  apply (seeding_accounts
           (Demo.request_of (Some "token-m1") [("count", "3")] (object []))
           Demo.world0 "token-m1" (VStr "3")); reflexivity.
Defined.

End SeedingFacts.

(* ===================================================================== *)
(** * The listing filter, further *)
(* ===================================================================== *)

Module PageFilterFacts.
Import Js CoursesPage.

Lemma minus_nonpositive (a b : Qc) : (a - b <= 0)%Qc <-> (a <= b)%Qc.
Proof.
  rewrite (Qcle_minus_iff (a - b) 0), (Qcle_minus_iff a b).
  replace (0 + - (a - b))%Qc with (b + - a)%Qc by ring. reflexivity.
Qed.

(** Insertion keeps a list sorted, for a comparator that decides a
    total relation. *)
Lemma insert_by_sorted (R : Course -> Course -> Prop) cmp x l :
  (forall a b, (cmp a b <= 0)%Qc <-> R a b) ->
  (forall a b, R a b \/ R b a) ->
  Sorted R l ->
  Sorted R (insert_by cmp x l).
Proof.
  intros Hcmp Htotal. induction l as [|y r IH]; intros Hs; cbn.
  - repeat constructor.
  - case_bool_decide as Hxy.
    + constructor; [exact Hs|]. constructor. by apply Hcmp.
    + apply Sorted_inv in Hs as [Hr Hhd]. constructor; [by apply IH|].
      assert (Hyx : R y x).
      { destruct (Htotal y x) as [H|H]; [exact H|].
        exfalso. apply Hxy. by apply Hcmp. }
      destruct r as [|z r]; cbn.
      * by constructor.
      * case_bool_decide; constructor; [exact Hyx|].
        by apply HdRel_inv in Hhd.
Qed.

Lemma sort_by_sorted (R : Course -> Course -> Prop) cmp l :
  (forall a b, (cmp a b <= 0)%Qc <-> R a b) ->
  (forall a b, R a b \/ R b a) ->
  Sorted R (sort_by cmp l).
Proof.
  intros Hcmp Htotal. unfold sort_by. induction l as [|x l IH]; cbn.
  - constructor.
  - by apply insert_by_sorted.
Qed.

Lemma price_total a b :
  (price_or_0 a <= price_or_0 b)%Qc \/ (price_or_0 b <= price_or_0 a)%Qc.
Proof.
  destruct (Qclt_le_dec (price_or_0 b) (price_or_0 a)) as [H|H]; [right|left].
  - by apply Qclt_le_weak.
  - exact H.
Qed.

Section Effect.
Variable getTime : string -> Z.
Variable random_order : list Course -> list Course.

(** Sorting with the comparator [Math.random() - 0.5] leaves some
    arrangement of the same courses. *)
Hypothesis random_order_In : forall l c, In c (random_order l) <-> In c l.

(** X18: the filters of the page compose as a conjunction, and no sort
    order adds or drops a course: for every state of the inputs, a
    course is displayed exactly when it is in the base list, has the
    selected category (unless "all"), matches the lowered search text
    (unless empty), and passes the price filter (when "free" or
    "paid"). *)
Theorem displayed_iff_passes_every_filter f courses c :
  In c (filteredCourses getTime random_order f courses)
  <-> In c courses
      /\ (selectedCategory f = "all" \/ category c = Some (selectedCategory f))
      /\ (nonempty (searchQuery f) = true ->
          matches (toLowerCase (searchQuery f)) c = true)
      /\ (priceFilter f = "free" -> is_free c = true)
      /\ (priceFilter f = "paid" -> is_paid c = true).
Proof using random_order_In.
  unfold filteredCourses.
  set (by_category := if bool_decide (selectedCategory f = "all") then _ else _).
  set (by_search := if nonempty (searchQuery f) then _ else _).
  set (by_price := if bool_decide (priceFilter f = "free") then _ else _).
  assert (Hsorted :
    In c (if bool_decide (sortBy f = "price-low")
          then sort_by (fun a b => price_or_0 a - price_or_0 b)%Qc by_price
          else if bool_decide (sortBy f = "price-high")
          then sort_by (fun a b => price_or_0 b - price_or_0 a)%Qc by_price
          else if bool_decide (sortBy f = "rating")
          then random_order by_price
          else if bool_decide (sortBy f = "newest")
          then sort_by (fun a b => Q2Qc (inject_Z (date_of getTime b
                                                   - date_of getTime a)))
                       by_price
          else by_price)
    <-> In c by_price).
  { repeat case_bool_decide;
      rewrite ?PageFacts.sort_by_In, ?random_order_In; reflexivity. }
  rewrite Hsorted. clear Hsorted.
  assert (Hcat : In c by_category
                 <-> In c courses
                     /\ (selectedCategory f = "all"
                         \/ category c = Some (selectedCategory f))).
  { subst by_category. case_bool_decide as Hall.
    - intuition.
    - rewrite filter_In. split.
      + intros [Hin Hc]. apply bool_decide_eq_true in Hc. by auto.
      + intros [Hin [Hc|Hc]]; [done|]. split; [done|].
        by apply bool_decide_eq_true. }
  assert (Hsearch : In c by_search
                    <-> In c by_category
                        /\ (nonempty (searchQuery f) = true ->
                            matches (toLowerCase (searchQuery f)) c = true)).
  { subst by_search. destruct (nonempty (searchQuery f)).
    - rewrite filter_In. intuition.
    - intuition discriminate. }
  assert (Hprice : In c by_price
                   <-> In c by_search
                       /\ (priceFilter f = "free" -> is_free c = true)
                       /\ (priceFilter f = "paid" -> is_paid c = true)).
  { subst by_price. case_bool_decide as Hfree.
    - rewrite filter_In. rewrite Hfree. intuition discriminate.
    - case_bool_decide as Hpaid.
      + rewrite filter_In. intuition.
      + intuition. }
  rewrite Hprice, Hsearch, Hcat. intuition.
Qed.

(** X19: with the order "price-low" the displayed courses are in
    ascending order of price, a course without price counting as 0;
    with "price-high" they are in descending order. *)
Theorem price_orders_are_sorted f courses :
  (sortBy f = "price-low" ->
   Sorted (fun a b => price_or_0 a <= price_or_0 b)%Qc
          (filteredCourses getTime random_order f courses))
  /\ (sortBy f = "price-high" ->
      Sorted (fun a b => price_or_0 b <= price_or_0 a)%Qc
             (filteredCourses getTime random_order f courses)).
Proof.
  unfold filteredCourses.
  split; intros Hs; rewrite Hs.
  - change (bool_decide ("price-low" = "price-low")) with true. cbv iota.
    apply sort_by_sorted; [|intros a b; apply price_total].
    intros a b. apply minus_nonpositive.
  - change (bool_decide ("price-high" = "price-low")) with false.
    change (bool_decide ("price-high" = "price-high")) with true. cbv iota.
    apply sort_by_sorted; [|intros a b; apply price_total].
    intros a b. apply minus_nonpositive.
Qed.

End Effect.

Lemma displayed_iff_passes_every_filter_witness :
  In ml (filteredCourses (fun _ => 0%Z) (fun l => l)
           (setSortBy "rating" (setPriceFilter "paid" initial)) [intro_js; ml]).
Proof.
  apply (displayed_iff_passes_every_filter (fun _ => 0%Z) (fun l => l));
    [reflexivity|].
  split; [right; left; reflexivity|]. split; [left; reflexivity|].
  split; [discriminate|]. split; [discriminate|reflexivity].
Defined.

Lemma price_orders_are_sorted_witness :
  Sorted (fun a b => price_or_0 a <= price_or_0 b)%Qc
         (filteredCourses (fun _ => 0%Z) (fun l => l)
            (setSortBy "price-low" initial) [ml; intro_js]).
Proof.
  apply (price_orders_are_sorted (fun _ => 0%Z) (fun l => l)
           (setSortBy "price-low" initial) [ml; intro_js]).
  reflexivity.
Defined.

End PageFilterFacts.

(* ===================================================================== *)
(** * The courses page: what it loads and the categories it offers *)
(* ===================================================================== *)

Module PageLoadFacts.
Import Js Server Notions Facts CoursesPage CoursesPageLoad.

Lemma unique_hardcoded extra :
  unique (COURSE_CATEGORIES ++ extra)
  = (COURSE_CATEGORIES ++ unique_from (rev COURSE_CATEGORIES) extra)%list.
Proof. reflexivity. Qed.

(** X20: the category list of the sidebar does not depend on the
    courses: it is "all" followed by the first six hard-coded
    categories, so that a category outside these six, hard-coded
    ("Programming") or coming from a course, is never offered. *)
Theorem sidebar_categories_are_fixed courses :
  categories courses
  = ["all"; "Web Development"; "Data Science"; "Design"; "Mobile Development";
     "DevOps"; "Backend Development"]
  /\ "Programming" ∈ COURSE_CATEGORIES
  /\ "Programming" ∉ categories courses.
Proof.
  assert (H : categories courses
    = ["all"; "Web Development"; "Data Science"; "Design"; "Mobile Development";
       "DevOps"; "Backend Development"]).
  { unfold categories. rewrite unique_hardcoded.
    set (rest := unique_from _ _). reflexivity. }
  split; [exact H|]. split.
  - apply list_elem_of_In. cbn. tauto.
  - rewrite H, list_elem_of_In. cbn. intuition discriminate.
Qed.

Lemma formatted_status divide c :
  get c "status" = VStr "published" ->
  get (formatted divide c) "status" = VStr "published".
Proof.
  intros Hc. unfold formatted, object. cbn [get list_to_map foldr fst snd].
  rewrite !(lookup_insert_ne _ _ "status") by done.
  rewrite lookup_insert_eq. cbn [default from_option id]. by rewrite Hc.
Qed.

Lemma visible_published user c :
  get c "status" = VStr "published" -> visible user c = true.
Proof. intros Hc. unfold visible. rewrite Hc. by destruct (truthy user). Qed.

Lemma filter_all {A} (f : A -> bool) l :
  (forall x, In x l -> f x = true) -> List.filter f l = l.
Proof.
  induction l as [|x l IH]; intros H; [reflexivity|]. cbn.
  rewrite (H x) by (by left). f_equal. apply IH. intros y Hy. apply H. by right.
Qed.

Lemma no_nullish l k s :
  (forall c, In c l -> get c k = VStr s) -> existsb nullish l = false.
Proof.
  induction l as [|x l IH]; intros H; [reflexivity|]. cbn [existsb].
  rewrite IH by (intros c Hc; apply H; by right).
  specialize (H x ltac:(by left)). by destruct x.
Qed.

(** X21: the page asks for the courses without a bearer token, so the
    server answers as to an anonymous caller: on a configured server the
    page holds the courses of the anonymous listing, formatted, every
    one of them published, and no error, whoever the signed-in user is.
    A draft is not displayed to its owner either. *)
Theorem page_holds_published_only divide statusText render user w :
  misconfigured w = false ->
  exists resp,
    CoursesRoute.GET (MkRequest None ∅ (Throw "Unexpected end of JSON input")) w
    = (Ret resp, w)
    /\ loadCourses divide statusText render user w
       = (MkLoaded (map (formatted divide) (listed resp)) None, w)
    /\ loadCourses divide statusText render user w
       = loadCourses divide statusText render VNull w
    /\ forall c,
         In c (courses (loadCourses divide statusText render user w).1) ->
         get c "status" = VStr "published".
Proof.
  intros Hc.
  set (req := MkRequest None ∅ (Throw "Unexpected end of JSON input")).
  destruct (CourseListFacts.anonymous_list_published req w Hc eq_refl eq_refl)
    as (resp & Hrun & Hst & Hpub).
  assert (Hcourses : get (payload resp) "courses" = VArr (listed resp)).
  { rewrite CourseListFacts.GET_list_run in Hrun by done.
    cbn zeta in Hrun. injection Hrun as <-.
    unfold listed, json, object. cbn [payload].
    rewrite get_wire. cbn [get list_to_map foldr].
    rewrite lookup_insert_eq. reflexivity. }
  assert (Hload : forall u,
    loadCourses divide statusText render u w
    = (MkLoaded (map (formatted divide) (listed resp)) None, w)).
  { intros u. unfold loadCourses. fold req. rewrite Hrun.
    unfold Auth.ok. rewrite Hst. cbn [Z.leb Z.compare Pos.compare
      Pos.compare_cont andb negb].
    assert (Hdata : nullish (payload resp) = false).
    { destruct (payload resp); try reflexivity; discriminate. }
    rewrite Hdata, Hcourses. unfold or_else. cbn [truthy].
    rewrite (no_nullish (listed resp) "status" "published") by exact Hpub.
    rewrite filter_all; [reflexivity|].
    intros c Hin. apply in_map_iff in Hin as (x & <- & Hx).
    apply visible_published, formatted_status, Hpub, Hx. }
  exists resp. split; [exact Hrun|]. split; [apply Hload|].
  split; [by rewrite !Hload|].
  rewrite Hload. cbn [fst courses]. intros c Hin.
  apply in_map_iff in Hin as (x & <- & Hx).
  apply formatted_status, Hpub, Hx.
Qed.

Lemma page_holds_published_only_witness :
  loadCourses (fun v => v) (fun _ => "") (fun _ => "")
    (object [("id", VStr "m2")]) Demo.world0
  = loadCourses (fun v => v) (fun _ => "") (fun _ => "") VNull Demo.world0.
Proof.
  destruct (page_holds_published_only (fun v => v) (fun _ => "") (fun _ => "")
              (object [("id", VStr "m2")]) Demo.world0 eq_refl)
    as (resp & _ & _ & H & _).
  exact H.
Defined.

End PageLoadFacts.

(* ===================================================================== *)
(** * The session of the browser *)
(* ===================================================================== *)

Module SessionFacts.
Import Js Notions.
Import Server (outcome, Ret, Throw, nullable).
Import Client (browser, MkBrowser, window_defined, localStorage, memberstack,
               render_number, setItem).
Import ClientSession.

(** X22: a token that [getToken] returns is cached: when the result is
    truthy, [localStorage] holds it (as a string) under
    [memberstack_token] afterwards and no other key has changed; when
    the result is a string, every later call returns the same string
    from the cache without consulting the SDK, whatever the SDK has
    become. *)
Theorem getToken_result_is_cached more b t b' :
  getToken more b = (t, b') ->
  truthy t = true ->
  window_defined b' = true
  /\ getCachedToken b' = VStr (to_string (render_number b) t)
  /\ (forall k, k <> "memberstack_token" ->
        localStorage b' !! k = localStorage b !! k)
  /\ (forall s more' sdk',
        t = VStr s ->
        getToken more'
          (MkBrowser true (localStorage b') sdk' (render_number b'))
        = (VStr s, MkBrowser true (localStorage b') sdk' (render_number b'))).
Proof.
  unfold getToken, getCachedToken, getItem.
  destruct (window_defined b) eqn:Hw; cbn [negb].
  2:{ intros [= <- <-]. discriminate. }
  destruct (localStorage b !! "memberstack_token") as [s0|] eqn:Hs0;
    cbn [nullable truthy].
  - destruct (nonempty s0) eqn:Hn; cbn [negb].
    + intros [= <- <-] _. rewrite Hw, Hs0. cbn [negb nullable to_string].
      split; [reflexivity|]. split; [reflexivity|]. split; [reflexivity|].
      intros s more' sdk' [= <-]. cbn [window_defined localStorage negb].
      rewrite Hs0. cbn [nullable truthy]. by rewrite Hn.
    + destruct (memberstack b) as [ms|]; [|intros [= <- <-]; cbn; congruence].
      destruct (Client.probe_sdk ms (VStr s0)) as [found|];
        [|intros [= <- <-]; discriminate].
      intros [= <- <-] Ht. rewrite Ht.
      cbn [window_defined localStorage setItem negb]. rewrite Hw.
      rewrite lookup_insert_eq. cbn [negb nullable].
      split; [reflexivity|]. split; [reflexivity|].
      split; [intros k Hk; by rewrite lookup_insert_ne|].
      intros s more' sdk' Hs. rewrite Hs in Ht |- *.
      cbn [to_string nullable truthy] in Ht |- *. by rewrite Ht.
  - destruct (memberstack b) as [ms|]; [|intros [= <- <-]; discriminate].
    destruct (Client.probe_sdk ms VNull) as [found|];
      [|intros [= <- <-]; discriminate].
    intros [= <- <-] Ht. rewrite Ht.
    cbn [window_defined localStorage setItem negb]. rewrite Hw.
    rewrite lookup_insert_eq. cbn [negb nullable].
    split; [reflexivity|]. split; [reflexivity|].
    split; [intros k Hk; by rewrite lookup_insert_ne|].
    intros s more' sdk' Hs. rewrite Hs in Ht |- *.
    cbn [to_string nullable truthy] in Ht |- *. by rewrite Ht.
Qed.

Lemma getToken_result_is_cached_witness :
  getCachedToken
    (getToken (MkMethods None None None)
       (MkBrowser true ∅
          (Some (Client.MkSdk None (Some (Ret (VStr "abc"))) None None
                   VUndef VUndef VUndef))
          (fun _ => "NaN"))).2
  = VStr "abc".
Proof.
  refine (proj1 (proj2 (getToken_result_is_cached (MkMethods None None None)
    (MkBrowser true ∅
       (Some (Client.MkSdk None (Some (Ret (VStr "abc"))) None None
                VUndef VUndef VUndef))
       (fun _ => "NaN"))
    (VStr "abc") _ eq_refl eq_refl))).
Defined.

(** X23: [logoutMember] never throws and always clears the session,
    whether the SDK has a logout method or not and whether that method
    throws or not: the browser is left as [clearAuthCache] leaves it,
    so that no token and no user is cached and no other key is
    touched. *)
Theorem logout_always_clears more b :
  logoutMember more b = (Ret tt, clearAuthCache b)
  /\ (window_defined b = true ->
      getCachedToken (clearAuthCache b) = VNull
      /\ (forall parse, getCachedUser parse (clearAuthCache b) = VNull)
      /\ (forall k, k <> "memberstack_token" -> k <> "memberstack_user" ->
            localStorage (clearAuthCache b) !! k = localStorage b !! k)).
Proof.
  split.
  - unfold logoutMember, clearAuthCache.
    destruct (memberstack b) as [ms|]; [|by destruct (window_defined b)].
    destruct (ms_logoutMember more) as [[]|]; [| |destruct (ms_logout more) as [[]|]];
      by destruct (window_defined b).
  - intros Hw. unfold clearAuthCache, getCachedToken, getCachedUser, getItem.
    rewrite Hw. cbn [negb window_defined removeItem localStorage].
    rewrite Hw. cbn [negb]. split; [by rewrite lookup_delete_eq|].
    split.
    + intros parse. rewrite lookup_delete_ne, lookup_delete_eq by done.
      reflexivity.
    + intros k H1 H2. by rewrite !lookup_delete_ne.
Qed.

Lemma retry_from_success {T} (fn : nat -> outcome T) retries r : forall k i0 todo delays,
  fn (i0 + k)%nat = Ret r ->
  (forall j, (j < k)%nat -> exists e, fn (i0 + j)%nat = Throw e) ->
  (k < todo)%nat ->
  (i0 + todo = retries)%nat ->
  retry_from fn retries i0 todo delays
  = (Some r,
     (delays ++ map (fun j => 1000 * (Z.of_nat j + 1))%Z (seq i0 k))%list,
     S (i0 + k)).
Proof.
  induction k as [|k IH]; intros i0 todo delays Hr Hfail Hk Hsum.
  - destruct todo as [|todo]; [lia|]. cbn [retry_from].
    rewrite Nat.add_0_r in Hr. rewrite Hr. cbn. by rewrite app_nil_r, Nat.add_0_r.
  - destruct todo as [|todo]; [lia|]. cbn [retry_from].
    destruct (Hfail 0%nat ltac:(lia)) as [e He].
    rewrite Nat.add_0_r in He. rewrite He.
    assert (Hlt : (i0 <? retries - 1)%nat = true) by (apply Nat.ltb_lt; lia).
    rewrite Hlt.
    rewrite (IH (S i0) todo).
    + cbn [seq map]. rewrite <- app_assoc. cbn [app].
      do 2 f_equal. lia.
    + rewrite <- Hr. f_equal. lia.
    + intros j Hj. destruct (Hfail (S j) ltac:(lia)) as [e' He'].
      exists e'. rewrite <- He'. f_equal. lia.
    + lia.
    + lia.
Qed.

Lemma retry_from_failure {T} (fn : nat -> outcome T) retries : forall todo i0 delays,
  (i0 + todo = retries)%nat ->
  (forall j, (j < todo)%nat -> exists e, fn (i0 + j)%nat = Throw e) ->
  retry_from fn retries i0 todo delays
  = (None,
     (delays ++ map (fun j => 1000 * (Z.of_nat j + 1))%Z (seq i0 (todo - 1)))%list,
     retries).
Proof.
  induction todo as [|todo IH]; intros i0 delays Hsum Hfail.
  - cbn. rewrite app_nil_r. do 2 f_equal. lia.
  - cbn [retry_from].
    destruct (Hfail 0%nat ltac:(lia)) as [e He].
    rewrite Nat.add_0_r in He. rewrite He.
    rewrite (IH (S i0)).
    + destruct todo as [|todo].
      * assert (Hlt : (i0 <? retries - 1)%nat = false) by (apply Nat.ltb_ge; lia).
        rewrite Hlt. reflexivity.
      * assert (Hlt : (i0 <? retries - 1)%nat = true) by (apply Nat.ltb_lt; lia).
        rewrite Hlt. cbn [Nat.sub seq map]. rewrite Nat.sub_0_r.
        rewrite <- app_assoc. reflexivity.
    + lia.
    + intros j Hj. destruct (Hfail (S j) ltac:(lia)) as [e' He'].
      exists e'. rewrite <- He'. f_equal. lia.
Qed.

(** X24: [retryMCPCall] returns the result of the first attempt that
    does not throw, having made no call after it and having waited
    1000, 2000, ... milliseconds after the attempts that threw; when
    all [retries] attempts throw it returns [null] after exactly
    [retries] calls, without waiting after the last one. *)
Theorem retry_stops_at_first_success {T} (fn : nat -> outcome T) retries :
  (forall i r,
      (i < retries)%nat ->
      fn i = Ret r ->
      (forall j, (j < i)%nat -> exists e, fn j = Throw e) ->
      retryMCPCall fn retries
      = (Some r, map (fun j => 1000 * (Z.of_nat j + 1))%Z (seq 0 i), S i))
  /\ ((forall j, (j < retries)%nat -> exists e, fn j = Throw e) ->
      retryMCPCall fn retries
      = (None, map (fun j => 1000 * (Z.of_nat j + 1))%Z (seq 0 (retries - 1)),
         retries)).
Proof.
  split.
  - intros i r Hi Hr Hfail. unfold retryMCPCall.
    by rewrite (retry_from_success fn retries r i 0 retries []).
  - intros Hfail. unfold retryMCPCall.
    by rewrite (retry_from_failure fn retries retries 0 []).
Qed.

End SessionFacts.

(* ===================================================================== *)
(** * Seeding from the browser *)
(* ===================================================================== *)

Module ClientSeedFacts.
Import Js Notions Facts.
Import Server (outcome, Ret, Throw, nullable, world, MkRequest, status, payload,
               misconfigured, table, bearer_token, json, rec_data).
Import Client (browser, MkBrowser, window_defined, localStorage, memberstack,
               render_number, setItem).
Import ClientSession.

Lemma digit_of_char y :
  (y < 10)%N -> digit_of (pretty_N_char y) = Some (Z.of_N y).
Proof.
  intros Hy.
  assert (y = 0 \/ y = 1 \/ y = 2 \/ y = 3 \/ y = 4 \/ y = 5 \/ y = 6
          \/ y = 7 \/ y = 8 \/ y = 9)%N as H by lia.
  repeat (destruct H as [->|H]; [reflexivity|]). by subst.
Qed.

(** The digits that [pretty] writes are read back by [parseInt]. *)
Lemma digits_pretty_go x : forall s,
  (0 < x)%N ->
  digits (pretty_N_go x s) None = digits s (Some (Z.of_N x)).
Proof.
  induction (N.lt_wf_0 x) as [x _ IH]. intros s Hx.
  rewrite pretty_N_go_step by done.
  pose proof (N.div_mod x 10 ltac:(lia)) as Hdm.
  pose proof (N.mod_lt x 10 ltac:(lia)) as Hm.
  destruct (decide (x `div` 10 = 0)%N) as [Hz|Hnz].
  - rewrite Hz, pretty_N_go_0. cbn [digits].
    rewrite digit_of_char by done. cbn [default from_option id].
    do 2 f_equal. lia.
  - rewrite IH by (try apply N.div_lt; lia). cbn [digits].
    rewrite digit_of_char by done. cbn [default from_option id].
    do 2 f_equal. lia.
Qed.

Lemma pretty_N_go_head x : forall s,
  (0 < x)%N ->
  exists c rest, pretty_N_go x s = String c rest /\ digit_of c <> None.
Proof.
  induction (N.lt_wf_0 x) as [x _ IH]. intros s Hx.
  rewrite pretty_N_go_step by done.
  pose proof (N.mod_lt x 10 ltac:(lia)) as Hm.
  destruct (decide (x `div` 10 = 0)%N) as [Hz|Hnz].
  - rewrite Hz, pretty_N_go_0. eexists _, _. split; [reflexivity|].
    by rewrite digit_of_char.
  - apply IH; [apply N.div_lt; lia|]. by apply N.neq_0_lt_0.
Qed.

Lemma parseInt_digit_head c rest :
  digit_of c <> None ->
  parseInt_string (String c rest) = digits (String c rest) None.
Proof.
  destruct c as [[] [] [] [] [] [] [] []]; intros H;
    try (exfalso; apply H; reflexivity); reflexivity.
Qed.

Lemma parseInt_pretty (p : positive) :
  parseInt_string (pretty (Z.pos p)) = Some (Z.pos p)
  /\ nonempty (pretty (Z.pos p)) = true.
Proof.
  change (pretty (Z.pos p)) with (pretty (N.pos p)).
  unfold pretty, pretty_N. destruct (decide (N.pos p = 0%N)); [done|].
  destruct (pretty_N_go_head (N.pos p) "" ltac:(lia)) as (c & rest & Hs & Hd).
  split; [|by rewrite Hs].
  rewrite Hs, (parseInt_digit_head c rest Hd), <- Hs.
  by rewrite digits_pretty_go by lia.
Qed.

Lemma qc_of_Z_inj a b : qc_of_Z a = qc_of_Z b -> a = b.
Proof.
  unfold qc_of_Z. intros H. apply Q2Qc_eq_iff in H.
  unfold Qeq in H. cbn in H. lia.
Qed.

Lemma bearer_of_header s :
  bearer_token (MkRequest (Some ("Bearer " +:+ s)) ∅ (Throw "")) = Some s.
Proof. unfold bearer_token. cbn [Server.authorization]. by rewrite bearer_prefix. Qed.

(** X25: [seedCourses] of the browser sends nothing when no token can
    be found (no cached token and no SDK instance): it throws the
    request to sign in, and neither the browser nor the server changes.
    With a cached token that the server does not verify, the server
    answers 401 without storing anything, the cached token is removed
    and the request to sign in again is thrown. *)
Theorem client_seed_rejections more statusText count b w :
  window_defined b = true ->
  (localStorage b !! "memberstack_token" = None ->
   memberstack b = None ->
   seedCourses more statusText count b w = (Throw sign_in_first, b, w))
  /\ (forall s,
        localStorage b !! "memberstack_token" = Some s ->
        nonempty s = true ->
        misconfigured w = false ->
        truthy (member_of w s) = false ->
        seedCourses more statusText count b w
        = (Throw sign_in_again, removeItem "memberstack_token" b, w)).
Proof.
  intros Hw. split.
  - intros Hnone Hms. unfold seedCourses, getAuthHeaders, getToken, getItem.
    rewrite Hw, Hnone. cbn [negb nullable truthy]. by rewrite Hms.
  - intros s Hs Hn Hc Hm.
    unfold seedCourses, getAuthHeaders, getItem.
    rewrite Hw, Hs. cbn [negb nullable truthy to_string]. rewrite Hn.
    cbn [negb]. cbv beta iota zeta. cbn [truthy to_string]. rewrite Hn.
    unfold SeedRoute.POST, Server.try_catch.
    match goal with
    | |- context [CourseRoute.authenticated ?req ?k w] =>
        destruct (CourseAccessFacts.authenticated_refuses req k w Hc)
          as (resp & -> & Hst)
    end.
    { intros t Ht. unfold bearer_token in Ht. cbn [Server.authorization] in Ht.
      rewrite bearer_prefix in Ht. by injection Ht as <-. }
    unfold Auth.ok. rewrite Hst. cbn [Z.leb Z.compare Pos.compare
      Pos.compare_cont andb negb].
    by rewrite Hw.
Qed.

Lemma client_seed_rejections_witness :
  seedCourses (MkMethods None None None) (fun _ => "") (qc_of_Z 50)
    (MkBrowser true {[ "memberstack_token" := "stale" ]} None (fun _ => "NaN"))
    Demo.world0
  = (Throw sign_in_again,
     removeItem "memberstack_token"
       (MkBrowser true {[ "memberstack_token" := "stale" ]} None (fun _ => "NaN")),
     Demo.world0).
Proof.
  apply (proj2 (client_seed_rejections (MkMethods None None None) (fun _ => "")
                  (qc_of_Z 50)
                  (MkBrowser true {[ "memberstack_token" := "stale" ]} None
                     (fun _ => "NaN"))
                  Demo.world0 eq_refl) "stale"); reflexivity.
Defined.

(** X26: the count given to [seedCourses] of the browser is the count
    the server settles on, for every count from 1 to 200, whether it is
    sent ([count !== 50]) or left to the server's default: with a cached
    token that verifies, the call returns the server's answer, whose
    [requested] is the count and whose [created] is the number of
    records the table has grown by. *)
Theorem client_seed_count_reaches_server more statusText n b w s :
  window_defined b = true ->
  localStorage b !! "memberstack_token" = Some s ->
  misconfigured w = false ->
  truthy (member_of w s) = true ->
  (1 <= n <= 200)%Z ->
  render_number b (qc_of_Z n) = pretty n ->
  exists result w' created,
    seedCourses more statusText (qc_of_Z n) b w = (Ret result, b, w')
    /\ get result "requested" = num n
    /\ get result "created" = num (Z.of_nat created)
    /\ length (table w') = (length (table w) + created)%nat
    /\ (Z.of_nat created <= n)%Z.
Proof.
  intros Hw Hs Hc Hm Hn Hrender.
  assert (Hne : nonempty s = true).
  { destruct s; [by rewrite member_of_empty in Hm | reflexivity]. }
  destruct n as [|p|p]; try lia.
  destruct (parseInt_pretty p) as [Hparse Hnonempty].
  unfold seedCourses, getAuthHeaders, getItem.
  rewrite Hw, Hs. cbn [negb nullable truthy to_string]. rewrite Hne.
  cbn [negb]. cbv beta iota zeta. cbn [truthy to_string]. rewrite Hne.
  set (req := MkRequest _ _ _).
  assert (Ht : bearer_token req = Some s).
  { unfold bearer_token. cbn [Server.authorization req]. by rewrite bearer_prefix. }
  assert (Hq : SeedRoute.countParam req w = (Ret (VStr (pretty (Z.pos p))), w)).
  { unfold SeedRoute.countParam, Server.query. cbn [Server.searchParams
      Server.json_body req].
    case_bool_decide as H50.
    - apply qc_of_Z_inj in H50. rewrite H50. reflexivity.
    - rewrite lookup_singleton_eq, Hrender. cbn [nullable truthy].
      by rewrite Hnonempty. }
  assert (Hcount : SeedRoute.seed_count w (VStr (pretty (Z.pos p))) = Z.pos p).
  { apply SeedFacts.seed_count_in_range; [exact Hparse|lia]. }
  destruct (SeedingFacts.seeding_run req w s _ Hc Ht Hm Hq)
    as (done & added & Hrun & _ & Hsucc & Ha).
  rewrite Hcount in Hrun, Ha. rewrite Hrun.
  unfold Auth.ok, json. cbn [status Z.leb Z.compare Pos.compare
    Pos.compare_cont andb negb payload].
  eexists _, _, (length added). split; [reflexivity|].
  rewrite !get_wire. rewrite Hsucc.
  split; [reflexivity|]. split; [reflexivity|].
  cbn [table Server.set_table]. rewrite length_app. split; [reflexivity|].
  unfold attempts in Ha. lia.
Qed.

Lemma client_seed_count_reaches_server_witness :
  exists result w' created,
    seedCourses (MkMethods None None None) (fun _ => "") (qc_of_Z 7)
      (MkBrowser true {[ "memberstack_token" := "token-m1" ]} None
         (fun _ => "7"))
      Demo.world0
    = (Ret result,
       MkBrowser true {[ "memberstack_token" := "token-m1" ]} None (fun _ => "7"),
       w')
    /\ get result "requested" = num 7
    /\ get result "created" = num (Z.of_nat created)
    /\ length (table w') = (length (table Demo.world0) + created)%nat
    /\ (Z.of_nat created <= 7)%Z.
Proof.
  apply (client_seed_count_reaches_server (MkMethods None None None)
           (fun _ => "") 7
           (MkBrowser true {[ "memberstack_token" := "token-m1" ]} None
              (fun _ => "7"))
           Demo.world0 "token-m1"); try reflexivity. lia.
Defined.

End ClientSeedFacts.

(* ===================================================================== *)
(** * Lessons *)
(* ===================================================================== *)

Module LessonsFacts.
Import Js Server Notions Facts.

(** X27: [GET /api/lessons] answers 500 exactly when the server is not
    configured, and otherwise 400 exactly when [course_id] is absent or
    empty; in every other case it answers 200 with an array of lessons,
    no token being asked for: a failure of [listLessons] (the service
    unreachable, refusing, or answering something unreadable) is
    answered 200 with no lessons and a message, never with an error
    status. *)
Theorem lessons_route_answers service req :
  forall w,
  exists resp,
    Lessons.GET service req w = (Ret resp, w)
    /\ (status resp = 500%Z <-> misconfigured w = true)
    /\ (misconfigured w = false ->
        (status resp = 400%Z
         <-> truthy (query req "course_id") = false)
        /\ (truthy (query req "course_id") = true ->
            status resp = 200%Z
            /\ exists lessons,
                 get (payload resp) "lessons" = VArr lessons
                 /\ forall courseId e,
                      searchParams req !! "course_id" = Some courseId ->
                      Lessons.listLessons service courseId w = (Throw e, w) ->
                      lessons = []
                      /\ truthy (get (payload resp) "message") = true)).
Proof.
  intros w. unfold Lessons.GET.
  unfold try_catch at 1. unfold bind at 1, ask at 1.
  destruct (misconfigured w) eqn:Hc.
  { eexists. split; [reflexivity|]. split; [by split|]. discriminate. }
  unfold query.
  destruct (searchParams req !! "course_id") as [courseId|] eqn:Hq.
  2:{ eexists. split; [reflexivity|]. cbn. split; [by split|].
      intros _. split; [by split|]. discriminate. }
  cbn [nullable truthy].
  destruct (nonempty courseId) eqn:Hn; cbn [negb].
  2:{ eexists. split; [reflexivity|]. cbn. split; [by split|].
      intros _. split; [by split|]. discriminate. }
  assert (Hworld : exists out, Lessons.listLessons service courseId w = (out, w)).
  { unfold Lessons.listLessons, Admin.require_secret, Admin.rethrow.
    unfold bind, try_catch, ask, lift, throw.
    destruct (env_set (secretKey w)); [|by eexists].
    destruct (Lessons.fetched_lessons _ _); by eexists. }
  destruct Hworld as [out Hout].
  unfold try_catch at 1. unfold bind at 1. rewrite Hout.
  destruct out as [lessons|e].
  - eexists. split; [reflexivity|]. cbn [status json]. split; [by split|].
    intros _. split; [by split|]. intros _. split; [reflexivity|].
    exists (map (fun x => match x with VUndef => VNull | _ => wire x end) lessons).
    split.
    + unfold json, object. cbn [payload]. rewrite get_wire.
      cbn [get list_to_map foldr]. by rewrite lookup_insert_eq.
    + intros courseId' e [= <-] He. congruence.
  - eexists. split; [reflexivity|]. cbn [status json]. split; [by split|].
    intros _. split; [by split|]. intros _. split; [reflexivity|].
    exists []. split; [reflexivity|].
    intros courseId' e' _ _. split; reflexivity.
Qed.


End LessonsFacts.

(* ===================================================================== *)
(** * The tags of the creation form *)
(* ===================================================================== *)

Module FormFacts.
Import Js NewCourseForm.

Lemma includes_comma c r :
  includes (String c r) "," = Ascii.eqb c "," || includes r ",".
Proof.
  cbn [includes String.prefix].
  destruct (ascii_dec "," c) as [<-|Hne].
  - by destruct r.
  - assert (Ascii.eqb c "," = false) as ->.
    { apply Ascii.eqb_neq. congruence. }
    reflexivity.
Qed.

Lemma includes_comma_empty : includes "" "," = false.
Proof. reflexivity. Qed.

Lemma split_comma_free s :
  forall x, In x (split_comma s) -> includes x "," = false.
Proof.
  induction s as [|c r IH]; intros x Hx.
  - destruct Hx as [<-|[]]. reflexivity.
  - cbn [split_comma] in Hx. destruct (Ascii.eqb c ",") eqn:Hc.
    + destruct Hx as [<-|Hx]; [reflexivity|by apply IH].
    + destruct (split_comma r) as [|y ys] eqn:Hs.
      * destruct Hx as [<-|[]]. by rewrite includes_comma, Hc.
      * destruct Hx as [<-|Hx].
        -- rewrite includes_comma, Hc. apply IH. by left.
        -- apply IH. by right.
Qed.

Lemma skip_space_comma_free s :
  includes s "," = false -> includes (skip_space s) "," = false.
Proof.
  induction s as [|c r IH]; [done|]. intros H. cbn [skip_space].
  destruct (is_space c); [|exact H].
  rewrite includes_comma in H. apply orb_false_iff in H as [_ H]. by apply IH.
Qed.

Lemma trim_end_comma_free s :
  includes s "," = false -> includes (trim_end s) "," = false.
Proof.
  induction s as [|c r IH]; [done|]. intros H.
  rewrite includes_comma in H. apply orb_false_iff in H as [Hc Hr].
  cbn [trim_end]. specialize (IH Hr).
  destruct (trim_end r) as [|c' r'].
  - destruct (is_space c); [reflexivity|]. by rewrite includes_comma, Hc.
  - by rewrite includes_comma, Hc, IH.
Qed.

Lemma trim_end_idempotent s : trim_end (trim_end s) = trim_end s.
Proof.
  induction s as [|c r IH]; [reflexivity|]. cbn [trim_end].
  destruct (trim_end r) as [|c' r'] eqn:Hr.
  - destruct (is_space c) eqn:Hc; [reflexivity|]. cbn [trim_end]. by rewrite Hc.
  - cbn [trim_end] in IH |- *. rewrite IH. reflexivity.
Qed.

(** A string that does not start with a space keeps its first
    character when its end is trimmed. *)
Lemma skip_space_trim_end s :
  skip_space s = s -> skip_space (trim_end s) = trim_end s.
Proof.
  destruct s as [|c r]; [reflexivity|]. cbn [skip_space].
  destruct (is_space c) eqn:Hc.
  - intros H. exfalso.
    assert (Hlen : forall x, String.length (skip_space x) <= String.length x).
    { induction x as [|a x IHx]; cbn; [lia|]. destruct (is_space a); cbn; lia. }
    specialize (Hlen r). rewrite H in Hlen. cbn in Hlen. lia.
  - intros _. cbn [trim_end].
    destruct (trim_end r); [rewrite Hc|]; cbn [skip_space]; by rewrite Hc.
Qed.

Lemma skip_space_idempotent s : skip_space (skip_space s) = skip_space s.
Proof.
  induction s as [|c r IH]; [reflexivity|]. cbn [skip_space].
  destruct (is_space c) eqn:Hc; [exact IH|]. cbn [skip_space]. by rewrite Hc.
Qed.

Lemma trim_idempotent s : trim (trim s) = trim s.
Proof.
  unfold trim.
  rewrite (skip_space_trim_end (skip_space s)) by apply skip_space_idempotent.
  apply trim_end_idempotent.
Qed.

(** X29: the tags the creation form sends: the text is cut at the
    commas and each piece is trimmed; every tag sent is a non-empty,
    comma-free string with no white space at either end (trimming it
    again changes nothing). *)
Theorem form_tags_are_clean text l tag :
  tags_of text = Some l ->
  In tag l ->
  nonempty tag = true
  /\ includes tag "," = false
  /\ trim tag = tag.
Proof.
  unfold tags_of. destruct (nonempty text); [|discriminate].
  intros [= <-] Hin. apply filter_In in Hin as [Hin Hn].
  apply in_map_iff in Hin as (x & <- & Hx).
  split; [exact Hn|]. split.
  - unfold trim. apply trim_end_comma_free, skip_space_comma_free.
    by apply (split_comma_free text).
  - apply trim_idempotent.
Qed.

Lemma form_tags_are_clean_witness :
  tags_of "react, next js ,,  css " = Some ["react"; "next js"; "css"]
  /\ nonempty "next js" = true
  /\ includes "next js" "," = false
  /\ trim "next js" = "next js".
Proof.
  split; [reflexivity|].
  apply (form_tags_are_clean "react, next js ,,  css "
           ["react"; "next js"; "css"] "next js" eq_refl).
  right. left. reflexivity.
Defined.

End FormFacts.
